(** * Young-wealth admin backend: the user store and the admin routes

    A shallow embedding of [server/models/User.js] and
    [server/routes/admin.js].  Request fields are JavaScript values, the
    two stores are lists threaded through every operation, and what the
    environment supplies during a request (the clock read by [new Date()],
    the identifier drawn by [uuidv4()], the bcrypt primitives) is an
    explicit argument.  [server/models/Course.js], which the routes require,
    is not among the sources; the course store is modelled from the
    specification and marked as such. *)

From Stdlib Require Import ZArith Ascii String DecimalString.
From stdpp Require Import gmap strings list.

Local Open Scope string_scope.

(** ** JavaScript values and the built-ins the routes call *)

Module JS.

(** Numbers.  A finite number [Fin m e] stands for [m * 10^e].  A Number
    is a binary64 double: [canon] below rounds a decimal to the nearest
    double and names it by the shortest decimal that reads back as it, the
    digits [Number::toString] prints.  Every number the built-ins return is
    in that form, and a [VNum x] of a request body denotes the double
    nearest to [x].  The two zeros are not distinguished (the routes only
    test [isNaN], [< 0], [<= 0] and truthiness, which agree on [+0] and
    [-0], and both print as [0]). *)
Inductive number : Type :=
| NaN
| Inf (neg : bool)
| Fin (m e : Z).

(** *** Rounding to binary64 *)

(** A positive double is [M * 2^E] with [M < 2^53] and [-1074 <= E <= 971],
    and [2^52 <= M] unless [E = -1074]. *)
Inductive double : Type :=
| DZero
| DInf
| DNum (M E : Z).

Definition double_eqb (a b : double) : bool :=
  match a, b with
  | DZero, DZero | DInf, DInf => true
  | DNum M E, DNum M' E' => ((M =? M') && (E =? E'))%Z
  | _, _ => false
  end.

(** The integer nearest to [a / b], the even one of two equally near. *)
Definition half_even (a b : Z) : Z :=
  let q := (a / b)%Z in
  let r := (a mod b)%Z in
  if (2 * r <? b)%Z then q
  else if (b <? 2 * r)%Z then (q + 1)%Z
  else if Z.even q then q else (q + 1)%Z.

(** The fraction [a / b] divided by [2^k], and by [10^k]. *)
Definition over_pow2 (a b k : Z) : Z * Z :=
  if (0 <=? k)%Z then (a, b * 2 ^ k)%Z else (a * 2 ^ (- k), b)%Z.

Definition over_pow10 (a b k : Z) : Z * Z :=
  if (0 <=? k)%Z then (a, b * 10 ^ k)%Z else (a * 10 ^ (- k), b)%Z.

(** The double nearest to [a / b], for positive [a] and [b]: what is at
    most [2^-1075] rounds to zero, what reaches [2^1024 - 2^970] to
    infinity. *)
Definition to_double (a b : Z) : double :=
  let E0 := (Z.log2 a - Z.log2 b - 52)%Z in
  let '(a0, b0) := over_pow2 a b E0 in
  let E1 := if (a0 / b0 <? 2 ^ 52)%Z then (E0 - 1)%Z else E0 in
  let E := Z.max E1 (-1074) in
  let '(a1, b1) := over_pow2 a b E in
  let M := half_even a1 b1 in
  let '(M, E) :=
    if (M =? 2 ^ 53)%Z then (2 ^ 52, E + 1)%Z else (M, E) in
  if (M =? 0)%Z then DZero
  else if (971 <? E)%Z then DInf
  else DNum M E.

(** The double nearest to [s * 10^j]. *)
Definition decimal_to_double (s j : Z) : double :=
  let '(a, b) := over_pow10 s 1 (- j) in to_double a b.

(** The [n] with [10^(n-1) <= a / b < 10^n], searched around the estimate
    that the binary logarithms give; the estimate is off by two at most. *)
Fixpoint raise (fuel : nat) (a b n : Z) : Z :=
  match fuel with
  | O => n
  | S f =>
      let '(a', b') := over_pow10 a b n in
      if (a' <? b')%Z then n else raise f a b (n + 1)
  end.

Fixpoint descend (fuel : nat) (a b n : Z) : Z :=
  match fuel with
  | O => n
  | S f =>
      let '(a', b') := over_pow10 a b (n - 1) in
      if (a' <? b')%Z then descend f a b (n - 1) else n
  end.

Definition decimal_exponent (a b : Z) : Z :=
  let n0 := ((Z.log2 a - Z.log2 b) * 30103 / 100000)%Z in
  descend 4 a b (raise 4 a b n0).

(** The digits of the double [d = a / b]: the least [k] for which some
    [s] of [k] digits has [s * 10^(n-k)] round to [d], and of those [s] the
    one nearest to [d].  Seventeen digits always suffice. *)
Fixpoint shortest (fuel : nat) (k : Z) (d : double) (a b n : Z) : Z * Z :=
  let j := (n - k)%Z in
  let '(a', b') := over_pow10 a b j in
  match fuel with
  | O => (half_even a' b', j)
  | S f =>
      let lo := (a' / b')%Z in
      let hi := (lo + 1)%Z in
      let lo_ok := (0 <? lo)%Z && double_eqb (decimal_to_double lo j) d in
      let hi_ok := double_eqb (decimal_to_double hi j) d in
      if lo_ok && hi_ok then (half_even a' b', j)
      else if lo_ok then (lo, j)
      else if hi_ok then (hi, j)
      else shortest f (k + 1) d a b n
  end.

(** The double nearest to [m * 10^e], for positive [m], under the sign
    [neg]: an integer below [10^21] as [Fin s 0], any other finite value as
    its digits and their exponent. *)
Definition canon_pos (neg : bool) (m e : Z) : number :=
  match decimal_to_double m e with
  | DZero => Fin 0 0
  | DInf => Inf neg
  | DNum M E =>
      let '(a, b) := over_pow2 M 1 (- E) in
      let n := decimal_exponent a b in
      let '(s, j) := shortest 17 1 (DNum M E) a b n in
      let '(s, j) :=
        if (s mod 10 =? 0)%Z then (s / 10, j + 1)%Z else (s, j) in
      let '(s, j) :=
        if ((0 <? j) && (n <=? 21))%Z then (s * 10 ^ j, 0)%Z else (s, j) in
      Fin (if neg then (- s)%Z else s) j
  end.

Definition canon (x : number) : number :=
  match x with
  | Fin Z0 _ => Fin 0 0
  | Fin (Zpos p) e => canon_pos false (Zpos p) e
  | Fin (Zneg p) e => canon_pos true (Zpos p) e
  | _ => x
  end.

(** The primitive values a parsed request body can hold, and [Date]
    objects, which entities carry as timestamps. *)
Inductive value : Type :=
| VUndef
| VNull
| VBool (b : bool)
| VNum (x : number)
| VStr (s : string)
| VDate (t : Z).

Definition zero : number := Fin 0 0.

Definition isNaN (x : number) : bool :=
  match x with NaN => true | _ => false end.

(** [x < 0] *)
Definition lt0 (x : number) : bool :=
  match x with
  | NaN => false
  | Inf neg => neg
  | Fin m _ => (m <? 0)%Z
  end.

(** [x <= 0] *)
Definition le0 (x : number) : bool :=
  match x with
  | NaN => false
  | Inf neg => neg
  | Fin m _ => (m <=? 0)%Z
  end.

(** ToBoolean on numbers: [NaN] and zero are falsy. *)
Definition num_truthy (x : number) : bool :=
  match x with
  | NaN => false
  | Inf _ => true
  | Fin m _ => negb (m =? 0)%Z
  end.

(** ToBoolean. *)
Definition truthy (v : value) : bool :=
  match v with
  | VUndef | VNull => false
  | VBool b => b
  | VNum x => num_truthy (canon x)
  | VStr s => negb (String.eqb s "")
  | VDate _ => true
  end.

(** [x || 0] on numbers. *)
Definition or_zero (x : number) : number :=
  if num_truthy x then x else zero.

(** *** Strings.  A character stands for a UTF-16 code unit below 256. *)

Definition code (c : ascii) : Z := Z.of_N (N_of_ascii c).

(** White space and line terminators among the code units below 256. *)
Definition is_ws (c : ascii) : bool :=
  let n := code c in
  ((9 <=? n) && (n <=? 13) || (n =? 32) || (n =? 160))%Z.

Fixpoint trimStart (s : string) : string :=
  match s with
  | EmptyString => EmptyString
  | String c s' => if is_ws c then trimStart s' else s
  end.

Fixpoint trimEnd (s : string) : string :=
  match s with
  | EmptyString => EmptyString
  | String c s' =>
      match trimEnd s' with
      | EmptyString => if is_ws c then EmptyString else String c EmptyString
      | t => String c t
      end
  end.

Definition trim (s : string) : string := trimEnd (trimStart s).

Definition lower (c : ascii) : ascii :=
  let n := code c in
  if ((65 <=? n) && (n <=? 90)
      || (192 <=? n) && (n <=? 222) && negb (n =? 215))%Z
  then ascii_of_N (Z.to_N (n + 32)) else c.

Fixpoint toLowerCase (s : string) : string :=
  match s with
  | EmptyString => EmptyString
  | String c s' => String (lower c) (toLowerCase s')
  end.

(** [list.includes(v)] for a list of string literals: only a string can be
    the same value as one of them. *)
Definition includes (l : list string) (v : value) : bool :=
  match v with
  | VStr s => existsb (String.eqb s) l
  | _ => false
  end.

(** *** Number to string (Number::toString, radix 10) *)

Definition digits_of_pos (p : positive) : string :=
  NilEmpty.string_of_uint (Pos.to_uint p).

Fixpoint strip_zeros (s : string) : string :=
  match s with
  | EmptyString => EmptyString
  | String c s' =>
      match strip_zeros s' with
      | EmptyString =>
          if Ascii.eqb c "0" then EmptyString else String c EmptyString
      | t => String c t
      end
  end.

Fixpoint zeros (n : nat) : string :=
  match n with
  | O => EmptyString
  | S n' => String "0" (zeros n')
  end.

Definition pos_toString (p : positive) (e : Z) : string :=
  let all := digits_of_pos p in
  let s := strip_zeros all in
  let k := String.length s in
  let n := (Z.of_nat (String.length all) + e)%Z in
  if ((Z.of_nat k <=? n) && (n <=? 21))%Z then
    s ++ zeros (Z.to_nat n - k)
  else if ((0 <? n) && (n <=? 21))%Z then
    substring 0 (Z.to_nat n) s ++ "." ++ substring (Z.to_nat n) (k - Z.to_nat n) s
  else if ((-6 <? n) && (n <=? 0))%Z then
    "0." ++ zeros (Z.to_nat (- n)) ++ s
  else
    let ex := (n - 1)%Z in
    let exs := (if (ex <? 0)%Z then "-" else "+")
                 ++ digits_of_pos (Z.to_pos (Z.abs ex)) in
    if (k =? 1)%nat then s ++ "e" ++ exs
    else substring 0 1 s ++ "." ++ substring 1 (k - 1) s ++ "e" ++ exs.

Definition number_toString (x : number) : string :=
  match x with
  | NaN => "NaN"
  | Inf neg => if neg then "-Infinity" else "Infinity"
  | Fin Z0 _ => "0"
  | Fin (Zpos p) e => pos_toString p e
  | Fin (Zneg p) e => "-" ++ pos_toString p e
  end.

(** *** parseFloat and parseInt *)

Definition digit_of (radix : Z) (c : ascii) : option Z :=
  let n := code c in
  let d := if ((48 <=? n) && (n <=? 57))%Z then (n - 48)%Z
           else if ((97 <=? n) && (n <=? 122))%Z then (n - 87)%Z
           else if ((65 <=? n) && (n <=? 90))%Z then (n - 55)%Z
           else 36%Z in
  if (d <? radix)%Z then Some d else None.

(** Reads the longest run of digits: the value accumulated onto [acc], the
    number of digits read, and what is left. *)
Fixpoint read_digits (radix : Z) (s : string) (acc : Z) (cnt : Z)
  : Z * Z * string :=
  match s with
  | EmptyString => (acc, cnt, s)
  | String c s' =>
      match digit_of radix c with
      | Some d => read_digits radix s' (radix * acc + d)%Z (cnt + 1)%Z
      | None => (acc, cnt, s)
      end
  end.

(** An optional sign: [true] when it is a minus. *)
Definition read_sign (s : string) : bool * string :=
  match s with
  | String "-" s' => (true, s')
  | String "+" s' => (false, s')
  | _ => (false, s)
  end.

Definition signed (neg : bool) (m : Z) : Z := if neg then (- m)%Z else m.

(** An exponent part counts only when it is complete. *)
Definition read_exponent (s : string) : Z :=
  match s with
  | String c s' =>
      if Ascii.eqb c "e" || Ascii.eqb c "E" then
        let '(neg, s'') := read_sign s' in
        let '(v, cnt, _) := read_digits 10 s'' 0 0 in
        if (cnt =? 0)%Z then 0%Z else signed neg v
      else 0%Z
  | EmptyString => 0%Z
  end.

(** The longest prefix of the trimmed string that is a decimal literal,
    as the double nearest to it. *)
Definition parseFloat_str (s : string) : number :=
  let '(neg, s1) := read_sign (trimStart s) in
  if String.prefix "Infinity" s1 then Inf neg
  else
    let '(ip, ni, s2) := read_digits 10 s1 0 0 in
    let '(m, nf, s3) :=
      match s2 with
      | String "." s2' => read_digits 10 s2' ip 0
      | _ => (ip, 0%Z, s2)
      end in
    if (ni + nf =? 0)%Z then NaN
    else canon (Fin (signed neg m) (read_exponent s3 - nf)).

(** [parseInt] without a radix: base 16 after a [0x] prefix, else 10. *)
Definition parseInt_str (s : string) : number :=
  let '(neg, s1) := read_sign (trimStart s) in
  let '(radix, s2) :=
    match s1 with
    | String "0" (String c s') =>
        if Ascii.eqb c "x" || Ascii.eqb c "X" then (16%Z, s') else (10%Z, s1)
    | _ => (10%Z, s1)
    end in
  let '(v, cnt, _) := read_digits radix s2 0 0 in
  if (cnt =? 0)%Z then NaN else canon (Fin (signed neg v) 0).

(** Both built-ins first convert their argument to a string; the string of
    [undefined], [null], a boolean or a [Date] starts with no digit, sign,
    dot or [Infinity], so the parse of it is [NaN]. *)
Definition parseFloat (v : value) : number :=
  match v with
  | VStr s => parseFloat_str s
  | VNum x => parseFloat_str (number_toString (canon x))
  | _ => NaN
  end.

Definition parseInt (v : value) : number :=
  match v with
  | VStr s => parseInt_str s
  | VNum x => parseInt_str (number_toString (canon x))
  | _ => NaN
  end.

(** [v.trim()]: a [TypeError] (here [None]) when [v] is not a string. *)
Definition call_trim (v : value) : option string :=
  match v with
  | VStr s => Some (trim s)
  | _ => None
  end.

(** [v.toLowerCase().trim()], likewise. *)
Definition call_toLowerCase_trim (v : value) : option string :=
  match v with
  | VStr s => Some (trim (toLowerCase s))
  | _ => None
  end.

(** [v !== undefined] *)
Definition defined (v : value) : bool :=
  match v with VUndef => false | _ => true end.

(** [v === 'true'] *)
Definition is_true_literal (v : value) : bool :=
  match v with VStr s => String.eqb s "true" | _ => false end.

(** [array.findIndex(p)], with [None] for [-1]. *)
Fixpoint findIndex {A : Type} (p : A -> bool) (l : list A) : option nat :=
  match l with
  | [] => None
  | x :: l' => if p x then Some 0 else S <$> findIndex p l'
  end.

End JS.


(** Timestamps: a [Date] is the instant it holds, in milliseconds. *)
Definition Date : Type := Z.

(** What the environment hands to one request: the instant [new Date()]
    reads, the identifier [uuidv4()] draws, the salt bcrypt generates. *)
Record Env : Type := mkEnv {
  now : Date;
  uuid : string;
  salt : string
}.

(** ** server/models/User.js *)

Module UserModel.

Record User : Type := mkUser {
  id : string;
  fullName : string;
  email : string;
  password : string;
  role : string;
  schoolType : option string;
  isActive : bool;
  createdAt : Date;
  updatedAt : Date
}.

(** The object given to [new User(data)]; an absent property is [None]. *)
Record UserData : Type := mkUserData {
  d_id : option string;
  d_fullName : string;
  d_email : string;
  d_password : string;
  d_role : string;
  d_schoolType : option string;
  d_isActive : option bool;
  d_createdAt : option Date
}.

(** [constructor(data)] *)
Definition new_User (env : Env) (data : UserData) : User :=
  {| id := match d_id data with
           | Some i => if String.eqb i "" then uuid env else i
           | None => uuid env
           end;
     fullName := d_fullName data;
     email := d_email data;
     password := d_password data;
     role := d_role data;
     schoolType := d_schoolType data;
     isActive := default true (d_isActive data);
     createdAt := default (now env) (d_createdAt data);
     updatedAt := now env |}.

Definition seed_hash : string :=
  "$2a$10$92IXUNpkjO0rOQ5byMi.Ye4oKoEa3Ro9llC/.og/at2.uheWG/igi".

Definition seed (i name mail r : string) (st : option string) : UserData :=
  {| d_id := Some i; d_fullName := name; d_email := mail;
     d_password := seed_hash; d_role := r; d_schoolType := st;
     d_isActive := None; d_createdAt := None |}.

(** The mock database as it stands when the module is loaded. *)
Definition users (env : Env) : list User :=
  [ new_User env (seed "1" "John Doe" "john@student.com" "school-student"
                       (Some "government"));
    new_User env (seed "2" "Jane Smith" "jane@college.com" "college-student"
                       None);
    new_User env (seed "admin" "Admin User" "admin@youngwealth.com" "admin"
                       None) ].

Definition deactivate (t : Date) (u : User) : User :=
  {| id := id u; fullName := fullName u; email := email u;
     password := password u; role := role u; schoolType := schoolType u;
     isActive := false; createdAt := createdAt u; updatedAt := t |}.

Definition with_password (h : string) (d : UserData) : UserData :=
  {| d_id := d_id d; d_fullName := d_fullName d; d_email := d_email d;
     d_password := h; d_role := d_role d; d_schoolType := d_schoolType d;
     d_isActive := d_isActive d; d_createdAt := d_createdAt d |}.

(** What a call leaves behind: a returned value or a thrown [Error]. *)
Inductive outcome (A : Type) : Type :=
| Returned (a : A)
| Thrown (message : string).
Arguments Returned {A} a.
Arguments Thrown {A} message.

Section Bcrypt.

(** [bcrypt.hash(s, rounds)] with the salt it generated, and
    [bcrypt.compare(s, hash)]. *)
Variable bcrypt_hash : string -> Z -> string -> string.
Variable bcrypt_compare : string -> string -> bool.

Definition getAll (us : list User) : list User :=
  List.filter (fun user => isActive user) us.

Definition getById (i : string) (us : list User) : option User :=
  List.find (fun user => String.eqb (id user) i && isActive user) us.

Definition getByEmail (mail : string) (us : list User) : option User :=
  List.find (fun user => String.eqb (email user) mail && isActive user) us.

(** [create] is [async] and suspends once, at [await bcrypt.hash(...)]:
    other calls can run between the email check before it and the push
    after it.  [create_check] is the part that runs when [create] is
    called, on the list as the call finds it. *)
Definition create_check (userData : UserData) (us : list User)
  : outcome unit :=
  match List.find (fun user => String.eqb (email user) (d_email userData)) us with
  | Some _ => Thrown "User with this email already exists"
  | None => Returned tt
  end.

(** [create_resume] is the part that runs once the hash is there, on the
    list as it is by then: the email is not checked again. *)
Definition create_resume (env : Env) (userData : UserData) (us : list User)
  : User * list User :=
  let hashedPassword := bcrypt_hash (d_password userData) 10 (salt env) in
  let user := new_User env (with_password hashedPassword userData) in
  (user, (us ++ [user])%list).

(** A call of [create] during whose [await] nothing else touches the
    list. *)
Definition create (env : Env) (userData : UserData) (us : list User)
  : outcome User * list User :=
  match create_check userData us with
  | Thrown message => (Thrown message, us)
  | Returned _ =>
      let '(user, us') := create_resume env userData us in
      (Returned user, us')
  end.

Definition delete (env : Env) (i : string) (us : list User)
  : option User * list User :=
  match JS.findIndex (fun user => String.eqb (id user) i) us with
  | Some index =>
      match us !! index with
      | Some u =>
          let u' := deactivate (now env) u in
          (Some u', <[index := u']> us)
      | None => (None, us)
      end
  | None => (None, us)
  end.

Definition validatePassword (plainPassword hashedPassword : string) : bool :=
  bcrypt_compare plainPassword hashedPassword.

End Bcrypt.

(** The [updateData] object given to [UserModel.update], restricted to the
    properties of a user record: a property the object does not have is
    [None].  ([schoolType] may be given as [undefined].) *)
Record UserUpdate : Type := mkUserUpdate {
  p_id : option string;
  p_fullName : option string;
  p_email : option string;
  p_password : option string;
  p_role : option string;
  p_schoolType : option (option string);
  p_isActive : option bool;
  p_createdAt : option Date;
  p_updatedAt : option Date
}.

(** [{ ...user, ...updateData, updatedAt: new Date() }]: the last property
    wins, so an [updatedAt] of [updateData] is overwritten. *)
Definition spread (t : Date) (updateData : UserUpdate) (u : User) : User :=
  {| id := default (id u) (p_id updateData);
     fullName := default (fullName u) (p_fullName updateData);
     email := default (email u) (p_email updateData);
     password := default (password u) (p_password updateData);
     role := default (role u) (p_role updateData);
     schoolType := default (schoolType u) (p_schoolType updateData);
     isActive := default (isActive u) (p_isActive updateData);
     createdAt := default (createdAt u) (p_createdAt updateData);
     updatedAt := t |}.

Definition update (env : Env) (i : string) (updateData : UserUpdate)
  (us : list User) : option User * list User :=
  match JS.findIndex (fun user => String.eqb (id user) i) us with
  | Some index =>
      match us !! index with
      | Some u =>
          let u' := spread (now env) updateData u in
          (Some u', <[index := u']> us)
      | None => (None, us)
      end
  | None => (None, us)
  end.

(** The own properties of a user object, in the order the constructor
    assigns them. *)
Definition properties (u : User) : gmap string JS.value :=
  <["updatedAt" := JS.VDate (updatedAt u)]>
  (<["createdAt" := JS.VDate (createdAt u)]>
  (<["isActive" := JS.VBool (isActive u)]>
  (<["schoolType" := from_option JS.VStr JS.VUndef (schoolType u)]>
  (<["role" := JS.VStr (role u)]>
  (<["password" := JS.VStr (password u)]>
  (<["email" := JS.VStr (email u)]>
  (<["fullName" := JS.VStr (fullName u)]>
  (<["id" := JS.VStr (id u)]> ∅)))))))).

End UserModel.

(** ** server/models/Course.js *)

Module Video.

(** Modelled from the spec: [server/models/Course.js] is not among the
    sources.  The video record of the data model: identifier, title,
    description, path of the uploaded file, duration in minutes and the two
    timestamps. *)
Record Video : Type := mkVideo {
  id : string;
  title : string;
  description : string;
  videoUrl : string;
  duration : JS.number;
  createdAt : Date;
  updatedAt : Date
}.

End Video.

Module CourseModel.

(** Modelled from the spec: [server/models/Course.js] is not among the
    sources.  The course record of the data model; [category] and [level]
    hold the request's values as the routes pass them on, [thumbnail] is a
    path or [null] ([None]), and the course owns the ordered list of its
    videos. *)
Record Course : Type := mkCourse {
  id : string;
  title : string;
  description : string;
  category : JS.value;
  level : JS.value;
  price : JS.number;
  duration : JS.number;
  thumbnail : option string;
  isActive : bool;
  videos : list Video.Video;
  createdAt : Date;
  updatedAt : Date
}.

(** The [courseData] object the create route builds; the route never sets
    [isActive], other callers of the store may. *)
Record CourseData : Type := mkCourseData {
  d_title : string;
  d_description : string;
  d_category : JS.value;
  d_level : JS.value;
  d_price : JS.number;
  d_duration : JS.number;
  d_thumbnail : option string;
  d_isActive : option bool
}.

(** The sparse [updateData] object the update route builds: a property the
    route did not set is [None]. *)
Record UpdateData : Type := mkUpdateData {
  u_title : option string;
  u_description : option string;
  u_category : option JS.value;
  u_level : option JS.value;
  u_price : option JS.number;
  u_duration : option JS.number;
  u_isActive : option bool;
  u_thumbnail : option string
}.

(** Modelled from the spec: the course constructor of the absent
    [server/models/Course.js].  "Creation assigns a fresh unique identifier"
    and the timestamps; a course starts without videos and, as users do,
    active unless the data say otherwise. *)
Definition new_Course (env : Env) (data : CourseData) : Course :=
  {| id := uuid env;
     title := d_title data;
     description := d_description data;
     category := d_category data;
     level := d_level data;
     price := d_price data;
     duration := d_duration data;
     thumbnail := d_thumbnail data;
     isActive := default true (d_isActive data);
     videos := [];
     createdAt := now env;
     updatedAt := now env |}.

(** Modelled from the spec: "a strict merge of provided fields is applied,
    plus a refreshed updatedAt timestamp"; "unspecified fields are left
    untouched on the entity". *)
Definition merge (t : Date) (updateData : UpdateData) (c : Course) : Course :=
  {| id := id c;
     title := default (title c) (u_title updateData);
     description := default (description c) (u_description updateData);
     category := default (category c) (u_category updateData);
     level := default (level c) (u_level updateData);
     price := default (price c) (u_price updateData);
     duration := default (duration c) (u_duration updateData);
     thumbnail := match u_thumbnail updateData with
                  | Some p => Some p
                  | None => thumbnail c
                  end;
     isActive := default (isActive c) (u_isActive updateData);
     videos := videos c;
     createdAt := createdAt c;
     updatedAt := t |}.

(** Modelled from the spec: [CourseModel.getAll] of the absent
    [server/models/Course.js], "list all (including inactive, for admin
    view)". *)
Definition getAll (cs : list Course) : list Course := cs.

(** Modelled from the spec: [CourseModel.create] of the absent
    [server/models/Course.js]; the new course joins the collection and is
    returned. *)
Definition create (env : Env) (courseData : CourseData) (cs : list Course)
  : Course * list Course :=
  let course := new_Course env courseData in
  (course, (cs ++ [course])%list).

(** Modelled from the spec: [CourseModel.update] of the absent
    [server/models/Course.js], the partial update.  "Missing target entity
    (by id) => not-found signal, no partial side effects"; the sentinel is
    [null], here [None]. *)
Definition update (env : Env) (i : string) (updateData : UpdateData)
  (cs : list Course) : option Course * list Course :=
  match JS.findIndex (fun course => String.eqb (id course) i) cs with
  | Some index =>
      match cs !! index with
      | Some c =>
          let c' := merge (now env) updateData c in
          (Some c', <[index := c']> cs)
      | None => (None, cs)
      end
  | None => (None, cs)
  end.

(** Modelled from the spec: [CourseModel.delete] of the absent
    [server/models/Course.js], the "hard delete (removes from the collection
    entirely)", with the not-found sentinel for an identifier that does not
    resolve. *)
Definition delete (i : string) (cs : list Course)
  : option Course * list Course :=
  match JS.findIndex (fun course => String.eqb (id course) i) cs with
  | Some index =>
      match cs !! index with
      | Some c => (Some c, base.delete index cs)
      | None => (None, cs)
      end
  | None => (None, cs)
  end.

End CourseModel.

(** ** server/routes/admin.js *)

Module Admin.

Import CourseModel.

(** The file multer stored for the request, if any. *)
Record File : Type := mkFile { filename : string }.

(** What a handler reads of the request: the parsed body, the [:id]
    parameter of the route and the uploaded file. *)
Record Request : Type := mkRequest {
  body : gmap string JS.value;
  params_id : string;
  file : option File
}.

(** Destructuring the body: an absent property reads as [undefined]. *)
Definition field (req : Request) (name : string) : JS.value :=
  default JS.VUndef (body req !! name).

(** The two process-wide collections. *)
Record Store : Type := mkStore {
  users : list UserModel.User;
  courses : list Course
}.

Definition with_courses (cs : list Course) (st : Store) : Store :=
  {| users := users st; courses := cs |}.

Record Stats : Type := mkStats {
  totalCourses : nat;
  activeCourses : nat;
  totalUsers : nat;
  schoolStudents : nat;
  collegeStudents : nat;
  employees : nat;
  totalVideos : nat
}.

(** The JSON documents the routes send: [{success: false, error, errors?}]
    for a failure, [{success: true, ...}] with one more property for a
    success. *)
Inductive Payload : Type :=
| Failure (error : string) (errors : option (gmap string string))
| SuccessAdmin (admin : gmap string JS.value)
| SuccessCourses (courses : list Course)
| SuccessCourse (course : Course)
| SuccessMessage (message : string)
| SuccessStats (stats : Stats).

Record Response : Type := mkResponse {
  status : nat;
  payload : Payload
}.

(** [try { ... } catch (error) { res.status(500).json(...) }]: the body of a
    handler yields [None] when it throws, which it does only before it has
    touched a store. *)
Definition try_catch (message : string)
  (handler : Store -> option (Response * Store)) (st : Store)
  : Response * Store :=
  match handler st with
  | Some r => r
  | None => (mkResponse 500 (Failure message None), st)
  end.

(** [if (cond) errors[name] = message] *)
Definition set_if (cond : bool) (name message : string)
  (errors : gmap string string) : gmap string string :=
  if cond then <[name := message]> errors else errors.

(** [!v || v.trim().length < n] *)
Definition missing_or_short (n : nat) (v : JS.value) : option bool :=
  if negb (JS.truthy v) then Some true
  else t ← JS.call_trim v; Some (String.length t <? n)%nat.

(** [v && v.trim().length < n] *)
Definition present_and_short (n : nat) (v : JS.value) : option bool :=
  if JS.truthy v then t ← JS.call_trim v; Some (String.length t <? n)%nat
  else Some false.

(** [isNaN(parseFloat(v)) || parseFloat(v) < 0] *)
Definition bad_price (v : JS.value) : bool :=
  JS.isNaN (JS.parseFloat v) || JS.lt0 (JS.parseFloat v).

(** [isNaN(parseInt(v)) || parseInt(v) <= 0] *)
Definition bad_duration (v : JS.value) : bool :=
  JS.isNaN (JS.parseInt v) || JS.le0 (JS.parseInt v).

Definition categories : list string := ["school"; "college"; "employee"].
Definition levels : list string := ["beginner"; "intermediate"; "advanced"].

Definition thumbnail_path (f : File) : string :=
  "/uploads/thumbnails/" ++ filename f.

(** *** POST /login *)

(** The handler suspends once, at the password check, after it has read
    the record and its hash.  It is modelled for a request during which no
    other request changes the user list. *)

Section Login.

Variable bcrypt_compare : string -> string -> bool.

(** [await UserModel.validatePassword(password, user.password)];
    [bcrypt.compare] rejects when the candidate is not a string. *)
Definition await_validatePassword (password : JS.value) (hashed : string)
  : option bool :=
  match password with
  | JS.VStr plain =>
      Some (UserModel.validatePassword bcrypt_compare plain hashed)
  | _ => None
  end.

Definition invalid_credentials : Response :=
  mkResponse 401 (Failure "Invalid admin credentials" None).

Definition post_login_body (req : Request) (st : Store)
  : option (Response * Store) :=
  let email := field req "email" in
  let password := field req "password" in
  if negb (JS.truthy email) || negb (JS.truthy password) then
    Some (mkResponse 400 (Failure "Email and password are required" None), st)
  else
    mail ← JS.call_toLowerCase_trim email;
    match UserModel.getByEmail mail (users st) with
    | None => Some (invalid_credentials, st)
    | Some user =>
        if negb (String.eqb (UserModel.role user) "admin") then
          Some (invalid_credentials, st)
        else
          isValidPassword ← await_validatePassword password
                              (UserModel.password user);
          if negb isValidPassword then Some (invalid_credentials, st)
          else
            let adminResponse :=
              base.delete "password" (UserModel.properties user) in
            Some (mkResponse 200 (SuccessAdmin adminResponse), st)
    end.

Definition post_login (req : Request) (st : Store) : Response * Store :=
  try_catch "Admin login failed" (post_login_body req) st.

End Login.

(** *** GET /courses *)

Definition get_courses (st : Store) : Response * Store :=
  (mkResponse 200 (SuccessCourses (CourseModel.getAll (courses st))), st).

(** *** POST /courses *)

Definition post_courses_errors (req : Request)
  : option (gmap string string) :=
  let errors : gmap string string := ∅ in
  short_title ← missing_or_short 3 (field req "title");
  let errors :=
    set_if short_title "title"
      "Title must be at least 3 characters long" errors in
  short_description ← missing_or_short 10 (field req "description");
  let errors :=
    set_if short_description "description"
      "Description must be at least 10 characters long" errors in
  let errors :=
    set_if (negb (JS.includes categories (field req "category")))
      "category" "Invalid category" errors in
  let errors :=
    set_if (negb (JS.includes levels (field req "level")))
      "level" "Invalid level" errors in
  let errors :=
    set_if (bad_price (field req "price"))
      "price" "Price must be a valid number" errors in
  let errors :=
    set_if (bad_duration (field req "duration"))
      "duration" "Duration must be a positive number" errors in
  Some errors.

Definition validation_failed (errors : gmap string string) : Response :=
  mkResponse 400 (Failure "Validation failed" (Some errors)).

Definition post_courses_body (env : Env) (req : Request) (st : Store)
  : option (Response * Store) :=
  errors ← post_courses_errors req;
  if (0 <? size errors)%nat then Some (validation_failed errors, st)
  else
    title ← JS.call_trim (field req "title");
    description ← JS.call_trim (field req "description");
    let courseData :=
      {| d_title := title;
         d_description := description;
         d_category := field req "category";
         d_level := field req "level";
         d_price := JS.or_zero (JS.parseFloat (field req "price"));
         d_duration := JS.or_zero (JS.parseInt (field req "duration"));
         d_thumbnail := thumbnail_path <$> file req;
         d_isActive := None |} in
    let '(course, cs) := CourseModel.create env courseData (courses st) in
    Some (mkResponse 201 (SuccessCourse course), with_courses cs st).

Definition post_courses (env : Env) (req : Request) (st : Store)
  : Response * Store :=
  try_catch "Failed to create course" (post_courses_body env req) st.

(** *** PUT /courses/:id *)

Definition put_courses_errors (req : Request)
  : option (gmap string string) :=
  let errors : gmap string string := ∅ in
  short_title ← present_and_short 3 (field req "title");
  let errors :=
    set_if short_title "title"
      "Title must be at least 3 characters long" errors in
  short_description ← present_and_short 10 (field req "description");
  let errors :=
    set_if short_description "description"
      "Description must be at least 10 characters long" errors in
  let category := field req "category" in
  let errors :=
    set_if (JS.truthy category && negb (JS.includes categories category))
      "category" "Invalid category" errors in
  let level := field req "level" in
  let errors :=
    set_if (JS.truthy level && negb (JS.includes levels level))
      "level" "Invalid level" errors in
  let price := field req "price" in
  let errors :=
    set_if (JS.truthy price && bad_price price)
      "price" "Price must be a valid number" errors in
  let duration := field req "duration" in
  let errors :=
    set_if (JS.truthy duration && bad_duration duration)
      "duration" "Duration must be a positive number" errors in
  Some errors.

(** [if (v) updateData.name = v.trim()] *)
Definition trimmed_if_present (v : JS.value) : option (option string) :=
  if JS.truthy v then t ← JS.call_trim v; Some (Some t) else Some None.

Definition put_courses_updateData (req : Request) : option UpdateData :=
  title ← trimmed_if_present (field req "title");
  description ← trimmed_if_present (field req "description");
  let category := field req "category" in
  let level := field req "level" in
  let price := field req "price" in
  let duration := field req "duration" in
  let isActive := field req "isActive" in
  Some
    {| u_title := title;
       u_description := description;
       u_category := if JS.truthy category then Some category else None;
       u_level := if JS.truthy level then Some level else None;
       u_price := if JS.defined price
                  then Some (JS.or_zero (JS.parseFloat price)) else None;
       u_duration := if JS.defined duration
                     then Some (JS.or_zero (JS.parseInt duration)) else None;
       u_isActive := if JS.defined isActive
                     then Some (JS.is_true_literal isActive) else None;
       u_thumbnail := thumbnail_path <$> file req |}.

Definition not_found (message : string) : Response :=
  mkResponse 404 (Failure message None).

Definition put_courses_body (env : Env) (req : Request) (st : Store)
  : option (Response * Store) :=
  errors ← put_courses_errors req;
  if (0 <? size errors)%nat then Some (validation_failed errors, st)
  else
    updateData ← put_courses_updateData req;
    match CourseModel.update env (params_id req) updateData (courses st) with
    | (None, cs) => Some (not_found "Course not found", with_courses cs st)
    | (Some course, cs) =>
        Some (mkResponse 200 (SuccessCourse course), with_courses cs st)
    end.

Definition put_courses (env : Env) (req : Request) (st : Store)
  : Response * Store :=
  try_catch "Failed to update course" (put_courses_body env req) st.

(** *** DELETE /courses/:id *)

Definition delete_courses (req : Request) (st : Store) : Response * Store :=
  match CourseModel.delete (params_id req) (courses st) with
  | (None, cs) => (not_found "Course not found", with_courses cs st)
  | (Some _, cs) =>
      (mkResponse 200 (SuccessMessage "Course deleted successfully"),
       with_courses cs st)
  end.

(** *** GET /stats *)

Definition has_role (r : string) (u : UserModel.User) : bool :=
  String.eqb (UserModel.role u) r.

Definition stats_of (st : Store) : Stats :=
  let courses := CourseModel.getAll (courses st) in
  let users := UserModel.getAll (users st) in
  {| totalCourses := length courses;
     activeCourses := length (List.filter (fun c => isActive c) courses);
     totalUsers :=
       length (List.filter (fun u => negb (has_role "admin" u)) users);
     schoolStudents :=
       length (List.filter (fun u => has_role "school-student" u) users);
     collegeStudents :=
       length (List.filter (fun u => has_role "college-student" u) users);
     employees :=
       length (List.filter (fun u => has_role "employee" u) users);
     totalVideos :=
       fold_left (fun total course => total + length (videos course))
         courses 0 |}.

Definition get_stats (st : Store) : Response * Store :=
  (mkResponse 200 (SuccessStats (stats_of st)), st).

(** *** The [courseData] object of POST /courses *)

Definition post_courses_courseData (req : Request) : option CourseData :=
  title ← JS.call_trim (field req "title");
  description ← JS.call_trim (field req "description");
  Some
    {| d_title := title;
       d_description := description;
       d_category := field req "category";
       d_level := field req "level";
       d_price := JS.or_zero (JS.parseFloat (field req "price"));
       d_duration := JS.or_zero (JS.parseInt (field req "duration"));
       d_thumbnail := thumbnail_path <$> file req;
       d_isActive := None |}.

(** *** The multer configuration *)

(** What multer knows of a file when it asks where to put it and whether to
    take it. *)
Record Upload : Type := mkUpload {
  fieldname : string;
  originalname : string;
  mimetype : string
}.

(** The three directories made at start-up: [uploads], [uploads/videos],
    [uploads/thumbnails]. *)
Inductive Dir : Type := uploadsDir | videosDir | thumbnailsDir.

(** [storage.destination] *)
Definition destination (f : Upload) : Dir :=
  if String.eqb (fieldname f) "video" then videosDir
  else if String.eqb (fieldname f) "thumbnail" then thumbnailsDir
  else uploadsDir.

(** What a multer callback is called with: [cb(null, true)] or
    [cb(new Error(message))]. *)
Inductive Verdict : Type :=
| Accepted
| Rejected (message : string).

(** [fileFilter]; [startsWith] is a prefix test. *)
Definition fileFilter (f : Upload) : Verdict :=
  if String.eqb (fieldname f) "video" then
    if String.prefix "video/" (mimetype f) then Accepted
    else Rejected "Only video files are allowed"
  else if String.eqb (fieldname f) "thumbnail" then
    if String.prefix "image/" (mimetype f) then Accepted
    else Rejected "Only image files are allowed"
  else Accepted.

(** *** The video routes *)

(** The [videoData] object of POST /courses/:courseId/videos and the sparse
    [updateData] object of PUT /courses/:courseId/videos/:videoId. *)
Record VideoData : Type := mkVideoData {
  v_title : string;
  v_description : string;
  v_videoUrl : string;
  v_duration : JS.number
}.

Record VideoUpdateData : Type := mkVideoUpdateData {
  vu_title : option string;
  vu_description : option string;
  vu_duration : option JS.number
}.

(** The answers of the video routes: those of the other routes, and
    [{success: true, video}]. *)
Inductive VideoAnswer : Type :=
| Answer (r : Response)
| AnswerVideo (status : nat) (video : Video.Video).

Definition try_catch_video (message : string)
  (handler : Store -> option (VideoAnswer * Store)) (st : Store)
  : VideoAnswer * Store :=
  match handler st with
  | Some r => r
  | None => (Answer (mkResponse 500 (Failure message None)), st)
  end.

Definition video_path (f : File) : string :=
  "/uploads/videos/" ++ filename f.

Definition post_videos_errors (req : Request)
  : option (gmap string string) :=
  let errors : gmap string string := ∅ in
  short_title ← missing_or_short 3 (field req "title");
  let errors :=
    set_if short_title "title"
      "Video title must be at least 3 characters long" errors in
  short_description ← missing_or_short 10 (field req "description");
  let errors :=
    set_if short_description "description"
      "Video description must be at least 10 characters long" errors in
  let errors :=
    set_if (bad_duration (field req "duration"))
      "duration" "Duration must be a positive number" errors in
  let errors :=
    set_if (match file req with Some _ => false | None => true end)
      "video" "Video file is required" errors in
  Some errors.

Definition post_videos_videoData (req : Request) : option VideoData :=
  title ← JS.call_trim (field req "title");
  description ← JS.call_trim (field req "description");
  f ← file req;
  Some
    {| v_title := title;
       v_description := description;
       v_videoUrl := video_path f;
       v_duration := JS.or_zero (JS.parseInt (field req "duration")) |}.

Definition put_videos_errors (req : Request)
  : option (gmap string string) :=
  let errors : gmap string string := ∅ in
  short_title ← present_and_short 3 (field req "title");
  let errors :=
    set_if short_title "title"
      "Video title must be at least 3 characters long" errors in
  short_description ← present_and_short 10 (field req "description");
  let errors :=
    set_if short_description "description"
      "Video description must be at least 10 characters long" errors in
  let duration := field req "duration" in
  let errors :=
    set_if (JS.truthy duration && bad_duration duration)
      "duration" "Duration must be a positive number" errors in
  Some errors.

Definition put_videos_updateData (req : Request) : option VideoUpdateData :=
  title ← trimmed_if_present (field req "title");
  description ← trimmed_if_present (field req "description");
  let duration := field req "duration" in
  Some
    {| vu_title := title;
       vu_description := description;
       vu_duration := if JS.defined duration
                      then Some (JS.or_zero (JS.parseInt duration))
                      else None |}.

Section Videos.

(** [CourseModel.addVideo(courseId, videoData)],
    [CourseModel.updateVideo(courseId, videoId, updateData)] and
    [CourseModel.deleteVideo(courseId, videoId)] of
    [server/models/Course.js]: each returns the video or a falsy value and
    leaves a course list behind. *)
Variable addVideo :
  Env -> string -> VideoData -> list Course
  -> option Video.Video * list Course.
Variable updateVideo :
  Env -> string -> string -> VideoUpdateData -> list Course
  -> option Video.Video * list Course.
Variable deleteVideo :
  Env -> string -> string -> list Course
  -> option Video.Video * list Course.

(** POST /courses/:courseId/videos *)
Definition post_videos_body (env : Env) (courseId : string) (req : Request)
  (st : Store) : option (VideoAnswer * Store) :=
  errors ← post_videos_errors req;
  if (0 <? size errors)%nat then Some (Answer (validation_failed errors), st)
  else
    videoData ← post_videos_videoData req;
    match addVideo env courseId videoData (courses st) with
    | (None, cs) =>
        Some (Answer (not_found "Course not found"), with_courses cs st)
    | (Some video, cs) => Some (AnswerVideo 201 video, with_courses cs st)
    end.

Definition post_videos (env : Env) (courseId : string) (req : Request)
  (st : Store) : VideoAnswer * Store :=
  try_catch_video "Failed to add video" (post_videos_body env courseId req) st.

(** PUT /courses/:courseId/videos/:videoId *)
Definition put_videos_body (env : Env) (courseId videoId : string)
  (req : Request) (st : Store) : option (VideoAnswer * Store) :=
  errors ← put_videos_errors req;
  if (0 <? size errors)%nat then Some (Answer (validation_failed errors), st)
  else
    updateData ← put_videos_updateData req;
    match updateVideo env courseId videoId updateData (courses st) with
    | (None, cs) =>
        Some (Answer (not_found "Video not found"), with_courses cs st)
    | (Some video, cs) => Some (AnswerVideo 200 video, with_courses cs st)
    end.

Definition put_videos (env : Env) (courseId videoId : string)
  (req : Request) (st : Store) : VideoAnswer * Store :=
  try_catch_video "Failed to update video"
    (put_videos_body env courseId videoId req) st.

(** DELETE /courses/:courseId/videos/:videoId *)
Definition delete_videos (env : Env) (courseId videoId : string)
  (st : Store) : VideoAnswer * Store :=
  match deleteVideo env courseId videoId (courses st) with
  | (None, cs) =>
      (Answer (not_found "Video not found"), with_courses cs st)
  | (Some _, cs) =>
      (Answer (mkResponse 200 (SuccessMessage "Video deleted successfully")),
       with_courses cs st)
  end.

End Videos.

End Admin.

(** ** The properties in the words of the specification *)

Module Spec.

Import Admin.

(** [x] is the first element of [l] that satisfies [p], at position [k]:
    how an identifier resolves to a record of a store. *)
Definition first_with {A : Type} (p : A -> bool) (l : list A) (k : nat) (x : A)
  : Prop :=
  l !! k = Some x /\ p x = true
  /\ forall j y, j < k -> l !! j = Some y -> p y = false.

Definition resolves_course (i : string) (cs : list CourseModel.Course)
  (k : nat) (c : CourseModel.Course) : Prop :=
  first_with (fun course => String.eqb (CourseModel.id course) i) cs k c.

Definition resolves_user (i : string) (us : list UserModel.User)
  (k : nat) (u : UserModel.User) : Prop :=
  first_with (fun user => String.eqb (UserModel.id user) i) us k u.

(** A text field shorter than [n] once trimmed.  A missing (falsy) value
    has no characters; a truthy value that is not a string has no trimmed
    length, so it is not too short. *)
Definition too_short (n : nat) (v : JS.value) : bool :=
  match v with
  | JS.VStr s => (String.length (JS.trim s) <? n)%nat
  | _ => negb (JS.truthy v)
  end.

Definition one_of (l : list string) (v : JS.value) : bool :=
  match v with
  | JS.VStr s => bool_decide (s ∈ l)
  | _ => false
  end.

Definition non_numeric_or_negative (x : JS.number) : bool :=
  match x with
  | JS.NaN => true
  | JS.Inf neg => neg
  | JS.Fin m _ => bool_decide (m < 0)%Z
  end.

Definition non_numeric_or_not_positive (x : JS.number) : bool :=
  match x with
  | JS.NaN => true
  | JS.Inf neg => neg
  | JS.Fin m _ => bool_decide (m <= 0)%Z
  end.

(** The fields of a course-creation input that break a rule.  Price and
    duration are judged as the Numbers [parseFloat] and [parseInt] make of
    the field, so after rounding to a double. *)
Definition invalid_field (req : Request) (name : string) : bool :=
  if String.eqb name "title" then too_short 3 (field req "title")
  else if String.eqb name "description" then
    too_short 10 (field req "description")
  else if String.eqb name "category" then
    negb (one_of ["school"; "college"; "employee"] (field req "category"))
  else if String.eqb name "level" then
    negb (one_of ["beginner"; "intermediate"; "advanced"] (field req "level"))
  else if String.eqb name "price" then
    non_numeric_or_negative (JS.parseFloat (field req "price"))
  else if String.eqb name "duration" then
    non_numeric_or_not_positive (JS.parseInt (field req "duration"))
  else false.

(** A value a text input delivers: a string, or nothing (a falsy value). *)
Definition text_or_absent (v : JS.value) : Prop :=
  JS.truthy v = false \/ exists s, v = JS.VStr s.

(** POST /courses turns the request down with status 400 and an [errors]
    object whose keys are exactly the invalid fields, and creates nothing,
    whenever some field is invalid. *)
Definition rejects_invalid (env : Env) (req : Request) (st : Store) : Prop :=
  (exists name, invalid_field req name = true) ->
  exists errors,
    post_courses env req st = (validation_failed errors, st)
    /\ forall name, is_Some (errors !! name) <-> invalid_field req name = true.

(** The request without one of its body fields. *)
Definition without (name : string) (req : Request) : Request :=
  {| body := base.delete name (body req);
     params_id := params_id req;
     file := file req |}.

(** The two numeric fields of a course. *)
Inductive numeric_field : Type := Price | Duration.

Definition field_name (f : numeric_field) : string :=
  match f with Price => "price" | Duration => "duration" end.

(** What a course stores for the field, and what an update provides. *)
Definition stored (f : numeric_field) : CourseModel.Course -> JS.number :=
  match f with
  | Price => CourseModel.price
  | Duration => CourseModel.duration
  end.

Definition provided (f : numeric_field)
  : CourseModel.UpdateData -> option JS.number :=
  match f with
  | Price => CourseModel.u_price
  | Duration => CourseModel.u_duration
  end.

(** PUT /courses/:id ignores an explicit zero in the field [f]: the update
    data are those of the request without the field, and every stored course
    keeps its value of the field. *)
Definition zero_is_ignored (f : numeric_field)
  (env : Env) (req : Request) (st : Store) : Prop :=
  field req (field_name f) = JS.VNum JS.zero ->
  put_courses_updateData req
  = put_courses_updateData (without (field_name f) req)
  /\ forall k,
       stored f <$> (courses (put_courses env req st).2 !! k)
       = stored f <$> (courses st !! k).

(** What PUT /courses/:id does with a value of the field [f] that is falsy
    but not [undefined]: validation reports nothing for the field, the
    update data provide zero for it, and, when validation passes and the
    identifier resolves, the course found is stored with zero in the
    field. *)
Definition resets_to_zero (f : numeric_field)
  (env : Env) (req : Request) (st : Store) : Prop :=
  (forall errors,
      put_courses_errors req = Some errors -> errors !! field_name f = None)
  /\ (forall updateData,
         put_courses_updateData req = Some updateData ->
         provided f updateData = Some JS.zero)
  /\ (forall k c,
         put_courses_errors req = Some ∅ ->
         resolves_course (params_id req) (courses st) k c ->
         exists c',
           put_courses env req st
           = (mkResponse 200 (SuccessCourse c'),
              with_courses (<[k := c']> (courses st)) st)
           /\ stored f c' = JS.zero).

(** The update data of a request that carries a new title and nothing
    else. *)
Definition title_only : CourseModel.UpdateData :=
  {| CourseModel.u_title := Some "New Title";
     CourseModel.u_description := None;
     CourseModel.u_category := None;
     CourseModel.u_level := None;
     CourseModel.u_price := None;
     CourseModel.u_duration := None;
     CourseModel.u_isActive := None;
     CourseModel.u_thumbnail := None |}.

(** How many elements satisfy [p]. *)
Fixpoint count {A : Type} (p : A -> bool) (l : list A) : nat :=
  match l with
  | [] => 0
  | x :: l' => (if p x then 1 else 0) + count p l'
  end.

(** The videos of all courses together. *)
Fixpoint video_total (cs : list CourseModel.Course) : nat :=
  match cs with
  | [] => 0
  | c :: cs' => length (CourseModel.videos c) + video_total cs'
  end.

Definition counted (r : string) (u : UserModel.User) : bool :=
  UserModel.isActive u && String.eqb (UserModel.role u) r.

Definition counted_non_admin (u : UserModel.User) : bool :=
  UserModel.isActive u && negb (String.eqb (UserModel.role u) "admin").

(** [1] when the user has the role, [0] otherwise. *)
Definition one_if_role (r : string) (u : UserModel.User) : nat :=
  if String.eqb (UserModel.role u) r then 1 else 0.

(** The stores after [UserModel.delete(i)]. *)
Definition soft_delete (env : Env) (i : string) (st : Store) : Store :=
  {| users := (UserModel.delete env i (users st)).2;
     courses := courses st |}.

(** An update that touches nothing. *)
Definition no_update : UserModel.UserUpdate :=
  {| UserModel.p_id := None; UserModel.p_fullName := None;
     UserModel.p_email := None; UserModel.p_password := None;
     UserModel.p_role := None; UserModel.p_schoolType := None;
     UserModel.p_isActive := None; UserModel.p_createdAt := None;
     UserModel.p_updatedAt := None |}.

(** [{ email: e }] and [{ isActive: b }] *)
Definition only_email (e : string) : UserModel.UserUpdate :=
  {| UserModel.p_id := None; UserModel.p_fullName := None;
     UserModel.p_email := Some e; UserModel.p_password := None;
     UserModel.p_role := None; UserModel.p_schoolType := None;
     UserModel.p_isActive := None; UserModel.p_createdAt := None;
     UserModel.p_updatedAt := None |}.

Definition only_isActive (b : bool) : UserModel.UserUpdate :=
  {| UserModel.p_id := None; UserModel.p_fullName := None;
     UserModel.p_email := None; UserModel.p_password := None;
     UserModel.p_role := None; UserModel.p_schoolType := None;
     UserModel.p_isActive := Some b; UserModel.p_createdAt := None;
     UserModel.p_updatedAt := None |}.

(** No two records of the list share an email, or an identifier. *)
Definition unique_emails (us : list UserModel.User) : Prop :=
  NoDup (UserModel.email <$> us).

Definition unique_ids (us : list UserModel.User) : Prop :=
  NoDup (UserModel.id <$> us).

(** What [email.toLowerCase().trim()] makes of an email. *)
Definition normalised (mail : string) : string :=
  JS.trim (JS.toLowerCase mail).

(** The user an email resolves to: the first record of the list that has
    the email and is active. *)
Definition resolves_email (mail : string) (us : list UserModel.User)
  (k : nat) (u : UserModel.User) : Prop :=
  us !! k = Some u
  /\ UserModel.email u = mail
  /\ UserModel.isActive u = true
  /\ forall j w,
       j < k -> us !! j = Some w -> UserModel.email w = mail ->
       UserModel.isActive w = false.

(** [u'] is [u] soft-deleted at [t]: the active flag is off, the update
    stamp is [t], and every other property is as in [u]. *)
Definition deactivated (t : Date) (u u' : UserModel.User) : Prop :=
  UserModel.isActive u' = false
  /\ UserModel.updatedAt u' = t
  /\ UserModel.id u' = UserModel.id u
  /\ UserModel.fullName u' = UserModel.fullName u
  /\ UserModel.email u' = UserModel.email u
  /\ UserModel.password u' = UserModel.password u
  /\ UserModel.role u' = UserModel.role u
  /\ UserModel.schoolType u' = UserModel.schoolType u
  /\ UserModel.createdAt u' = UserModel.createdAt u.

(** No active user has the email. *)
Definition no_active_user (mail : string) (us : list UserModel.User) : Prop :=
  forall w, w ∈ us -> UserModel.email w = mail -> UserModel.isActive w = false.

(** The fields of a course-update input that are present (truthy) and break
    a rule. *)
Definition invalid_update_field (req : Request) (name : string) : bool :=
  JS.truthy (field req name) && invalid_field req name.

(** The fields of an add-video input that break a rule; [video] stands for
    the uploaded file. *)
Definition invalid_video_field (req : Request) (name : string) : bool :=
  if String.eqb name "title" then too_short 3 (field req "title")
  else if String.eqb name "description" then
    too_short 10 (field req "description")
  else if String.eqb name "duration" then
    non_numeric_or_not_positive (JS.parseInt (field req "duration"))
  else if String.eqb name "video" then
    match file req with Some _ => false | None => true end
  else false.

(** A number that is neither [NaN] nor negative, and one that is neither
    [NaN] nor negative nor zero. *)
Definition not_negative (x : JS.number) : Prop :=
  JS.isNaN x = false /\ JS.lt0 x = false.

Definition positive (x : JS.number) : Prop :=
  JS.isNaN x = false /\ JS.le0 x = false.

(** An active user whose role is none of the four the statistics name. *)
Definition other_role (u : UserModel.User) : bool :=
  UserModel.isActive u
  && negb (existsb (String.eqb (UserModel.role u))
             ["admin"; "school-student"; "college-student"; "employee"]).

(** The stores with another user list. *)
Definition with_users (us : list UserModel.User) (st : Store) : Store :=
  {| users := us; courses := courses st |}.

End Spec.

(** ** Sample data *)

Module Sample.

Import Admin.

Definition env0 : Env :=
  {| now := 1762128000000%Z;
     uuid := "9b2e6a54-0c1d-4f7a-8e3b-5d6c7a8b9c0d";
     salt := "$2a$10$N9qo8uLOickgx2ZMRZoMye" |}.

Definition env1 : Env :=
  {| now := 1762214400000%Z;
     uuid := "1f0e9d8c-7b6a-4c5d-9e4f-3a2b1c0d9e8f";
     salt := "$2a$10$CwTycUXWue0Thq9StjUM0u" |}.

(** Stand-ins for the bcrypt primitives: the hash keeps salt and plaintext
    apart, and the comparison accepts a plaintext for the hash that
    [toy_hash] makes of it under the salt of [env0], and for nothing else;
    it accepts no plaintext for the seeded hash. *)
Definition toy_hash (s : string) (rounds : Z) (salt : string) : string :=
  salt ++ "/" ++ s.

Definition toy_compare (plain hashed : string) : bool :=
  String.eqb hashed (salt env0 ++ "/" ++ plain).

(** A user whose password is "correct-horse", hashed by [toy_hash]. *)
Definition member (i mail r : string) (active : bool) : UserModel.User :=
  UserModel.new_User env0
    {| UserModel.d_id := Some i;
       UserModel.d_fullName := "Member " ++ i;
       UserModel.d_email := mail;
       UserModel.d_password := toy_hash "correct-horse" 10 (salt env0);
       UserModel.d_role := r;
       UserModel.d_schoolType := None;
       UserModel.d_isActive := Some active;
       UserModel.d_createdAt := None |}.

(** A registration that reuses the email of the first seeded user. *)
Definition again_john : UserModel.UserData :=
  {| UserModel.d_id := None;
     UserModel.d_fullName := "Johnny Doe";
     UserModel.d_email := "john@student.com";
     UserModel.d_password := "s3cret-pass";
     UserModel.d_role := "employee";
     UserModel.d_schoolType := None;
     UserModel.d_isActive := None;
     UserModel.d_createdAt := None |}.

(** A registration with an email nobody has yet. *)
Definition newcomer : UserModel.UserData :=
  {| UserModel.d_id := None;
     UserModel.d_fullName := "Nia Newcomer";
     UserModel.d_email := "new@youngwealth.com";
     UserModel.d_password := "s3cret-pass";
     UserModel.d_role := "employee";
     UserModel.d_schoolType := None;
     UserModel.d_isActive := None;
     UserModel.d_createdAt := None |}.

Definition video0 : Video.Video :=
  {| Video.id := "v-1"; Video.title := "Compound interest";
     Video.description := "How interest on interest grows savings";
     Video.videoUrl := "/uploads/videos/video-1.mp4";
     Video.duration := JS.Fin 12 0;
     Video.createdAt := 1761955200000%Z; Video.updatedAt := 1761955200000%Z |}.

Definition course (i t : string) (active : bool) (vs : list Video.Video)
  : CourseModel.Course :=
  {| CourseModel.id := i;
     CourseModel.title := t;
     CourseModel.description := "Saving and budgeting for beginners";
     CourseModel.category := JS.VStr "school";
     CourseModel.level := JS.VStr "beginner";
     CourseModel.price := JS.Fin 100 0;
     CourseModel.duration := JS.Fin 60 0;
     CourseModel.thumbnail := None;
     CourseModel.isActive := active;
     CourseModel.videos := vs;
     CourseModel.createdAt := 1761955200000%Z;
     CourseModel.updatedAt := 1761955200000%Z |}.

Definition store0 : Store :=
  {| users := UserModel.users env0;
     courses := [ course "c-1" "Money basics" true [video0];
                  course "c-2" "Budgeting" true [];
                  course "c-3" "Old course" false [video0; video0] ] |}.

Definition request (i : string) (fields : list (string * JS.value)) : Request :=
  {| body := list_to_map fields; params_id := i; file := None |}.

Definition valid_fields : list (string * JS.value) :=
  [ ("title", JS.VStr "Investing 101");
    ("description", JS.VStr "A first look at long-term investing");
    ("category", JS.VStr "college");
    ("level", JS.VStr "beginner");
    ("price", JS.VStr "49.99");
    ("duration", JS.VStr "90") ].

(** A registration of a second admin. *)
Definition new_admin : UserModel.UserData :=
  {| UserModel.d_id := None;
     UserModel.d_fullName := "Rosa Root";
     UserModel.d_email := "root@youngwealth.com";
     UserModel.d_password := "s3cret-pass";
     UserModel.d_role := "admin";
     UserModel.d_schoolType := None;
     UserModel.d_isActive := None;
     UserModel.d_createdAt := None |}.

(** A store whose only admin was stored with capitals in the email. *)
Definition store_raw : Store :=
  {| users := [ UserModel.new_User env0
                  (UserModel.seed "admin" "Admin User"
                     "Admin@YoungWealth.com" "admin" None) ];
     courses := [] |}.

Definition login_request (mail pw : string) : Request :=
  request "" [("email", JS.VStr mail); ("password", JS.VStr pw)].

(** A store with a student, the admin, and an admin who was soft-deleted. *)
Definition staff : Store :=
  {| users := [ member "7" "sam@student.com" "school-student" true;
                member "8" "admin@youngwealth.com" "admin" true;
                member "9" "gone@youngwealth.com" "admin" false ];
     courses := [] |}.

(** A request that comes with an uploaded file. *)
Definition with_file (name : string) (req : Request) : Request :=
  {| body := body req; params_id := params_id req;
     file := Some (mkFile name) |}.

Definition video_fields : list (string * JS.value) :=
  [ ("title", JS.VStr " Compound interest ");
    ("description", JS.VStr "How interest on interest grows savings");
    ("duration", JS.VStr "12") ].

(** Stand-ins for the video operations of the course store: they know the
    course "c-1" and its video "v-1" and leave the course list alone. *)
Definition toy_addVideo (env : Env) (courseId : string) (data : VideoData)
  (cs : list CourseModel.Course)
  : option Video.Video * list CourseModel.Course :=
  if String.eqb courseId "c-1" then
    (Some {| Video.id := uuid env; Video.title := v_title data;
             Video.description := v_description data;
             Video.videoUrl := v_videoUrl data;
             Video.duration := v_duration data;
             Video.createdAt := now env; Video.updatedAt := now env |}, cs)
  else (None, cs).

Definition toy_updateVideo (env : Env) (courseId videoId : string)
  (data : VideoUpdateData) (cs : list CourseModel.Course)
  : option Video.Video * list CourseModel.Course :=
  if String.eqb courseId "c-1" && String.eqb videoId "v-1" then
    (Some {| Video.id := "v-1";
             Video.title := default (Video.title video0) (vu_title data);
             Video.description :=
               default (Video.description video0) (vu_description data);
             Video.videoUrl := Video.videoUrl video0;
             Video.duration :=
               default (Video.duration video0) (vu_duration data);
             Video.createdAt := Video.createdAt video0;
             Video.updatedAt := now env |}, cs)
  else (None, cs).

End Sample.

(** * Properties *)

(** ** The built-ins on sample arguments *)

Example parseFloat_samples :
  map JS.parseFloat
    [JS.VStr "49.99"; JS.VStr "  -12.50abc"; JS.VStr ".5e3"; JS.VStr "abc";
     JS.VStr ""; JS.VStr "-Infinity"; JS.VNum (JS.Fin 0 0); JS.VNull;
     JS.VUndef]
  = [JS.Fin 4999 (-2); JS.Fin (-125) (-1); JS.Fin 500 0; JS.NaN;
     JS.NaN; JS.Inf true; JS.Fin 0 0; JS.NaN; JS.NaN].
Proof. vm_compute. reflexivity. Qed.

(** Literals that no double holds exactly: underflow to zero and overflow
    to infinity, the least and the greatest double, the first integer that
    is not a double, and digits past the seventeenth. *)
Example parseFloat_rounds :
  map JS.parseFloat_str
    ["-1e-400"; "2.4e-324"; "2.5e-324"; "1.7976931348623158e308";
     "1.7976931348623159e308"; "-1e400"; "9007199254740993";
     "0.1000000000000000055511151231257827"; "123456789012345678901"]
  = [JS.Fin 0 0; JS.Fin 0 0; JS.Fin 5 (-324); JS.Fin 17976931348623157 292;
     JS.Inf false; JS.Inf true; JS.Fin 9007199254740992 0;
     JS.Fin 1 (-1); JS.Fin 123456789012345680000 0].
Proof. vm_compute. reflexivity. Qed.

Example parsed_number_prints :
  map (fun s => JS.number_toString (JS.parseFloat_str s))
    ["49.990"; "1e21"; "1e23"; "0.0000001"; "0.000001"; "4.35";
     "0.30000000000000004"; "12345678901234567890123"; "-1e-400"]
  = ["49.99"; "1e+21"; "1e+23"; "1e-7"; "0.000001"; "4.35";
     "0.30000000000000004"; "1.2345678901234568e+22"; "0"].
Proof. vm_compute. reflexivity. Qed.

Example parseInt_samples :
  map JS.parseInt
    [JS.VStr "90"; JS.VStr " 0x1A"; JS.VStr "-10.7"; JS.VStr "12px";
     JS.VStr "0x"; JS.VStr ""; JS.VNum (JS.Fin 37 (-1));
     JS.VNum (JS.Fin 5 (-7)); JS.VNum (JS.Fin 15 20)]
  = [JS.Fin 90 0; JS.Fin 26 0; JS.Fin (-10) 0; JS.Fin 12 0;
     JS.NaN; JS.NaN; JS.Fin 3 0; JS.Fin 5 0; JS.Fin 1 0].
Proof. vm_compute. reflexivity. Qed.

Example number_toString_samples :
  map JS.number_toString
    [JS.Fin 1250 (-2); JS.Fin 5 (-7); JS.Fin 5 (-6); JS.Fin 15 20;
     JS.Fin 1 21; JS.Fin (-1234) (-10); JS.Fin 0 3; JS.NaN]
  = ["12.5"; "5e-7"; "0.000005"; "1.5e+21";
     "1e+21"; "-1.234e-7"; "0"; "NaN"].
Proof. reflexivity. Qed.

Example trim_samples :
  (JS.trim "  New Title ", JS.trim "   ",
   JS.trim (JS.toLowerCase " Admin@YoungWealth.com "))
  = ("New Title", "", "admin@youngwealth.com").
Proof. reflexivity. Qed.

(** ** Array helpers *)

Section FindIndex.

Context {A : Type} (p : A -> bool).

Lemma findIndex_Some (l : list A) (i : nat) :
  JS.findIndex p l = Some i ->
  exists x, l !! i = Some x /\ p x = true.
Proof.
  revert i. induction l as [|y l IH]; intros i; simpl; [discriminate|].
  destruct (p y) eqn:Hy.
  - intros [= <-]. eauto.
  - destruct (JS.findIndex p l) as [j|]; simpl; [|discriminate].
    intros [= <-]. apply IH. reflexivity.
Qed.

Lemma findIndex_None (l : list A) :
  JS.findIndex p l = None -> forall x, x ∈ l -> p x = false.
Proof.
  induction l as [|y l IH]; simpl; intros H x Hx.
  - inversion Hx.
  - destruct (p y) eqn:Hy; [discriminate|].
    destruct (JS.findIndex p l); [discriminate|].
    apply elem_of_cons in Hx as [->|Hx]; auto.
Qed.

Lemma findIndex_least (l : list A) (k : nat) :
  JS.findIndex p l = Some k ->
  forall j y, j < k -> l !! j = Some y -> p y = false.
Proof.
  revert k. induction l as [|z l IH]; intros k; simpl; [discriminate|].
  destruct (p z) eqn:Hz.
  - intros [= <-] j y Hj. lia.
  - destruct (JS.findIndex p l) as [k'|]; simpl; [|discriminate].
    intros [= <-] [|j] y Hj Hy.
    + injection Hy as <-. exact Hz.
    + apply (IH k' eq_refl j y); [lia|exact Hy].
Qed.

Lemma findIndex_found (l : list A) (x : A) :
  x ∈ l -> p x = true -> is_Some (JS.findIndex p l).
Proof.
  intros Hx Hp. destruct (JS.findIndex p l) eqn:E; [eauto|].
  rewrite (findIndex_None l E x Hx) in Hp. discriminate.
Qed.

(** Replacing one element moves a filtered count by that element only. *)
Lemma filter_insert_length (f : A -> bool) (l : list A) (k : nat) (x y : A) :
  l !! k = Some x ->
  length (List.filter f (<[k := y]> l)) + (if f x then 1 else 0)
  = length (List.filter f l) + (if f y then 1 else 0).
Proof.
  revert k. induction l as [|z l IH]; intros [|k]; simpl; try discriminate.
  - intros [= ->]. destruct (f x), (f y); simpl; lia.
  - intros H. specialize (IH k H). destruct (f z); simpl; lia.
Qed.

Lemma filter_filter (f g : A -> bool) (l : list A) :
  List.filter g (List.filter f l) = List.filter (fun x => f x && g x) l.
Proof.
  induction l as [|z l IH]; simpl; [reflexivity|].
  destruct (f z); simpl; [destruct (g z)|]; rewrite ?IH; reflexivity.
Qed.

End FindIndex.

(** ** The user store *)

Section UserStore.

Import UserModel.

Lemma find_Some_elem {A : Type} (p : A -> bool) (l : list A) (x : A) :
  List.find p l = Some x -> x ∈ l /\ p x = true.
Proof.
  intros H. apply List.find_some in H as [Hin Hp].
  split; [apply list_elem_of_In; exact Hin | exact Hp].
Qed.

Lemma find_None_elem {A : Type} (p : A -> bool) (l : list A) :
  List.find p l = None -> forall x, x ∈ l -> p x = false.
Proof.
  intros H x Hx. apply (List.find_none p l H). apply list_elem_of_In, Hx.
Qed.

(** C7.  Email uniqueness is checked against every stored record, whatever
    its [isActive] flag: [UserModel.create] throws the conflict error and
    leaves the list as it was as soon as some record has the email;
    otherwise it appends exactly one user, whose password is the bcrypt hash
    of the plaintext supplied. *)
Theorem create_email_unique
  (bcrypt_hash : string -> Z -> string -> string)
  (env : Env) (userData : UserData) (us : list User) :
  ((exists u, u ∈ us /\ email u = d_email userData) ->
   create bcrypt_hash env userData us
   = (Thrown "User with this email already exists", us))
  /\
  ((forall u, u ∈ us -> email u <> d_email userData) ->
   exists user,
     create bcrypt_hash env userData us = (Returned user, (us ++ [user])%list)
     /\ password user = bcrypt_hash (d_password userData) 10%Z (salt env)
     /\ email user = d_email userData).
Proof.
  unfold create, create_check. split.
  - intros (u & Hu & He).
    destruct (List.find _ us) eqn:E; [reflexivity|].
    pose proof (find_None_elem _ _ E u Hu) as Hf. simpl in Hf.
    rewrite He, String.eqb_refl in Hf. discriminate.
  - intros Hfresh.
    destruct (List.find _ us) as [u|] eqn:E.
    + apply find_Some_elem in E as [Hu He]. simpl in He.
      apply String.eqb_eq in He. destruct (Hfresh u Hu He).
    + eexists. split; [reflexivity|]. split; reflexivity.
Qed.

(** C8.  [UserModel.delete] never removes a record: the list keeps its
    length.  When some record has the id, the first such record, at
    position [k], is the one deleted: the record returned is the record the
    list then holds at [k], it has [isActive = false], [updatedAt] at the
    time of the call and every other property (id, name, email, password,
    role, school type, creation date) as before, and every other position
    of the list holds what it held.  When no record has the id, [null] is
    returned and the list is unchanged. *)
Theorem delete_is_soft (env : Env) (i : string) (us : list User) :
  length (UserModel.delete env i us).2 = length us
  /\ ((exists u, u ∈ us /\ id u = i) ->
   exists k u u',
     us !! k = Some u /\ id u = i
     /\ (forall j w, j < k -> us !! j = Some w -> id w <> i)
     /\ (UserModel.delete env i us).1 = Some u'
     /\ (UserModel.delete env i us).2 !! k = Some u'
     /\ (forall j, j <> k -> (UserModel.delete env i us).2 !! j = us !! j)
     /\ Spec.deactivated (now env) u u')
  /\ ((forall u, u ∈ us -> id u <> i) ->
   UserModel.delete env i us = (None, us)).
Proof.
  unfold UserModel.delete.
  destruct (JS.findIndex _ us) as [k|] eqn:E.
  - destruct (findIndex_Some _ _ _ E) as (u & Hk & Hp).
    apply String.eqb_eq in Hp. rewrite Hk. simpl.
    split; [apply length_insert|]. split.
    + intros _. exists k, u, (deactivate (now env) u).
      split; [exact Hk|]. split; [exact Hp|]. split.
      { intros j w Hj Hw Hi.
        pose proof (findIndex_least _ _ _ E j w Hj Hw) as Hf. simpl in Hf.
        rewrite Hi, String.eqb_refl in Hf. discriminate. }
      split; [reflexivity|]. split.
      { apply list_lookup_insert_eq. apply lookup_lt_Some with u. exact Hk. }
      split.
      { intros j Hj. apply list_lookup_insert_ne. congruence. }
      unfold Spec.deactivated. simpl. auto 10.
    + intros Hno. destruct (Hno u); [|exact Hp].
      apply list_elem_of_lookup. eauto.
  - simpl. split; [reflexivity|]. split; [|reflexivity].
    intros (u & Hu & Hi).
    pose proof (findIndex_None _ _ E u Hu) as Hf. simpl in Hf.
    rewrite Hi, String.eqb_refl in Hf. discriminate.
Qed.

End UserStore.

Lemma create_email_unique_sample :
  let deleted :=
    (UserModel.delete Sample.env1 "1" (UserModel.users Sample.env0)).2 in
  UserModel.create Sample.toy_hash Sample.env1 Sample.again_john deleted
  = (UserModel.Thrown "User with this email already exists", deleted).
Proof.
  apply (proj1 (create_email_unique Sample.toy_hash Sample.env1
                  Sample.again_john
                  (UserModel.delete Sample.env1 "1"
                     (UserModel.users Sample.env0)).2)).
  exists (UserModel.deactivate (now Sample.env1)
            (UserModel.new_User Sample.env0
               (UserModel.seed "1" "John Doe" "john@student.com"
                  "school-student" (Some "government")))).
  split; [left|reflexivity].
Defined.

Lemma delete_is_soft_sample :
  let us := UserModel.users Sample.env0 in
  (exists k u u',
      us !! k = Some u /\ UserModel.id u = "2"
      /\ (forall j w, j < k -> us !! j = Some w -> UserModel.id w <> "2")
      /\ (UserModel.delete Sample.env1 "2" us).1 = Some u'
      /\ (UserModel.delete Sample.env1 "2" us).2 !! k = Some u'
      /\ (forall j, j <> k ->
            (UserModel.delete Sample.env1 "2" us).2 !! j = us !! j)
      /\ Spec.deactivated (now Sample.env1) u u')
  /\ (UserModel.delete Sample.env1 "2" us).1
     = Some {| UserModel.id := "2";
               UserModel.fullName := "Jane Smith";
               UserModel.email := "jane@college.com";
               UserModel.password := UserModel.seed_hash;
               UserModel.role := "college-student";
               UserModel.schoolType := None;
               UserModel.isActive := false;
               UserModel.createdAt := now Sample.env0;
               UserModel.updatedAt := now Sample.env1 |}
  /\ length (UserModel.delete Sample.env1 "2" us).2 = 3
  /\ UserModel.delete Sample.env1 "nobody" us = (None, us).
Proof.
  intros us. split.
  { apply (proj1 (proj2 (delete_is_soft Sample.env1 "2" us))).
    exists (UserModel.new_User Sample.env0
              (UserModel.seed "2" "Jane Smith" "jane@college.com"
                 "college-student" None)).
    split; [|reflexivity].
    apply list_elem_of_lookup. exists 1. reflexivity. }
  split; [reflexivity|]. split.
  - apply (proj1 (delete_is_soft Sample.env1 "2" us)).
  - apply (proj2 (proj2 (delete_is_soft Sample.env1 "nobody" us))).
    intros u Hu. apply String.eqb_neq.
    apply (findIndex_None
             (fun user => String.eqb (UserModel.id user) "nobody")
             us eq_refl u Hu).
Defined.

(** ** Resolving an identifier *)

Section Resolve.

Context {A : Type} (p : A -> bool).

Lemma findIndex_first (l : list A) (k : nat) (x : A) :
  Spec.first_with p l k x -> JS.findIndex p l = Some k.
Proof.
  revert k. induction l as [|y l IH]; intros k (Hk & Hp & Hbefore).
  - destruct k; discriminate.
  - simpl. destruct k as [|k].
    + injection Hk as ->. rewrite Hp. reflexivity.
    + rewrite (Hbefore 0 y); [|lia|reflexivity].
      rewrite (IH k); [reflexivity|].
      split; [exact Hk|]. split; [exact Hp|].
      intros j z Hj Hz. apply (Hbefore (S j) z); [lia|exact Hz].
Qed.

Lemma first_of_findIndex (l : list A) (k : nat) (x : A) :
  JS.findIndex p l = Some k -> l !! k = Some x -> Spec.first_with p l k x.
Proof.
  revert k. induction l as [|y l IH]; intros k; simpl; [discriminate|].
  destruct (p y) eqn:Hy.
  - intros [= <-] [= <-]. repeat split; [exact Hy|]. intros j z Hj. lia.
  - destruct (JS.findIndex p l) as [k'|] eqn:E; simpl; [|discriminate].
    intros [= <-] Hx. destruct (IH k' eq_refl Hx) as (H1 & H2 & H3).
    repeat split; [exact H1|exact H2|].
    intros [|j] z Hj Hz; [injection Hz as <-; exact Hy|].
    apply (H3 j z); [lia|exact Hz].
Qed.

Lemma findIndex_absent (l : list A) :
  (forall x, x ∈ l -> p x = false) -> JS.findIndex p l = None.
Proof.
  intros H. destruct (JS.findIndex p l) as [k|] eqn:E; [|reflexivity].
  destruct (findIndex_Some p l k E) as (x & Hk & Hp).
  rewrite H in Hp; [discriminate|]. apply list_elem_of_lookup. eauto.
Qed.

Lemma length_filter_count (l : list A) :
  length (List.filter p l) = Spec.count p l.
Proof.
  induction l as [|y l IH]; simpl; [reflexivity|].
  destruct (p y); simpl; rewrite IH; reflexivity.
Qed.

End Resolve.

(** ** GET /stats *)

Section Stats.

Import Admin.

Lemma count_split {A : Type} (p : A -> bool) (l : list A) :
  length l = Spec.count p l + Spec.count (fun x => negb (p x)) l.
Proof.
  induction l as [|y l IH]; simpl; [reflexivity|].
  rewrite IH. destruct (p y); simpl; lia.
Qed.

Lemma fold_left_videos (cs : list CourseModel.Course) (a : nat) :
  fold_left (fun total course => total + length (CourseModel.videos course))
    cs a
  = a + Spec.video_total cs.
Proof.
  revert a. induction cs as [|c cs IH]; intros a; simpl; [lia|].
  rewrite IH. lia.
Qed.

(** C3.  GET /stats reports as [totalCourses] the number of all courses,
    inactive ones included, as [activeCourses] the number of courses whose
    [isActive] is true, and as [totalVideos] the sum of the lengths of the
    video lists; a store holding exactly two active courses and one inactive
    course gives [totalCourses = 3] and [activeCourses = 2]. *)
Theorem stats_course_counts (st : Store) :
  let active := fun c => CourseModel.isActive c in
  let inactive := fun c => negb (CourseModel.isActive c) in
  get_stats st = (mkResponse 200 (SuccessStats (stats_of st)), st)
  /\ totalCourses (stats_of st)
     = Spec.count active (courses st) + Spec.count inactive (courses st)
  /\ activeCourses (stats_of st) = Spec.count active (courses st)
  /\ totalVideos (stats_of st) = Spec.video_total (courses st)
  /\ (Spec.count active (courses st) = 2 ->
      Spec.count inactive (courses st) = 1 ->
      totalCourses (stats_of st) = 3 /\ activeCourses (stats_of st) = 2).
Proof.
  intros active inactive.
  assert (Ht : totalCourses (stats_of st)
               = Spec.count active (courses st)
                 + Spec.count inactive (courses st)).
  { simpl. unfold CourseModel.getAll. apply count_split. }
  assert (Ha : activeCourses (stats_of st) = Spec.count active (courses st)).
  { simpl. unfold CourseModel.getAll. apply length_filter_count. }
  split; [reflexivity|]. split; [exact Ht|]. split; [exact Ha|]. split.
  - simpl. unfold CourseModel.getAll. apply fold_left_videos.
  - intros H2 H1. rewrite Ht, Ha, H2, H1. split; reflexivity.
Qed.

Lemma stats_course_counts_sample :
  totalCourses (stats_of Sample.store0) = 3
  /\ activeCourses (stats_of Sample.store0) = 2.
Proof.
  apply (proj2 (proj2 (proj2 (proj2 (stats_course_counts Sample.store0)))));
    reflexivity.
Defined.

Lemma active_count (q : UserModel.User -> bool) (us : list UserModel.User) :
  length (List.filter q (UserModel.getAll us))
  = Spec.count (fun u => UserModel.isActive u && q u) us.
Proof.
  unfold UserModel.getAll. rewrite filter_filter. apply length_filter_count.
Qed.

Lemma count_insert {A : Type} (f : A -> bool) (l : list A) (k : nat) (x y : A) :
  l !! k = Some x ->
  Spec.count f (<[k := y]> l) + (if f x then 1 else 0)
  = Spec.count f l + (if f y then 1 else 0).
Proof.
  intros H. rewrite <- !length_filter_count. apply filter_insert_length, H.
Qed.

(** C10.  Every user count of GET /stats counts active users only, since
    [UserModel.getAll] drops the soft-deleted ones; so soft-deleting an
    active user who is no admin takes one off [totalUsers] and one off the
    count of the user's role, although the record stays in the list. *)
Theorem soft_delete_decrements_counts
  (env : Env) (i : string) (st : Store) (k : nat) (u : UserModel.User) :
  Spec.resolves_user i (users st) k u ->
  UserModel.isActive u = true ->
  UserModel.role u <> "admin" ->
  let st' := Spec.soft_delete env i st in
  (totalUsers (stats_of st) = Spec.count Spec.counted_non_admin (users st)
   /\ schoolStudents (stats_of st)
      = Spec.count (Spec.counted "school-student") (users st)
   /\ collegeStudents (stats_of st)
      = Spec.count (Spec.counted "college-student") (users st)
   /\ employees (stats_of st)
      = Spec.count (Spec.counted "employee") (users st))
  /\ totalUsers (stats_of st') + 1 = totalUsers (stats_of st)
  /\ schoolStudents (stats_of st') + Spec.one_if_role "school-student" u
     = schoolStudents (stats_of st)
  /\ collegeStudents (stats_of st') + Spec.one_if_role "college-student" u
     = collegeStudents (stats_of st)
  /\ employees (stats_of st') + Spec.one_if_role "employee" u
     = employees (stats_of st)
  /\ length (users st') = length (users st)
  /\ exists u', users st' !! k = Some u'
                /\ UserModel.id u' = UserModel.id u
                /\ UserModel.isActive u' = false.
Proof.
  intros Hres Hact Hrole st'.
  assert (Hus : users st' = <[k := UserModel.deactivate (now env) u]> (users st)).
  { unfold st', Spec.soft_delete, UserModel.delete. simpl.
    rewrite (findIndex_first _ _ _ _ Hres).
    destruct Hres as (-> & _). reflexivity. }
  destruct Hres as (Hk & _ & _).
  assert (Hcnt : forall q,
             Spec.count (fun x => UserModel.isActive x && q x) (users st')
             + (if q u then 1 else 0)
             = Spec.count (fun x => UserModel.isActive x && q x) (users st)).
  { intros q. rewrite Hus.
    pose proof (count_insert (fun x => UserModel.isActive x && q x)
                  (users st) k u (UserModel.deactivate (now env) u) Hk) as H.
    simpl in H. rewrite Hact in H. simpl in H. lia. }
  split.
  { simpl. rewrite !active_count. repeat split; reflexivity. }
  simpl totalUsers. simpl schoolStudents. simpl collegeStudents.
  simpl employees. rewrite !active_count.
  split.
  { rewrite <- (Hcnt (fun x => negb (has_role "admin" x))).
    unfold has_role. destruct (String.eqb_spec (UserModel.role u) "admin");
      [contradiction|]. reflexivity. }
  split; [apply (Hcnt (has_role "school-student"))|].
  split; [apply (Hcnt (has_role "college-student"))|].
  split; [apply (Hcnt (has_role "employee"))|].
  rewrite Hus. split; [apply length_insert|].
  exists (UserModel.deactivate (now env) u). split.
  - apply list_lookup_insert_eq. apply lookup_lt_Some with u. exact Hk.
  - split; reflexivity.
Qed.

End Stats.

Lemma soft_delete_decrements_counts_sample :
  Admin.totalUsers (Admin.stats_of (Spec.soft_delete Sample.env1 "1" Sample.store0)) + 1
  = Admin.totalUsers (Admin.stats_of Sample.store0)
  /\ Admin.schoolStudents
       (Admin.stats_of (Spec.soft_delete Sample.env1 "1" Sample.store0)) + 1
     = Admin.schoolStudents (Admin.stats_of Sample.store0)
  /\ length (Admin.users (Spec.soft_delete Sample.env1 "1" Sample.store0))
     = length (Admin.users Sample.store0).
Proof.
  pose (john := UserModel.new_User Sample.env0
                  (UserModel.seed "1" "John Doe" "john@student.com"
                     "school-student" (Some "government"))).
  assert (Hres : Spec.resolves_user "1" (Admin.users Sample.store0) 0 john).
  { apply first_of_findIndex; reflexivity. }
  destruct (soft_delete_decrements_counts Sample.env1 "1" Sample.store0 0 john
              Hres eq_refl ltac:(discriminate))
    as (_ & Ht & Hs & _ & _ & Hl & _).
  split; [exact Ht|]. split; [exact Hs|exact Hl].
Defined.

(** ** POST /login *)

Section LoginProperties.

Import Admin.

Variable bcrypt_compare : string -> string -> bool.

Lemma try_catch_Some (message : string)
  (handler : Store -> option (Response * Store)) (st : Store)
  (r : Response * Store) :
  handler st = Some r -> try_catch message handler st = r.
Proof. unfold try_catch. intros ->. reflexivity. Qed.

Lemma truthy_string (s : string) : s <> "" -> JS.truthy (JS.VStr s) = true.
Proof.
  intros H. simpl. destruct (String.eqb_spec s ""); [contradiction|reflexivity].
Qed.

Lemma properties_role (u : UserModel.User) :
  base.delete "password" (UserModel.properties u) !! "role"
  = Some (JS.VStr (UserModel.role u)).
Proof.
  rewrite lookup_delete_ne by discriminate. unfold UserModel.properties.
  repeat (rewrite lookup_insert_ne by discriminate).
  apply lookup_insert_eq.
Qed.

Lemma properties_of_user (u : UserModel.User) :
  let admin := base.delete "password" (UserModel.properties u) in
  admin !! "id" = Some (JS.VStr (UserModel.id u))
  /\ admin !! "fullName" = Some (JS.VStr (UserModel.fullName u))
  /\ admin !! "email" = Some (JS.VStr (UserModel.email u))
  /\ admin !! "password" = None.
Proof.
  simpl. unfold UserModel.properties.
  refine (conj _ (conj _ (conj _ _)));
    try (rewrite lookup_delete_ne by discriminate;
         repeat (rewrite lookup_insert_ne by discriminate);
         apply lookup_insert_eq).
  apply lookup_delete_eq.
Qed.

Lemma getByEmail_resolved (mail : string) (us : list UserModel.User)
  (k : nat) (u : UserModel.User) :
  Spec.resolves_email mail us k u -> UserModel.getByEmail mail us = Some u.
Proof.
  unfold UserModel.getByEmail. revert k.
  induction us as [|z us IH]; intros k (Hk & He & Ha & Hbefore).
  - destruct k; discriminate.
  - simpl. destruct k as [|k].
    + injection Hk as ->. rewrite He, Ha, String.eqb_refl. reflexivity.
    + destruct (String.eqb_spec (UserModel.email z) mail) as [Hz|Hz]; simpl.
      * rewrite (Hbefore 0 z); [|lia|reflexivity|exact Hz].
        apply (IH k). split; [exact Hk|]. split; [exact He|].
        split; [exact Ha|]. intros j w Hj Hw.
        apply (Hbefore (S j) w); [lia|exact Hw].
      * apply (IH k). split; [exact Hk|]. split; [exact He|].
        split; [exact Ha|]. intros j w Hj Hw.
        apply (Hbefore (S j) w); [lia|exact Hw].
Qed.

Lemma getByEmail_no_active (mail : string) (us : list UserModel.User) :
  Spec.no_active_user mail us -> UserModel.getByEmail mail us = None.
Proof.
  intros Hnone. unfold UserModel.getByEmail.
  destruct (List.find _ us) as [u|] eqn:E; [|reflexivity].
  apply find_Some_elem in E as [Hu Hp]. simpl in Hp.
  apply andb_prop in Hp as [He Ha]. apply String.eqb_eq in He.
  rewrite (Hnone u Hu He) in Ha. discriminate.
Qed.

(** C6.  For a request that supplies an email and a password (non-empty
    strings), with the email normalised as the route does.  When the first
    active record that has the email has role "admin" and the password is
    the right one for it, POST /login answers 200 with an [admin] object
    that is this record's (its id, name and email), has role "admin" and no
    [password] property; with a wrong password it answers 401 and
    [success: false].  When no active record has the email (none has it, or
    all that have it are soft-deleted), or the first active record that has
    it has another role, it answers 401 as well.  The store is never
    changed. *)
Theorem login_admin_only (req : Request) (st : Store) (mail pw : string) :
  field req "email" = JS.VStr mail ->
  field req "password" = JS.VStr pw ->
  mail <> "" ->
  pw <> "" ->
  (forall k user,
      Spec.resolves_email (Spec.normalised mail) (users st) k user ->
      UserModel.role user = "admin" ->
      bcrypt_compare pw (UserModel.password user) = true ->
      exists admin,
        post_login bcrypt_compare req st
        = (mkResponse 200 (SuccessAdmin admin), st)
        /\ admin !! "role" = Some (JS.VStr "admin")
        /\ admin !! "password" = None
        /\ admin !! "id" = Some (JS.VStr (UserModel.id user))
        /\ admin !! "fullName" = Some (JS.VStr (UserModel.fullName user))
        /\ admin !! "email" = Some (JS.VStr (Spec.normalised mail)))
  /\ (forall k user,
         Spec.resolves_email (Spec.normalised mail) (users st) k user ->
         UserModel.role user = "admin" ->
         bcrypt_compare pw (UserModel.password user) = false ->
         post_login bcrypt_compare req st
         = (mkResponse 401 (Failure "Invalid admin credentials" None), st))
  /\ (Spec.no_active_user (Spec.normalised mail) (users st) ->
      post_login bcrypt_compare req st
      = (mkResponse 401 (Failure "Invalid admin credentials" None), st))
  /\ (forall k user,
         Spec.resolves_email (Spec.normalised mail) (users st) k user ->
         UserModel.role user <> "admin" ->
         post_login bcrypt_compare req st
         = (mkResponse 401 (Failure "Invalid admin credentials" None), st)).
Proof.
  intros He Hp Hmail Hpw.
  assert (Hbody : post_login_body bcrypt_compare req st
                  = match UserModel.getByEmail (Spec.normalised mail)
                            (users st) with
                    | None => Some (invalid_credentials, st)
                    | Some user =>
                        if negb (String.eqb (UserModel.role user) "admin")
                        then Some (invalid_credentials, st)
                        else
                          if negb (bcrypt_compare pw (UserModel.password user))
                          then Some (invalid_credentials, st)
                          else Some (mkResponse 200
                                       (SuccessAdmin
                                          (base.delete "password"
                                             (UserModel.properties user))),
                                     st)
                    end).
  { unfold post_login_body. rewrite He, Hp.
    rewrite (truthy_string mail Hmail), (truthy_string pw Hpw). simpl.
    fold (Spec.normalised mail).
    destruct (UserModel.getByEmail _ _) as [user|]; [|reflexivity].
    destruct (negb _); reflexivity. }
  unfold post_login. refine (conj _ (conj _ (conj _ _))).
  - intros k user Hres Hr Hc.
    pose proof (getByEmail_resolved _ _ _ _ Hres) as Hf.
    destruct (properties_of_user user) as (Hid & Hname & Hmail' & Hpass).
    eexists. split.
    + apply try_catch_Some. rewrite Hbody, Hf, Hr, Hc. reflexivity.
    + split; [rewrite properties_role, Hr; reflexivity|].
      split; [exact Hpass|]. split; [exact Hid|]. split; [exact Hname|].
      rewrite Hmail'. destruct Hres as (_ & -> & _). reflexivity.
  - intros k user Hres Hr Hc. apply try_catch_Some.
    rewrite Hbody, (getByEmail_resolved _ _ _ _ Hres), Hr, Hc. reflexivity.
  - intros Hnone. apply try_catch_Some.
    rewrite Hbody, (getByEmail_no_active _ _ Hnone). reflexivity.
  - intros k user Hres Hr. apply try_catch_Some.
    rewrite Hbody, (getByEmail_resolved _ _ _ _ Hres).
    destruct (String.eqb_spec (UserModel.role user) "admin");
      [contradiction|reflexivity].
Qed.

End LoginProperties.

Lemma login_admin_only_sample :
  (exists admin,
      Admin.post_login Sample.toy_compare
        (Sample.login_request "admin@youngwealth.com" "correct-horse")
        Sample.staff
      = (Admin.mkResponse 200 (Admin.SuccessAdmin admin), Sample.staff)
      /\ admin !! "role" = Some (JS.VStr "admin")
      /\ admin !! "password" = None
      /\ admin !! "id" = Some (JS.VStr "8"))
  /\ Admin.post_login Sample.toy_compare
       (Sample.login_request "admin@youngwealth.com" "wrong-horse")
       Sample.staff
     = (Admin.invalid_credentials, Sample.staff)
  /\ Admin.post_login Sample.toy_compare
       (Sample.login_request "gone@youngwealth.com" "correct-horse")
       Sample.staff
     = (Admin.invalid_credentials, Sample.staff)
  /\ Admin.post_login Sample.toy_compare
       (Sample.login_request "nobody@youngwealth.com" "correct-horse")
       Sample.staff
     = (Admin.invalid_credentials, Sample.staff)
  /\ Admin.post_login Sample.toy_compare
       (Sample.login_request "sam@student.com" "correct-horse")
       Sample.staff
     = (Admin.invalid_credentials, Sample.staff).
Proof.
  assert (Hadmin : Spec.resolves_email "admin@youngwealth.com"
                     (Admin.users Sample.staff) 1
                     (Sample.member "8" "admin@youngwealth.com" "admin" true)).
  { split; [reflexivity|]. split; [reflexivity|]. split; [reflexivity|].
    intros [|j] w Hj Hw Hmail; [|lia].
    injection Hw as <-. discriminate Hmail. }
  assert (Hsam : Spec.resolves_email "sam@student.com"
                   (Admin.users Sample.staff) 0
                   (Sample.member "7" "sam@student.com" "school-student"
                      true)).
  { split; [reflexivity|]. split; [reflexivity|]. split; [reflexivity|].
    intros j w Hj. lia. }
  assert (Hgone : Spec.no_active_user "gone@youngwealth.com"
                    (Admin.users Sample.staff)).
  { intros w Hw Hmail. simpl in Hw.
    rewrite !elem_of_cons, elem_of_nil in Hw.
    destruct Hw as [->|[->|[->|[]]]]; [discriminate Hmail..|reflexivity]. }
  assert (Hnobody : Spec.no_active_user "nobody@youngwealth.com"
                      (Admin.users Sample.staff)).
  { intros w Hw Hmail. simpl in Hw.
    rewrite !elem_of_cons, elem_of_nil in Hw.
    destruct Hw as [->|[->|[->|[]]]]; discriminate Hmail. }
  split.
  { destruct (login_admin_only Sample.toy_compare
                (Sample.login_request "admin@youngwealth.com" "correct-horse")
                Sample.staff "admin@youngwealth.com" "correct-horse"
                eq_refl eq_refl ltac:(discriminate) ltac:(discriminate))
      as (Hok & _).
    destruct (Hok 1 _ Hadmin eq_refl eq_refl)
      as (admin & Heq & Hrole & Hpass & Hid & _).
    exists admin. split; [exact Heq|]. split; [exact Hrole|].
    split; [exact Hpass|exact Hid]. }
  split.
  { apply (proj1 (proj2 (login_admin_only Sample.toy_compare
                (Sample.login_request "admin@youngwealth.com" "wrong-horse")
                Sample.staff "admin@youngwealth.com" "wrong-horse"
                eq_refl eq_refl ltac:(discriminate) ltac:(discriminate)))
             1 _ Hadmin eq_refl eq_refl). }
  split.
  { apply (proj1 (proj2 (proj2 (login_admin_only Sample.toy_compare
                (Sample.login_request "gone@youngwealth.com" "correct-horse")
                Sample.staff "gone@youngwealth.com" "correct-horse"
                eq_refl eq_refl ltac:(discriminate) ltac:(discriminate))))
             Hgone). }
  split.
  { apply (proj1 (proj2 (proj2 (login_admin_only Sample.toy_compare
                (Sample.login_request "nobody@youngwealth.com"
                   "correct-horse")
                Sample.staff "nobody@youngwealth.com" "correct-horse"
                eq_refl eq_refl ltac:(discriminate) ltac:(discriminate))))
             Hnobody). }
  apply (proj2 (proj2 (proj2 (login_admin_only Sample.toy_compare
            (Sample.login_request "sam@student.com" "correct-horse")
            Sample.staff "sam@student.com" "correct-horse"
            eq_refl eq_refl ltac:(discriminate) ltac:(discriminate))))
         0 _ Hsam ltac:(discriminate)).
Defined.

(** On the seeded list the admin email resolves to the seeded admin, so
    there the answer rests on bcrypt alone: 200 when [bcrypt.compare]
    accepts the password for the seeded hash, 401 when it does not. *)
Lemma seeded_admin_login (bcrypt_compare : string -> string -> bool)
  (env : Env) (cs : list CourseModel.Course) (pw : string) :
  pw <> "" ->
  Admin.status
    (Admin.post_login bcrypt_compare
       (Sample.login_request "admin@youngwealth.com" pw)
       {| Admin.users := UserModel.users env; Admin.courses := cs |}).1
  = if bcrypt_compare pw UserModel.seed_hash then 200 else 401.
Proof.
  intros Hpw. destruct pw as [|c pw]; [contradiction|].
  unfold Admin.post_login, Admin.try_catch, Admin.post_login_body.
  change (Admin.field
            (Sample.login_request "admin@youngwealth.com" (String c pw))
            "email")
    with (JS.VStr "admin@youngwealth.com").
  change (Admin.field
            (Sample.login_request "admin@youngwealth.com" (String c pw))
            "password")
    with (JS.VStr (String c pw)).
  simpl. unfold UserModel.validatePassword.
  destruct (bcrypt_compare _ _); reflexivity.
Qed.

(** ** Validation of course requests *)

Section Validation.

Import Admin.

Lemma set_if_lookup (c : bool) (k m : string) (e : gmap string string)
  (j : string) :
  set_if c k m e !! j = if c && String.eqb j k then Some m else e !! j.
Proof.
  unfold set_if. destruct c; simpl; [|reflexivity].
  destruct (String.eqb_spec j k) as [->|Hne].
  - apply lookup_insert_eq.
  - apply lookup_insert_ne. congruence.
Qed.

(** The keys of the [errors] object after the six tests. *)
Lemma errors_keys (b1 b2 b3 b4 b5 b6 : bool) (m1 m2 m3 m4 m5 m6 : string)
  (name : string) :
  is_Some
    (set_if b6 "duration" m6
       (set_if b5 "price" m5
          (set_if b4 "level" m4
             (set_if b3 "category" m3
                (set_if b2 "description" m2
                   (set_if b1 "title" m1 ∅))))) !! name)
  <-> (if String.eqb name "title" then b1
       else if String.eqb name "description" then b2
       else if String.eqb name "category" then b3
       else if String.eqb name "level" then b4
       else if String.eqb name "price" then b5
       else if String.eqb name "duration" then b6
       else false) = true.
Proof.
  rewrite !set_if_lookup, lookup_empty.
  repeat match goal with
         | |- context [String.eqb name ?k] =>
             destruct (String.eqb_spec name k) as [->|?]; simpl
         end;
    rewrite ?andb_false_r, ?andb_true_r;
    repeat match goal with
           | |- context [if ?b then _ else _] => destruct b
           end;
    split; intros H; try discriminate; eauto;
    destruct H as [? H]; discriminate.
Qed.

Lemma includes_one_of (l : list string) (v : JS.value) :
  JS.includes l v = Spec.one_of l v.
Proof.
  destruct v; try reflexivity. unfold JS.includes, Spec.one_of.
  induction l as [|x l IH].
  - symmetry. apply bool_decide_eq_false_2, not_elem_of_nil.
  - cbn [existsb]. destruct (String.eqb_spec s x) as [->|Hne]; cbn [orb].
    + symmetry. apply bool_decide_eq_true_2. left.
    + rewrite IH. apply bool_decide_ext. rewrite elem_of_cons. tauto.
Qed.

Lemma bad_price_spec (v : JS.value) :
  bad_price v = Spec.non_numeric_or_negative (JS.parseFloat v).
Proof.
  unfold bad_price. destruct (JS.parseFloat v); simpl; try reflexivity.
  destruct (Z.ltb_spec m 0); symmetry;
    [apply bool_decide_eq_true_2 | apply bool_decide_eq_false_2]; lia.
Qed.

Lemma bad_duration_spec (v : JS.value) :
  bad_duration v = Spec.non_numeric_or_not_positive (JS.parseInt v).
Proof.
  unfold bad_duration. destruct (JS.parseInt v); simpl; try reflexivity.
  destruct (Z.leb_spec m 0); symmetry;
    [apply bool_decide_eq_true_2 | apply bool_decide_eq_false_2]; lia.
Qed.

Lemma missing_or_short_text (n : nat) (v : JS.value) :
  0 < n -> Spec.text_or_absent v ->
  missing_or_short n v = Some (Spec.too_short n v).
Proof.
  intros Hn [Hf|[s ->]]; unfold missing_or_short.
  - rewrite Hf. simpl. destruct v; simpl in *; try rewrite Hf; try reflexivity.
    destruct (String.eqb_spec s ""); [subst|discriminate]. simpl.
    destruct n; [lia|reflexivity].
  - simpl. destruct (String.eqb_spec s "") as [->|Hne]; simpl; [|reflexivity].
    destruct n; [lia|reflexivity].
Qed.

Lemma nonempty_size (errors : gmap string string) (name : string) :
  is_Some (errors !! name) -> (0 <? size errors)%nat = true.
Proof.
  intros [m Hm]. apply Nat.ltb_lt.
  destruct (size errors) eqn:E; [|lia].
  apply map_size_empty_iff in E. subst. rewrite lookup_empty in Hm.
  discriminate.
Qed.

(** C1, as amended.  For a course-creation input whose title and
    description are strings or absent: if the trimmed title is shorter than
    3, or the trimmed description shorter than 10, or the category or the
    level is outside its list, or the price is non-numeric or negative, or
    the duration non-numeric or not positive, POST /courses answers 400
    "Validation failed" with an [errors] object whose keys are exactly the
    invalid fields, and the stores are left as they were. *)
Theorem course_validation_collects (env : Env) (req : Request) (st : Store) :
  Spec.text_or_absent (field req "title") ->
  Spec.text_or_absent (field req "description") ->
  Spec.rejects_invalid env req st.
Proof.
  intros Ht Hd [name0 Hinv].
  assert (He : exists errors,
             post_courses_errors req = Some errors
             /\ forall name,
                 is_Some (errors !! name) <-> Spec.invalid_field req name = true).
  { unfold post_courses_errors.
    rewrite (missing_or_short_text 3 _ ltac:(lia) Ht). simpl.
    rewrite (missing_or_short_text 10 _ ltac:(lia) Hd). simpl.
    eexists. split; [reflexivity|]. intros name.
    rewrite errors_keys. unfold Spec.invalid_field.
    rewrite !includes_one_of, bad_price_spec, bad_duration_spec.
    reflexivity. }
  destruct He as (errors & He & Hkeys).
  exists errors. split; [|exact Hkeys].
  unfold post_courses. apply try_catch_Some.
  unfold post_courses_body. rewrite He. simpl.
  rewrite (nonempty_size errors name0); [reflexivity|].
  apply Hkeys, Hinv.
Qed.

(** A truthy title that is not a string makes [title.trim()] throw: the
    route answers 500 and creates nothing. *)
Lemma post_courses_throws (env : Env) (req : Request) (st : Store) :
  JS.truthy (field req "title") = true ->
  (forall s, field req "title" <> JS.VStr s) ->
  post_courses env req st
  = (mkResponse 500 (Failure "Failed to create course" None), st).
Proof.
  intros Ht Hs. unfold post_courses, try_catch, post_courses_body,
    post_courses_errors, missing_or_short.
  rewrite Ht. simpl.
  destruct (field req "title") as [| | | |s|]; try reflexivity.
  destruct (Hs s eq_refl).
Qed.

End Validation.

Lemma course_validation_collects_sample :
  exists errors,
    Admin.post_courses Sample.env1
      (Sample.request ""
         (("title", JS.VStr " ab ") :: ("price", JS.VStr "-5")
          :: Sample.valid_fields))
      Sample.store0
    = (Admin.validation_failed errors, Sample.store0)
    /\ is_Some (errors !! "title")
    /\ is_Some (errors !! "price")
    /\ ~ is_Some (errors !! "duration").
Proof.
  destruct (course_validation_collects Sample.env1
              (Sample.request ""
                 (("title", JS.VStr " ab ") :: ("price", JS.VStr "-5")
                  :: Sample.valid_fields))
              Sample.store0
              (or_intror (ex_intro _ " ab " eq_refl))
              (or_intror (ex_intro _ "A first look at long-term investing"
                            eq_refl))
              (ex_intro _ "price" eq_refl))
    as (errors & Heq & Hkeys).
  exists errors. split; [exact Heq|].
  split; [apply Hkeys; reflexivity|].
  split; [apply Hkeys; reflexivity|].
  intros H. apply Hkeys in H. vm_compute in H. discriminate H.
Defined.

(** C1 as stated fails on an input whose title is a number: the price is
    negative, yet [title.trim()] throws before any error is reported and the
    route answers 500 instead of 400. *)
Lemma course_validation_number_title :
  ~ Spec.rejects_invalid Sample.env1
      (Sample.request ""
         (("title", JS.VNum (JS.Fin 12345 0)) :: ("price", JS.VStr "-5")
          :: Sample.valid_fields))
      Sample.store0.
Proof.
  intros H. destruct H as (errors & Heq & _).
  - exists "price". reflexivity.
  - apply (f_equal (fun r => Admin.status r.1)) in Heq.
    vm_compute in Heq. discriminate Heq.
Qed.

(** A negative literal below the least double parses to zero, which is not
    a negative price: both course routes accept it, where "-1e-300" is
    turned down. *)
Example tiny_negative_price_is_accepted :
  (Admin.bad_price (JS.VStr "-1e-400"), Admin.bad_price (JS.VStr "-1e-300"),
   Admin.status
     (Admin.post_courses Sample.env1
        (Sample.request "" (("price", JS.VStr "-1e-400")
                            :: Sample.valid_fields))
        Sample.store0).1,
   Admin.status
     (Admin.put_courses Sample.env1
        (Sample.request "c-1" [("price", JS.VStr "-1e-400")])
        Sample.store0).1)
  = (false, true, 201, 200).
Proof. vm_compute. reflexivity. Qed.

(** ** PUT /courses/:id and DELETE /courses/:id *)

Section CourseUpdate.

Import Admin.

Lemma falsy_parses_to_zero (v : JS.value) :
  JS.truthy v = false ->
  JS.or_zero (JS.parseFloat v) = JS.zero
  /\ JS.or_zero (JS.parseInt v) = JS.zero.
Proof.
  destruct v as [| |b|x|s|t];
    try (simpl; intros H; try discriminate; split; reflexivity).
  - unfold JS.truthy, JS.parseFloat, JS.parseInt.
    destruct (JS.canon x) as [|neg|m e]; simpl; intros H; try discriminate;
      [split; reflexivity|].
    destruct (Z.eqb_spec m 0) as [->|]; [|discriminate]. split; reflexivity.
  - simpl. intros H. destruct s; [split; reflexivity|discriminate].
Qed.

Lemma put_errors_inv (req : Request) (errors : gmap string string) :
  put_courses_errors req = Some errors ->
  exists b1 b2,
    present_and_short 3 (field req "title") = Some b1
    /\ present_and_short 10 (field req "description") = Some b2
    /\ errors
       = set_if (JS.truthy (field req "duration")
                 && bad_duration (field req "duration"))
           "duration" "Duration must be a positive number"
           (set_if (JS.truthy (field req "price")
                    && bad_price (field req "price"))
              "price" "Price must be a valid number"
              (set_if (JS.truthy (field req "level")
                       && negb (JS.includes levels (field req "level")))
                 "level" "Invalid level"
                 (set_if (JS.truthy (field req "category")
                          && negb (JS.includes categories
                                     (field req "category")))
                    "category" "Invalid category"
                    (set_if b2 "description"
                       "Description must be at least 10 characters long"
                       (set_if b1 "title"
                          "Title must be at least 3 characters long" ∅))))).
Proof.
  unfold put_courses_errors.
  destruct (present_and_short 3 (field req "title")) as [b1|]; simpl;
    [|discriminate].
  destruct (present_and_short 10 (field req "description")) as [b2|]; simpl;
    [|discriminate].
  intros [= <-]. exists b1, b2. auto.
Qed.

Lemma trimmed_of_present (n : nat) (v : JS.value) (b : bool) :
  present_and_short n v = Some b ->
  exists o, trimmed_if_present v = Some o
            /\ (JS.truthy v = false -> o = None)
            /\ (forall s, v = JS.VStr s -> JS.truthy v = true ->
                          o = Some (JS.trim s)).
Proof.
  unfold present_and_short, trimmed_if_present.
  destruct (JS.truthy v) eqn:Ht.
  - destruct v; simpl; try discriminate. intros _. eexists.
    split; [reflexivity|]. split; [discriminate|]. intros ? [= <-] _.
    reflexivity.
  - intros _. exists None. split; [reflexivity|]. split; [reflexivity|].
    discriminate.
Qed.

(** A request that passes validation yields its update data. *)
Lemma updateData_of_valid (req : Request) (errors : gmap string string) :
  put_courses_errors req = Some errors ->
  is_Some (put_courses_updateData req).
Proof.
  intros H. destruct (put_errors_inv req errors H) as (b1 & b2 & H1 & H2 & _).
  destruct (trimmed_of_present _ _ _ H1) as (o1 & E1 & _).
  destruct (trimmed_of_present _ _ _ H2) as (o2 & E2 & _).
  unfold put_courses_updateData. rewrite E1, E2. simpl. eauto.
Qed.

Lemma with_courses_same (st : Store) : with_courses (courses st) st = st.
Proof. destruct st. reflexivity. Qed.

(** The update route on a request that passes validation, when the
    identifier resolves. *)
Lemma put_courses_found (env : Env) (req : Request) (st : Store)
  (updateData : CourseModel.UpdateData) (k : nat) (c : CourseModel.Course) :
  put_courses_errors req = Some ∅ ->
  put_courses_updateData req = Some updateData ->
  Spec.resolves_course (params_id req) (courses st) k c ->
  put_courses env req st
  = (mkResponse 200
       (SuccessCourse (CourseModel.merge (now env) updateData c)),
     with_courses
       (<[k := CourseModel.merge (now env) updateData c]> (courses st)) st).
Proof.
  intros He Hu Hres. unfold put_courses. apply try_catch_Some.
  unfold put_courses_body. rewrite He. simpl. rewrite Hu. simpl.
  unfold CourseModel.update. rewrite (findIndex_first _ _ _ _ Hres).
  destruct Hres as (-> & _). reflexivity.
Qed.

(** ... and when it does not. *)
Lemma put_courses_missing (env : Env) (req : Request) (st : Store) :
  put_courses_errors req = Some ∅ ->
  (forall c, c ∈ courses st -> CourseModel.id c <> params_id req) ->
  put_courses env req st = (not_found "Course not found", st).
Proof.
  intros He Hno. unfold put_courses. apply try_catch_Some.
  unfold put_courses_body. rewrite He. simpl.
  destruct (updateData_of_valid req _ He) as [updateData ->]. simpl.
  unfold CourseModel.update. rewrite findIndex_absent.
  - rewrite with_courses_same. reflexivity.
  - intros c Hc. apply String.eqb_neq, Hno, Hc.
Qed.

Lemma falsy_field_resets (f : Spec.numeric_field) (env : Env) (req : Request)
  (st : Store) :
  JS.truthy (field req (Spec.field_name f)) = false ->
  JS.defined (field req (Spec.field_name f)) = true ->
  Spec.resets_to_zero f env req st.
Proof.
  intros Hfalsy Hdef.
  destruct (falsy_parses_to_zero _ Hfalsy) as [Hfloat Hint].
  assert (Hupd : forall updateData,
             put_courses_updateData req = Some updateData ->
             Spec.provided f updateData = Some JS.zero).
  { intros updateData. unfold put_courses_updateData.
    destruct (trimmed_if_present (field req "title")); simpl;
      [|discriminate].
    destruct (trimmed_if_present (field req "description")); simpl;
      [|discriminate].
    intros [= <-]. destruct f; simpl in *; rewrite Hdef; f_equal; assumption. }
  split; [|split; [exact Hupd|]].
  - intros errors He.
    destruct (put_errors_inv req errors He) as (b1 & b2 & _ & _ & ->).
    rewrite !set_if_lookup, lookup_empty.
    destruct f; simpl in *; rewrite Hfalsy; simpl;
      rewrite ?andb_false_r; reflexivity.
  - intros k c He Hres.
    destruct (updateData_of_valid req _ He) as [updateData Hu].
    eexists. split; [apply (put_courses_found env req st updateData k c);
                     assumption|].
    specialize (Hupd updateData Hu).
    destruct f; simpl in *; rewrite Hupd; reflexivity.
Qed.

(** C2, as amended.  An explicit numeric zero as price or duration is not
    ignored by PUT /courses/:id.  Validation skips the field, since it tests
    truthiness, but the merge tests [!== undefined]: the update data carry
    zero for the field, and when the request passes validation and the
    identifier resolves, the stored course gets zero as its price or
    duration. *)
Theorem explicit_zero_is_applied (f : Spec.numeric_field) (e : Z)
  (env : Env) (req : Request) (st : Store) :
  field req (Spec.field_name f) = JS.VNum (JS.Fin 0 e) ->
  Spec.resets_to_zero f env req st.
Proof.
  intros H. apply falsy_field_resets; rewrite H; reflexivity.
Qed.

(** C9.  An update request whose price is the empty string passes
    validation without an error for the price, and the merge still applies a
    price, [parseFloat(price) || 0], which is zero: when the request passes
    validation and the identifier resolves, the course's price is reset to
    zero.  The same holds for an empty-string duration. *)
Theorem empty_string_resets (f : Spec.numeric_field)
  (env : Env) (req : Request) (st : Store) :
  field req (Spec.field_name f) = JS.VStr "" ->
  Spec.resets_to_zero f env req st.
Proof.
  intros H. apply falsy_field_resets; rewrite H; reflexivity.
Qed.

End CourseUpdate.

Lemma explicit_zero_is_applied_sample :
  exists c',
    Admin.put_courses Sample.env1
      (Sample.request "c-1" [("price", JS.VNum JS.zero)]) Sample.store0
    = (Admin.mkResponse 200 (Admin.SuccessCourse c'),
       Admin.with_courses (<[0 := c']> (Admin.courses Sample.store0))
         Sample.store0)
    /\ CourseModel.price c' = JS.zero.
Proof.
  destruct (explicit_zero_is_applied Spec.Price 0 Sample.env1
              (Sample.request "c-1" [("price", JS.VNum JS.zero)])
              Sample.store0 eq_refl)
    as (_ & _ & H).
  apply (H 0 (Sample.course "c-1" "Money basics" true [Sample.video0]));
    [reflexivity | apply first_of_findIndex; reflexivity].
Defined.

(** C2 as stated fails: the update data built for a body holding the number
    0 as price carry a price, unlike those of the empty body; after that
    update the first course of the sample store costs 0 instead of 100, and
    after one carrying 0 as duration it lasts 0 minutes instead of 60. *)
Lemma explicit_zero_not_ignored :
  Admin.put_courses_updateData
    (Sample.request "c-1" [("price", JS.VNum JS.zero)])
  <> Admin.put_courses_updateData (Sample.request "c-1" [])
  /\ ~ Spec.zero_is_ignored Spec.Price Sample.env1
         (Sample.request "c-1" [("price", JS.VNum JS.zero)]) Sample.store0
  /\ ~ Spec.zero_is_ignored Spec.Duration Sample.env1
         (Sample.request "c-1" [("duration", JS.VNum JS.zero)]) Sample.store0.
Proof.
  split; [vm_compute; discriminate|].
  split; intros H; destruct (H eq_refl) as [_ Hkept];
    specialize (Hkept 0); vm_compute in Hkept; discriminate Hkept.
Qed.

Lemma empty_string_resets_sample :
  exists c',
    Admin.put_courses Sample.env1
      (Sample.request "c-1" [("duration", JS.VStr "")]) Sample.store0
    = (Admin.mkResponse 200 (Admin.SuccessCourse c'),
       Admin.with_courses (<[0 := c']> (Admin.courses Sample.store0))
         Sample.store0)
    /\ CourseModel.duration c' = JS.zero.
Proof.
  destruct (empty_string_resets Spec.Duration Sample.env1
              (Sample.request "c-1" [("duration", JS.VStr "")])
              Sample.store0 eq_refl)
    as (_ & _ & H).
  apply (H 0 (Sample.course "c-1" "Money basics" true [Sample.video0]));
    [reflexivity | apply first_of_findIndex; reflexivity].
Defined.

Section CourseFrame.

Import Admin.

Lemma title_only_request (req : Request) :
  body req = {["title" := JS.VStr "New Title"]} ->
  file req = None ->
  put_courses_errors req = Some ∅
  /\ put_courses_updateData req = Some Spec.title_only.
Proof.
  intros Hb Hf.
  unfold put_courses_errors, put_courses_updateData, field.
  rewrite Hb, Hf. split; reflexivity.
Qed.

(** C4.  On an existing course, an update whose body holds only
    [{title: "New Title"}] answers 200 with the course in which only the
    title and [updatedAt] are new; description, category, level, price,
    duration, thumbnail, isActive, videos, createdAt and id are as before,
    and every other slot of the course list, as well as the user list, is
    untouched. *)
Theorem title_only_update (env : Env) (req : Request) (st : Store)
  (k : nat) (c : CourseModel.Course) :
  body req = {["title" := JS.VStr "New Title"]} ->
  file req = None ->
  Spec.resolves_course (params_id req) (courses st) k c ->
  exists c',
    put_courses env req st
    = (mkResponse 200 (SuccessCourse c'),
       {| users := users st; courses := <[k := c']> (courses st) |})
    /\ CourseModel.title c' = "New Title"
    /\ CourseModel.updatedAt c' = now env
    /\ CourseModel.id c' = CourseModel.id c
    /\ CourseModel.description c' = CourseModel.description c
    /\ CourseModel.category c' = CourseModel.category c
    /\ CourseModel.level c' = CourseModel.level c
    /\ CourseModel.price c' = CourseModel.price c
    /\ CourseModel.duration c' = CourseModel.duration c
    /\ CourseModel.thumbnail c' = CourseModel.thumbnail c
    /\ CourseModel.isActive c' = CourseModel.isActive c
    /\ CourseModel.videos c' = CourseModel.videos c
    /\ CourseModel.createdAt c' = CourseModel.createdAt c
    /\ length (<[k := c']> (courses st)) = length (courses st)
    /\ forall j, j <> k -> <[k := c']> (courses st) !! j = courses st !! j.
Proof.
  intros Hb Hf Hres. destruct (title_only_request req Hb Hf) as [He Hu].
  exists (CourseModel.merge (now env) Spec.title_only c).
  split; [apply (put_courses_found env req st Spec.title_only k c He Hu Hres)|].
  repeat (split; [reflexivity|]).
  split; [apply length_insert|].
  intros j Hj. apply list_lookup_insert_ne. congruence.
Qed.

(** C5.  When no course of the store has the identifier of the route, PUT
    /courses/:id with fields that pass validation and DELETE /courses/:id
    both answer 404 "Course not found" and leave the stores exactly as they
    were. *)
Theorem missing_course_not_found (env : Env) (req : Request) (st : Store) :
  (forall c, c ∈ courses st -> CourseModel.id c <> params_id req) ->
  (put_courses_errors req = Some ∅ ->
   put_courses env req st
   = (mkResponse 404 (Failure "Course not found" None), st))
  /\ delete_courses req st
     = (mkResponse 404 (Failure "Course not found" None), st).
Proof.
  intros Hno. split.
  - intros He. apply put_courses_missing; assumption.
  - unfold delete_courses, CourseModel.delete. rewrite findIndex_absent.
    + rewrite with_courses_same. reflexivity.
    + intros c Hc. apply String.eqb_neq, Hno, Hc.
Qed.

End CourseFrame.

Lemma title_only_update_sample :
  exists c',
    Admin.put_courses Sample.env1
      (Sample.request "c-2" [("title", JS.VStr "New Title")]) Sample.store0
    = (Admin.mkResponse 200 (Admin.SuccessCourse c'),
       {| Admin.users := Admin.users Sample.store0;
          Admin.courses := <[1 := c']> (Admin.courses Sample.store0) |})
    /\ CourseModel.title c' = "New Title"
    /\ CourseModel.updatedAt c' = now Sample.env1
    /\ CourseModel.price c' = JS.Fin 100 0.
Proof.
  assert (Hres : Spec.resolves_course "c-2" (Admin.courses Sample.store0) 1
                   (Sample.course "c-2" "Budgeting" true [])).
  { apply first_of_findIndex; reflexivity. }
  destruct (title_only_update Sample.env1
              (Sample.request "c-2" [("title", JS.VStr "New Title")])
              Sample.store0 1 (Sample.course "c-2" "Budgeting" true [])
              eq_refl eq_refl Hres)
    as (c' & Heq & Ht & Hu & _ & _ & _ & _ & Hp & _).
  exists c'. split; [exact Heq|]. split; [exact Ht|].
  split; [exact Hu|exact Hp].
Defined.

Lemma missing_course_not_found_sample :
  Admin.put_courses Sample.env1
    (Sample.request "c-9" [("title", JS.VStr "New Title")]) Sample.store0
  = (Admin.mkResponse 404 (Admin.Failure "Course not found" None),
     Sample.store0)
  /\ Admin.delete_courses (Sample.request "c-9" []) Sample.store0
     = (Admin.mkResponse 404 (Admin.Failure "Course not found" None),
        Sample.store0).
Proof.
  assert (Hno : forall i, i = "c-9" ->
            forall c, c ∈ Admin.courses Sample.store0 -> CourseModel.id c <> i).
  { intros i -> c Hc. apply String.eqb_neq.
    apply (findIndex_None
             (fun course => String.eqb (CourseModel.id course) "c-9")
             (Admin.courses Sample.store0) eq_refl c Hc). }
  split.
  - apply (proj1 (missing_course_not_found Sample.env1
                    (Sample.request "c-9" [("title", JS.VStr "New Title")])
                    Sample.store0 (Hno "c-9" eq_refl))).
    reflexivity.
  - apply (proj2 (missing_course_not_found Sample.env1
                    (Sample.request "c-9" []) Sample.store0
                    (Hno "c-9" eq_refl))).
Defined.

(** * Further properties of the user store *)

Section ListFacts.

Context {A : Type} (p : A -> bool).

Lemma findIndex_insert (l : list A) (k : nat) (y : A) :
  JS.findIndex p l = Some k -> p y = true ->
  JS.findIndex p (<[k := y]> l) = Some k.
Proof.
  revert k. induction l as [|z l IH]; intros k; simpl; [discriminate|].
  destruct (p z) eqn:Hz.
  - intros [= <-] Hy. simpl. rewrite Hy. reflexivity.
  - destruct (JS.findIndex p l) as [k'|] eqn:E; simpl; [|discriminate].
    intros [= <-] Hy. simpl. rewrite Hz, (IH k' eq_refl Hy). reflexivity.
Qed.

Lemma find_none_elem (l : list A) :
  (forall x, x ∈ l -> p x = false) -> List.find p l = None.
Proof.
  intros H. destruct (List.find p l) as [x|] eqn:E; [|reflexivity].
  apply find_Some_elem in E as [Hx Hp]. rewrite (H x Hx) in Hp. discriminate.
Qed.

Lemma find_app_none (l l' : list A) :
  List.find p l = None -> List.find p (l ++ l')%list = List.find p l'.
Proof.
  induction l as [|z l IH]; simpl; [reflexivity|].
  destruct (p z); [discriminate|exact IH].
Qed.

(** The first element with [p], when it also has [a], is what a search for
    both finds. *)
Lemma find_first_with (a : A -> bool) (l : list A) (k : nat) (x : A) :
  Spec.first_with p l k x -> a x = true ->
  List.find (fun y => p y && a y) l = Some x.
Proof.
  revert k. induction l as [|z l IH]; intros k (Hk & Hp & Hbefore) Ha.
  - destruct k; discriminate.
  - simpl. destruct k as [|k].
    + injection Hk as ->. rewrite Hp, Ha. reflexivity.
    + rewrite (Hbefore 0 z); [|lia|reflexivity]. simpl.
      apply (IH k); [|exact Ha].
      split; [exact Hk|]. split; [exact Hp|].
      intros j y Hj Hy. apply (Hbefore (S j) y); [lia|exact Hy].
Qed.

Lemma elem_of_insert_inv (l : list A) (k : nat) (y x : A) :
  x ∈ <[k := y]> l ->
  x = y \/ exists j, j <> k /\ l !! j = Some x.
Proof.
  intros H. apply list_elem_of_lookup in H as [j Hj].
  destruct (decide (j = k)) as [->|Hne].
  - left. destruct (decide (k < length l)) as [Hlt|Hge].
    + rewrite list_lookup_insert_eq in Hj by exact Hlt. congruence.
    + rewrite list_insert_ge in Hj by lia.
      apply lookup_lt_Some in Hj. lia.
  - right. exists j. split; [exact Hne|].
    rewrite list_lookup_insert_ne in Hj by congruence. exact Hj.
Qed.

End ListFacts.

Section UserStoreMore.

Import UserModel.

Lemma map_insert_same {B : Type} (f : User -> B) (us : list User)
  (k : nat) (u u' : User) :
  us !! k = Some u -> f u' = f u -> f <$> <[k := u']> us = f <$> us.
Proof.
  intros Hk Hf. rewrite list_fmap_insert, Hf.
  apply list_insert_id. rewrite list_lookup_fmap, Hk. reflexivity.
Qed.

Lemma delete_resolved (env : Env) (i : string) (us : list User)
  (k : nat) (u : User) :
  Spec.resolves_user i us k u ->
  UserModel.delete env i us
  = (Some (deactivate (now env) u), <[k := deactivate (now env) u]> us).
Proof.
  intros Hres. unfold UserModel.delete.
  rewrite (findIndex_first _ _ _ _ Hres). destruct Hres as (-> & _).
  reflexivity.
Qed.

Lemma update_resolved (env : Env) (i : string) (updateData : UserUpdate)
  (us : list User) (k : nat) (u : User) :
  Spec.resolves_user i us k u ->
  UserModel.update env i updateData us
  = (Some (spread (now env) updateData u),
     <[k := spread (now env) updateData u]> us).
Proof.
  intros Hres. unfold UserModel.update.
  rewrite (findIndex_first _ _ _ _ Hres). destruct Hres as (-> & _).
  reflexivity.
Qed.

(** Unique identifiers: the record an identifier resolves to is the only
    one that has it. *)
Lemma unique_at {B : Type} (f : User -> B) (us : list User)
  (j k : nat) (x u : User) :
  NoDup (f <$> us) -> us !! j = Some x -> us !! k = Some u ->
  f x = f u -> j = k.
Proof.
  intros Hnd Hj Hk Hf.
  apply (NoDup_lookup (f <$> us) j k (f u) Hnd);
    rewrite list_lookup_fmap; [rewrite Hj|rewrite Hk]; simpl; congruence.
Qed.

(** X1.  [UserModel.update] on an identifier no record has returns [null]
    and leaves the list as it was; on an identifier that resolves it
    replaces that one slot, keeps the length, stamps [updatedAt] with the
    current instant even when [updateData] carries an [updatedAt] of its
    own, and with an empty [updateData] changes nothing but [updatedAt]. *)
Theorem user_update_frame (env : Env) (i : string) (updateData : UserUpdate)
  (us : list User) :
  ((forall u, u ∈ us -> id u <> i) ->
   UserModel.update env i updateData us = (None, us))
  /\ (forall k u,
         Spec.resolves_user i us k u ->
         exists u',
           UserModel.update env i updateData us = (Some u', <[k := u']> us)
           /\ updatedAt u' = now env
           /\ length (<[k := u']> us) = length us
           /\ (forall j, j <> k -> <[k := u']> us !! j = us !! j)
           /\ (updateData = Spec.no_update ->
               u' = spread (now env) Spec.no_update u
               /\ (id u', fullName u', email u', password u', role u',
                   schoolType u', isActive u', createdAt u')
                  = (id u, fullName u, email u, password u, role u,
                     schoolType u, isActive u, createdAt u))).
Proof.
  split.
  - intros Hno. unfold UserModel.update. rewrite findIndex_absent;
      [reflexivity|].
    intros u Hu. apply String.eqb_neq, Hno, Hu.
  - intros k u Hres. exists (spread (now env) updateData u).
    split; [apply update_resolved, Hres|]. split; [reflexivity|].
    split; [apply length_insert|]. split.
    + intros j Hj. apply list_lookup_insert_ne. congruence.
    + intros ->. split; reflexivity.
Qed.

(** X2.  Email uniqueness across calls.  [UserModel.delete], and a
    [UserModel.create] during whose [await] nothing else touches the list,
    keep the emails of the list pairwise distinct.  Calls of [create] that
    overlap do not: when a second call for the same email is made while the
    first awaits its hash, the check of the second passes on the same list
    as the check of the first did, and once both have resumed the list
    holds the email twice. *)
Theorem emails_unique_unless_creates_overlap
  (bcrypt_hash : string -> Z -> string -> string)
  (env env' : Env) (userData userData' : UserData) (i : string)
  (us : list User) :
  Spec.unique_emails us ->
  Spec.unique_emails (create bcrypt_hash env userData us).2
  /\ Spec.unique_emails (UserModel.delete env i us).2
  /\ (create_check userData us = Returned tt ->
      d_email userData' = d_email userData ->
      create_check userData' us = Returned tt
      /\ ~ Spec.unique_emails
           (create_resume bcrypt_hash env' userData'
              (create_resume bcrypt_hash env userData us).2).2).
Proof.
  unfold Spec.unique_emails. intros Hnd. split; [|split].
  - unfold create, create_check.
    destruct (List.find _ us) eqn:E; simpl; [exact Hnd|].
    rewrite fmap_app. apply NoDup_app. split; [exact Hnd|]. split.
    + intros e He Hin. simpl in Hin. apply list_elem_of_singleton in Hin.
      apply list_elem_of_fmap in He as (u & -> & Hu).
      pose proof (find_None_elem _ _ E u Hu) as Hf. simpl in Hf.
      rewrite Hin, String.eqb_refl in Hf. discriminate.
    + simpl. apply NoDup_singleton.
  - unfold UserModel.delete.
    destruct (JS.findIndex _ us) as [k|] eqn:E; [|exact Hnd].
    destruct (us !! k) as [u|] eqn:Hk; [|exact Hnd]. simpl.
    rewrite (map_insert_same email us k u _ Hk); [exact Hnd|reflexivity].
  - intros Hcheck Hsame. split.
    + unfold create_check in *. rewrite Hsame. exact Hcheck.
    + unfold create_resume. simpl. rewrite !fmap_app. simpl.
      rewrite Hsame. intros Hdup.
      apply NoDup_app in Hdup as (_ & Hdup & _).
      apply (Hdup (d_email userData)).
      * apply elem_of_app. right. apply list_elem_of_singleton. reflexivity.
      * apply list_elem_of_singleton. reflexivity.
Qed.

(** X3.  [UserModel.update] checks nothing: giving a record the email of
    another record leaves two records with the same email. *)
Theorem update_breaks_email_uniqueness (env : Env) (i : string)
  (us : list User) (k j : nat) (u w : User) :
  Spec.resolves_user i us k u ->
  us !! j = Some w ->
  j <> k ->
  ~ Spec.unique_emails
      (UserModel.update env i (Spec.only_email (email w)) us).2.
Proof.
  intros Hres Hj Hne Hnd. rewrite (update_resolved _ _ _ _ _ _ Hres) in Hnd.
  simpl in Hnd. destruct Hres as (Hk & _ & _).
  apply Hne.
  apply (NoDup_lookup _ j k (email w) Hnd); rewrite list_lookup_fmap.
  - rewrite list_lookup_insert_ne by congruence. rewrite Hj. reflexivity.
  - rewrite list_lookup_insert_eq by (apply lookup_lt_Some with u; exact Hk).
    reflexivity.
Qed.

(** X4.  After [UserModel.delete] the record is out of sight: it is not in
    [getAll]; with unique identifiers [getById] of its identifier finds
    nothing, and with unique emails [getByEmail] of its email finds
    nothing. *)
Theorem deleted_user_is_hidden (env : Env) (i : string) (us : list User)
  (k : nat) (u : User) :
  Spec.resolves_user i us k u ->
  let us' := (UserModel.delete env i us).2 in
  us' !! k = Some (deactivate (now env) u)
  /\ (deactivate (now env) u ∉ getAll us')
  /\ (Spec.unique_ids us -> getById i us' = None)
  /\ (Spec.unique_emails us -> getByEmail (email u) us' = None).
Proof.
  intros Hres us'. unfold us'. rewrite (delete_resolved _ _ _ _ _ Hres).
  simpl. destruct Hres as (Hk & Hid & _). apply String.eqb_eq in Hid.
  assert (Hhidden : forall (B : Type) (f : User -> B) (b : B)
            (eqb : B -> B -> bool),
            (forall x y, eqb x y = true -> x = y) ->
            f u = b -> NoDup (f <$> us) ->
            List.find (fun user => eqb (f user) b && isActive user)
              (<[k := deactivate (now env) u]> us) = None).
  { intros B f b eqb Heqb Hb Hnd. apply find_none_elem. intros x Hx.
    apply elem_of_insert_inv in Hx as [->|(j & Hne & Hj)].
    - simpl. apply andb_false_r.
    - destruct (eqb (f x) b) eqn:Hf; [|reflexivity].
      apply Heqb in Hf. destruct Hne.
      apply (unique_at f us j k x u Hnd Hj Hk). congruence. }
  split; [apply list_lookup_insert_eq, lookup_lt_Some with u, Hk|].
  split.
  - unfold getAll. intros Hin. apply list_elem_of_In in Hin.
    apply List.filter_In in Hin as [_ Hact]. discriminate Hact.
  - split; intros Hnd.
    + apply (Hhidden string id i String.eqb); [|exact Hid|exact Hnd].
      intros x y. apply String.eqb_eq.
    + apply (Hhidden string email (email u) String.eqb);
        [|reflexivity|exact Hnd].
      intros x y. apply String.eqb_eq.
Qed.

(** X5.  [UserModel.delete] finds inactive records too: deleting a second
    time returns the record again, not [null], and leaves the list as one
    delete at the later instant would. *)
Theorem delete_twice (env env' : Env) (i : string) (us : list User)
  (k : nat) (u : User) :
  Spec.resolves_user i us k u ->
  UserModel.delete env' i (UserModel.delete env i us).2
  = UserModel.delete env' i us
  /\ (UserModel.delete env' i (UserModel.delete env i us).2).1
     = Some (deactivate (now env') u).
Proof.
  intros Hres. rewrite (delete_resolved env _ _ _ _ Hres).
  rewrite (delete_resolved env' _ _ _ _ Hres). simpl.
  pose proof (findIndex_first _ _ _ _ Hres) as Hfi.
  destruct Hres as (Hk & Hid & _).
  unfold UserModel.delete.
  rewrite (findIndex_insert _ us k (deactivate (now env) u) Hfi Hid).
  rewrite list_lookup_insert_eq by (apply lookup_lt_Some with u; exact Hk).
  rewrite list_insert_insert_eq. split; reflexivity.
Qed.

(** X6.  A soft delete is undone by [UserModel.update] with
    [{isActive: true}]: the update finds the inactive record, and afterwards
    [getById] returns it, equal to the original but for [updatedAt]. *)
Theorem update_restores_deleted (env env' : Env) (i : string)
  (us : list User) (k : nat) (u : User) :
  Spec.resolves_user i us k u ->
  isActive u = true ->
  let us1 := (UserModel.delete env i us).2 in
  let restored := spread (now env') Spec.no_update u in
  UserModel.update env' i (Spec.only_isActive true) us1
  = (Some restored, <[k := restored]> us)
  /\ getById i (<[k := restored]> us) = Some restored.
Proof.
  intros Hres Hact us1 restored. unfold us1.
  rewrite (delete_resolved env _ _ _ _ Hres). simpl.
  pose proof (findIndex_first _ _ _ _ Hres) as Hfi.
  destruct Hres as (Hk & Hid & Hbefore).
  assert (Hlt : k < length us) by (apply lookup_lt_Some with u; exact Hk).
  assert (Hr : spread (now env') (Spec.only_isActive true)
                 (deactivate (now env) u) = restored).
  { unfold restored, spread. simpl. rewrite Hact. reflexivity. }
  split.
  - unfold UserModel.update.
    rewrite (findIndex_insert _ us k (deactivate (now env) u) Hfi Hid).
    rewrite list_lookup_insert_eq by exact Hlt.
    rewrite list_insert_insert_eq, Hr. reflexivity.
  - unfold getById.
    apply (find_first_with
             (fun user => String.eqb (id user) i) isActive _ k).
    + split; [apply list_lookup_insert_eq, Hlt|]. split; [exact Hid|].
      intros j y Hj Hy. rewrite list_lookup_insert_ne in Hy by lia.
      apply (Hbefore j y Hj Hy).
    + exact Hact.
Qed.

(** X7.  After a successful [UserModel.create], [getByEmail] of the new
    email returns the new record if it was created active and nothing if it
    was created with [isActive: false]; the records that were there keep
    their places. *)
Theorem created_user_is_found
  (bcrypt_hash : string -> Z -> string -> string)
  (env : Env) (userData : UserData) (us : list User) :
  (forall u, u ∈ us -> email u <> d_email userData) ->
  let user :=
    new_User env
      (with_password (bcrypt_hash (d_password userData) 10%Z (salt env))
         userData) in
  let us' := (create bcrypt_hash env userData us).2 in
  getByEmail (d_email userData) us'
  = (if default true (d_isActive userData) then Some user else None)
  /\ (forall j u, us !! j = Some u -> us' !! j = Some u)
  /\ us' !! length us = Some user.
Proof.
  intros Hfresh user us'.
  assert (Hnone : forall q : User -> bool,
             List.find (fun x => String.eqb (email x) (d_email userData)
                                 && q x) us = None).
  { intros q. apply find_none_elem. intros x Hx.
    destruct (String.eqb_spec (email x) (d_email userData)) as [He|];
      [destruct (Hfresh x Hx He)|reflexivity]. }
  assert (Hus : us' = (us ++ [user])%list).
  { unfold us', create, create_check. rewrite find_none_elem; [reflexivity|].
    intros x Hx. apply String.eqb_neq, Hfresh, Hx. }
  rewrite Hus. split; [|split].
  - unfold getByEmail. rewrite find_app_none by apply Hnone. simpl.
    rewrite String.eqb_refl. simpl.
    destruct (d_isActive userData) as [[]|]; reflexivity.
  - intros j u Hj. apply lookup_app_l_Some, Hj.
  - rewrite lookup_app_r by lia. rewrite Nat.sub_diag. reflexivity.
Qed.

(** X8.  The three readers agree: whatever [getById] or [getByEmail] returns
    is an active record that [getAll] lists and that has the identifier or
    the email asked for; and they return nothing exactly when [getAll] lists
    no such record. *)
Theorem readers_agree (i mail : string) (us : list User) :
  (forall u, getById i us = Some u ->
             u ∈ getAll us /\ id u = i /\ isActive u = true)
  /\ (getById i us = None <-> forall u, u ∈ getAll us -> id u <> i)
  /\ (forall u, getByEmail mail us = Some u ->
                u ∈ getAll us /\ email u = mail /\ isActive u = true)
  /\ (getByEmail mail us = None <-> forall u, u ∈ getAll us -> email u <> mail).
Proof.
  assert (Hall : forall u, u ∈ getAll us <-> u ∈ us /\ isActive u = true).
  { intros u. unfold getAll. rewrite list_elem_of_In, List.filter_In.
    rewrite <- list_elem_of_In. reflexivity. }
  assert (Hgen : forall (f : User -> string) (b : string),
            (forall u,
                List.find (fun user => String.eqb (f user) b && isActive user)
                  us = Some u ->
                u ∈ getAll us /\ f u = b /\ isActive u = true)
            /\ (List.find (fun user => String.eqb (f user) b && isActive user)
                  us = None
                <-> forall u, u ∈ getAll us -> f u <> b)).
  { intros f b. split.
    - intros u Hf. apply find_Some_elem in Hf as [Hu Hp].
      apply andb_true_iff in Hp as [He Ha]. apply String.eqb_eq in He.
      split; [apply Hall; auto|auto].
    - split.
      + intros Hn u Hu He. apply Hall in Hu as [Hu Ha].
        pose proof (find_None_elem _ _ Hn u Hu) as Hp. simpl in Hp.
        rewrite He, String.eqb_refl, Ha in Hp. discriminate.
      + intros Hno. apply find_none_elem. intros x Hx.
        destruct (isActive x) eqn:Ha; [|apply andb_false_r].
        destruct (String.eqb_spec (f x) b) as [He|]; [|reflexivity].
        destruct (Hno x); [apply Hall; auto|exact He]. }
  destruct (Hgen id i) as [H1 H2]. destruct (Hgen email mail) as [H3 H4].
  unfold getById, getByEmail. auto.
Qed.

End UserStoreMore.

Lemma seed_users_unique :
  Spec.unique_emails (UserModel.users Sample.env0)
  /\ Spec.unique_ids (UserModel.users Sample.env0).
Proof.
  split; cbv [Spec.unique_emails Spec.unique_ids UserModel.users fmap
              list_fmap];
    repeat (apply NoDup_cons_2;
            [rewrite ?elem_of_cons, ?elem_of_nil; simpl;
             intros H; intuition discriminate|]);
    apply NoDup_nil_2.
Qed.

Lemma seed_resolves_john :
  Spec.resolves_user "1" (UserModel.users Sample.env0) 0
    (UserModel.new_User Sample.env0
       (UserModel.seed "1" "John Doe" "john@student.com" "school-student"
          (Some "government"))).
Proof. apply first_of_findIndex; reflexivity. Qed.

Lemma user_update_frame_sample :
  UserModel.update Sample.env1 "nobody" (Spec.only_email "x@y.z")
    (UserModel.users Sample.env0)
  = (None, UserModel.users Sample.env0)
  /\ exists u',
       UserModel.update Sample.env1 "1" Spec.no_update
         (UserModel.users Sample.env0)
       = (Some u', <[0 := u']> (UserModel.users Sample.env0))
       /\ UserModel.updatedAt u' = now Sample.env1.
Proof.
  split.
  - apply (proj1 (user_update_frame Sample.env1 "nobody"
                    (Spec.only_email "x@y.z") (UserModel.users Sample.env0))).
    intros u Hu. apply String.eqb_neq.
    apply (findIndex_None
             (fun user => String.eqb (UserModel.id user) "nobody")
             (UserModel.users Sample.env0) eq_refl u Hu).
  - destruct (proj2 (user_update_frame Sample.env1 "1" Spec.no_update
                       (UserModel.users Sample.env0))
                0 _ seed_resolves_john)
      as (u' & Heq & Ht & _).
    exists u'. split; [exact Heq|exact Ht].
Defined.

Lemma emails_unique_unless_creates_overlap_sample :
  let registered :=
    UserModel.create Sample.toy_hash Sample.env1 Sample.newcomer
      (UserModel.users Sample.env0) in
  let first :=
    UserModel.create_resume Sample.toy_hash Sample.env1 Sample.newcomer
      (UserModel.users Sample.env0) in
  let second :=
    UserModel.create_resume Sample.toy_hash Sample.env0 Sample.newcomer
      first.2 in
  length registered.2 = 4
  /\ Spec.unique_emails registered.2
  /\ Spec.unique_emails
       (UserModel.delete Sample.env1 "1" (UserModel.users Sample.env0)).2
  /\ UserModel.create_check Sample.newcomer (UserModel.users Sample.env0)
     = UserModel.Returned tt
  /\ length second.2 = 5
  /\ ~ Spec.unique_emails second.2.
Proof.
  pose proof (emails_unique_unless_creates_overlap Sample.toy_hash
                Sample.env1 Sample.env0 Sample.newcomer Sample.newcomer "1"
                (UserModel.users Sample.env0) (proj1 seed_users_unique))
    as (Hcreate & Hdelete & Hoverlap).
  destruct (Hoverlap eq_refl eq_refl) as [Hcheck Hdup].
  split; [reflexivity|]. split; [exact Hcreate|]. split; [exact Hdelete|].
  split; [exact Hcheck|]. split; [reflexivity|exact Hdup].
Defined.

Lemma update_breaks_email_uniqueness_sample :
  ~ Spec.unique_emails
      (UserModel.update Sample.env1 "1" (Spec.only_email "jane@college.com")
         (UserModel.users Sample.env0)).2.
Proof.
  apply (update_breaks_email_uniqueness Sample.env1 "1"
           (UserModel.users Sample.env0) 0 1 _
           (UserModel.new_User Sample.env0
              (UserModel.seed "2" "Jane Smith" "jane@college.com"
                 "college-student" None))
           seed_resolves_john eq_refl ltac:(discriminate)).
Defined.

Lemma deleted_user_is_hidden_sample :
  UserModel.getById "1"
    (UserModel.delete Sample.env1 "1" (UserModel.users Sample.env0)).2 = None
  /\ UserModel.getByEmail "john@student.com"
       (UserModel.delete Sample.env1 "1" (UserModel.users Sample.env0)).2
     = None.
Proof.
  destruct (deleted_user_is_hidden Sample.env1 "1"
              (UserModel.users Sample.env0) 0 _ seed_resolves_john)
    as (_ & _ & Hid & Hmail).
  split; [apply Hid, seed_users_unique|apply Hmail, seed_users_unique].
Defined.

Lemma delete_twice_sample :
  UserModel.delete Sample.env1 "1"
    (UserModel.delete Sample.env0 "1" (UserModel.users Sample.env0)).2
  = UserModel.delete Sample.env1 "1" (UserModel.users Sample.env0).
Proof.
  apply (proj1 (delete_twice Sample.env0 Sample.env1 "1"
                  (UserModel.users Sample.env0) 0 _ seed_resolves_john)).
Defined.

Lemma update_restores_deleted_sample :
  exists restored,
    UserModel.update Sample.env1 "1" (Spec.only_isActive true)
      (UserModel.delete Sample.env0 "1" (UserModel.users Sample.env0)).2
    = (Some restored, <[0 := restored]> (UserModel.users Sample.env0))
    /\ UserModel.getById "1" (<[0 := restored]> (UserModel.users Sample.env0))
       = Some restored.
Proof.
  eexists.
  apply (update_restores_deleted Sample.env0 Sample.env1 "1"
           (UserModel.users Sample.env0) 0 _ seed_resolves_john eq_refl).
Defined.

Lemma created_user_is_found_sample :
  exists user,
    UserModel.getByEmail "new@youngwealth.com"
      (UserModel.create Sample.toy_hash Sample.env1 Sample.newcomer
         (UserModel.users Sample.env0)).2
    = Some user
    /\ UserModel.password user
       = Sample.toy_hash "s3cret-pass" 10 (salt Sample.env1).
Proof.
  eexists. split.
  - apply (proj1 (created_user_is_found Sample.toy_hash Sample.env1
                    Sample.newcomer (UserModel.users Sample.env0)
                    ltac:(intros u Hu; apply String.eqb_neq;
                          apply (findIndex_None
                                   (fun user =>
                                      String.eqb (UserModel.email user)
                                        "new@youngwealth.com")
                                   (UserModel.users Sample.env0) eq_refl u Hu)))).
  - reflexivity.
Defined.

(** * Further properties of the admin routes *)

(** ** POST /login *)

Section LoginMore.

Import Admin.

Variable bcrypt_compare : string -> string -> bool.

(** The route on a request that supplies both credentials as strings. *)
Lemma post_login_strings (req : Request) (st : Store) (mail pw : string) :
  field req "email" = JS.VStr mail ->
  field req "password" = JS.VStr pw ->
  mail <> "" -> pw <> "" ->
  post_login bcrypt_compare req st
  = match UserModel.getByEmail (Spec.normalised mail) (users st) with
    | None => (invalid_credentials, st)
    | Some user =>
        if String.eqb (UserModel.role user) "admin"
           && bcrypt_compare pw (UserModel.password user)
        then (mkResponse 200
                (SuccessAdmin
                   (base.delete "password" (UserModel.properties user))),
              st)
        else (invalid_credentials, st)
    end.
Proof.
  intros He Hp Hmail Hpw. unfold post_login, try_catch, post_login_body.
  rewrite He, Hp, (truthy_string mail Hmail), (truthy_string pw Hpw). simpl.
  unfold Spec.normalised.
  destruct (UserModel.getByEmail _ (users st)) as [user|]; [|reflexivity].
  destruct (String.eqb (UserModel.role user) "admin"); simpl; [|reflexivity].
  unfold UserModel.validatePassword.
  destruct (bcrypt_compare pw (UserModel.password user)); reflexivity.
Qed.

(** Every way POST /login can end. *)
Lemma post_login_cases (req : Request) (st : Store) :
  exists r,
    post_login bcrypt_compare req st = (r, st)
    /\ (r = mkResponse 400 (Failure "Email and password are required" None)
        \/ r = mkResponse 500 (Failure "Admin login failed" None)
        \/ r = invalid_credentials
        \/ exists user mail pw,
             field req "email" = JS.VStr mail
             /\ field req "password" = JS.VStr pw
             /\ user ∈ users st
             /\ UserModel.isActive user = true
             /\ UserModel.role user = "admin"
             /\ UserModel.email user = Spec.normalised mail
             /\ bcrypt_compare pw (UserModel.password user) = true
             /\ r = mkResponse 200
                      (SuccessAdmin
                         (base.delete "password"
                            (UserModel.properties user)))).
Proof.
  unfold post_login, try_catch, post_login_body.
  destruct (JS.truthy (field req "email")) eqn:Hte; simpl; [|eauto].
  destruct (JS.truthy (field req "password")) eqn:Htp; simpl; [|eauto].
  destruct (field req "email") as [| | | |mail|] eqn:He; simpl; eauto.
  fold (Spec.normalised mail).
  destruct (UserModel.getByEmail _ (users st)) as [user|] eqn:Hf; [|eauto 6].
  destruct (String.eqb_spec (UserModel.role user) "admin") as [Hr|Hr]; simpl;
    [|eauto 6].
  destruct (field req "password") as [| | | |pw|] eqn:Hp; simpl; eauto.
  unfold UserModel.validatePassword.
  destruct (bcrypt_compare pw (UserModel.password user)) eqn:Hc; simpl;
    [|eauto 6].
  eexists. split; [reflexivity|]. right. right. right.
  exists user, mail, pw.
  apply find_Some_elem in Hf as [Hu Hq].
  apply andb_true_iff in Hq as [Hm Ha]. apply String.eqb_eq in Hm.
  auto 10.
Qed.

(** X9.  POST /login never changes a store and answers 200, 400, 401 or
    500.  It answers 200 only when both credentials are strings, the
    lower-cased and trimmed email is the email of an active user whose role
    is "admin", and [bcrypt.compare] accepts the password against that user's
    hash; the [admin] object it then sends is that user without the
    [password] property. *)
Theorem login_sound (req : Request) (st : Store) :
  (post_login bcrypt_compare req st).2 = st
  /\ status (post_login bcrypt_compare req st).1 ∈ [200; 400; 401; 500]
  /\ (status (post_login bcrypt_compare req st).1 = 200 ->
      exists user mail pw,
        field req "email" = JS.VStr mail
        /\ field req "password" = JS.VStr pw
        /\ user ∈ users st
        /\ UserModel.isActive user = true
        /\ UserModel.role user = "admin"
        /\ UserModel.email user = Spec.normalised mail
        /\ bcrypt_compare pw (UserModel.password user) = true
        /\ payload (post_login bcrypt_compare req st).1
           = SuccessAdmin
               (base.delete "password" (UserModel.properties user)))
  /\ (forall admin,
         payload (post_login bcrypt_compare req st).1 = SuccessAdmin admin ->
         admin !! "password" = None).
Proof.
  destruct (post_login_cases req st)
    as (r & -> & [->|[->|[->|(user & mail & pw & H)]]]); simpl;
    try (repeat split;
         [apply list_elem_of_In; simpl; tauto|discriminate|discriminate]).
  destruct H as (He & Hp & Hu & Ha & Hr & Hm & Hc & ->). simpl.
  split; [reflexivity|]. split; [apply list_elem_of_In; simpl; tauto|]. split.
  - intros _. exists user, mail, pw. auto 10.
  - intros admin [= <-]. apply lookup_delete_eq.
Qed.

(** X10.  Malformed credentials: a missing or falsy email or password is
    answered 400 "Email and password are required" whatever the store holds;
    a truthy email that is not a string makes [email.toLowerCase()] throw
    and is answered 500 "Admin login failed". *)
Theorem login_malformed (req : Request) (st : Store) :
  (JS.truthy (field req "email") = false
   \/ JS.truthy (field req "password") = false ->
   post_login bcrypt_compare req st
   = (mkResponse 400 (Failure "Email and password are required" None), st))
  /\ (JS.truthy (field req "email") = true ->
      JS.truthy (field req "password") = true ->
      (forall s, field req "email" <> JS.VStr s) ->
      post_login bcrypt_compare req st
      = (mkResponse 500 (Failure "Admin login failed" None), st)).
Proof.
  unfold post_login, try_catch, post_login_body. split.
  - intros [H|H]; rewrite H; rewrite ?orb_true_r; reflexivity.
  - intros He Hp Hs. rewrite He, Hp. simpl.
    destruct (field req "email") as [| | | |s|]; try reflexivity.
    destruct (Hs s eq_refl).
Qed.

(** X11.  The email of a login request counts up to letter case and
    surrounding white space: two requests with the same password whose
    emails normalise to the same string get the same answer. *)
Theorem login_normalises_email (req req' : Request) (st : Store)
  (mail mail' : string) :
  field req "email" = JS.VStr mail ->
  field req' "email" = JS.VStr mail' ->
  mail <> "" -> mail' <> "" ->
  field req "password" = field req' "password" ->
  Spec.normalised mail = Spec.normalised mail' ->
  post_login bcrypt_compare req st = post_login bcrypt_compare req' st.
Proof.
  intros He He' Hm Hm' Hp Hn.
  unfold post_login, try_catch, post_login_body.
  rewrite He, He', <- Hp, (truthy_string mail Hm), (truthy_string mail' Hm').
  simpl. fold (Spec.normalised mail) (Spec.normalised mail').
  rewrite Hn. reflexivity.
Qed.

End LoginMore.

(** ** Normalising an email *)

Section Normalise.

Lemma lower_idem (c : ascii) : JS.lower (JS.lower c) = JS.lower c.
Proof. destruct c as [[] [] [] [] [] [] [] []]; reflexivity. Qed.

Lemma is_ws_lower (c : ascii) : JS.is_ws (JS.lower c) = JS.is_ws c.
Proof. destruct c as [[] [] [] [] [] [] [] []]; reflexivity. Qed.

Lemma toLowerCase_idem (s : string) :
  JS.toLowerCase (JS.toLowerCase s) = JS.toLowerCase s.
Proof.
  induction s as [|c s IH]; simpl; [reflexivity|].
  rewrite lower_idem, IH. reflexivity.
Qed.

Lemma trimStart_lower (s : string) :
  JS.trimStart (JS.toLowerCase s) = JS.toLowerCase (JS.trimStart s).
Proof.
  induction s as [|c s IH]; simpl; [reflexivity|].
  rewrite is_ws_lower. destruct (JS.is_ws c); [exact IH|reflexivity].
Qed.

Lemma trimEnd_lower (s : string) :
  JS.trimEnd (JS.toLowerCase s) = JS.toLowerCase (JS.trimEnd s).
Proof.
  induction s as [|c s IH]; simpl; [reflexivity|].
  rewrite IH, is_ws_lower.
  destruct (JS.trimEnd s); simpl; [destruct (JS.is_ws c)|]; reflexivity.
Qed.

Lemma trimStart_idem (s : string) :
  JS.trimStart (JS.trimStart s) = JS.trimStart s.
Proof.
  induction s as [|c s IH]; simpl; [reflexivity|].
  destruct (JS.is_ws c) eqn:E; [exact IH|]. simpl. rewrite E. reflexivity.
Qed.

Lemma trimEnd_idem (s : string) : JS.trimEnd (JS.trimEnd s) = JS.trimEnd s.
Proof.
  induction s as [|c s IH]; simpl; [reflexivity|].
  destruct (JS.trimEnd s) as [|a t] eqn:E.
  - destruct (JS.is_ws c) eqn:Ec; simpl; [reflexivity|].
    rewrite Ec. reflexivity.
  - simpl in *. destruct (JS.trimEnd t) as [|a' t'] eqn:Et.
    + destruct (JS.is_ws a); [discriminate|]. injection IH as <-.
      reflexivity.
    + rewrite IH. reflexivity.
Qed.

(** Trimming the end of a string that starts with no white space leaves
    its start alone. *)
Lemma trimStart_trimEnd (s : string) :
  JS.trimStart s = s -> JS.trimStart (JS.trimEnd s) = JS.trimEnd s.
Proof.
  destruct s as [|c s]; [reflexivity|]. simpl.
  destruct (JS.is_ws c) eqn:Ec.
  - intros H. exfalso.
    assert (Hlen : forall t, String.length (JS.trimStart t) <= String.length t).
    { induction t as [|a t IHt]; simpl; [lia|].
      destruct (JS.is_ws a); simpl; lia. }
    specialize (Hlen s). rewrite H in Hlen. simpl in Hlen. lia.
  - intros _. destruct (JS.trimEnd s); simpl; rewrite Ec; reflexivity.
Qed.

Lemma trim_idem (s : string) : JS.trim (JS.trim s) = JS.trim s.
Proof.
  unfold JS.trim.
  rewrite (trimStart_trimEnd (JS.trimStart s) (trimStart_idem s)).
  apply trimEnd_idem.
Qed.

Lemma trim_lower (s : string) :
  JS.trim (JS.toLowerCase s) = JS.toLowerCase (JS.trim s).
Proof. unfold JS.trim. rewrite trimStart_lower. apply trimEnd_lower. Qed.

Lemma normalised_idem (mail : string) :
  Spec.normalised (Spec.normalised mail) = Spec.normalised mail.
Proof.
  unfold Spec.normalised.
  rewrite <- (trim_lower (JS.toLowerCase mail)), toLowerCase_idem.
  apply trim_idem.
Qed.

End Normalise.

Section LoginCompose.

Import Admin.

Variable bcrypt_hash : string -> Z -> string -> string.
Variable bcrypt_compare : string -> string -> bool.

(** X12.  Login looks users up by the normalised email only, and nothing
    normalises an email when it is stored: while every admin record carries
    an email that is not already lower-case and trimmed, no request is
    answered 200. *)
Theorem unnormalised_admin_cannot_login (req : Request) (st : Store) :
  (forall u, u ∈ users st -> UserModel.role u = "admin" ->
             Spec.normalised (UserModel.email u) <> UserModel.email u) ->
  status (post_login bcrypt_compare req st).1 <> 200.
Proof.
  intros Hraw.
  destruct (post_login_cases bcrypt_compare req st)
    as (r & -> & [->|[->|[->|(user & mail & pw & H)]]]); simpl;
    try discriminate.
  destruct H as (_ & _ & Hu & _ & Hr & Hm & _). exfalso.
  apply (Hraw user Hu Hr). rewrite Hm. apply normalised_idem.
Qed.

Lemma getByEmail_created (env : Env) (userData : UserModel.UserData)
  (us : list UserModel.User) :
  (forall u, u ∈ us -> UserModel.email u <> UserModel.d_email userData) ->
  let user :=
    UserModel.new_User env
      (UserModel.with_password
         (bcrypt_hash (UserModel.d_password userData) 10%Z (salt env))
         userData) in
  (UserModel.create bcrypt_hash env userData us).2 = (us ++ [user])%list
  /\ (UserModel.isActive user = true ->
      UserModel.getByEmail (UserModel.d_email userData) (us ++ [user])%list
      = Some user).
Proof.
  intros Hfresh user. split.
  - unfold UserModel.create, UserModel.create_check. rewrite find_none_elem; [reflexivity|].
    intros x Hx. apply String.eqb_neq, Hfresh, Hx.
  - intros Ha. unfold UserModel.getByEmail. rewrite find_app_none.
    + simpl. rewrite String.eqb_refl. simpl in Ha. simpl. rewrite Ha.
      reflexivity.
    + apply find_none_elem. intros x Hx.
      destruct (String.eqb_spec (UserModel.email x)
                  (UserModel.d_email userData)) as [He|];
        [destruct (Hfresh x Hx He)|reflexivity].
Qed.

(** X13.  Registration and login fit together: after [UserModel.create]
    has stored an active admin whose email is already lower-case and
    trimmed, POST /login with that email in any letter case or padding and
    with the registered password answers 200 with the user's record minus
    the password, provided [bcrypt.compare] accepts a password against its
    own hash. *)
Theorem registered_admin_can_login (env : Env)
  (userData : UserModel.UserData) (st : Store) (req : Request)
  (mail : string) :
  (forall u, u ∈ users st ->
             UserModel.email u <> UserModel.d_email userData) ->
  UserModel.d_role userData = "admin" ->
  UserModel.d_isActive userData <> Some false ->
  UserModel.d_password userData <> "" ->
  bcrypt_compare (UserModel.d_password userData)
    (bcrypt_hash (UserModel.d_password userData) 10%Z (salt env)) = true ->
  field req "email" = JS.VStr mail ->
  mail <> "" ->
  Spec.normalised mail = UserModel.d_email userData ->
  field req "password" = JS.VStr (UserModel.d_password userData) ->
  let st' :=
    Spec.with_users
      (UserModel.create bcrypt_hash env userData (users st)).2 st in
  exists admin,
    post_login bcrypt_compare req st'
    = (mkResponse 200 (SuccessAdmin admin), st')
    /\ admin !! "email" = Some (JS.VStr (UserModel.d_email userData))
    /\ admin !! "role" = Some (JS.VStr "admin")
    /\ admin !! "password" = None.
Proof.
  intros Hfresh Hrole Hact Hpw Hbc He Hmail Hnorm Hp st'.
  destruct (getByEmail_created env userData (users st) Hfresh) as [Hus Hget].
  rewrite (post_login_strings bcrypt_compare req st' mail _ He Hp Hmail Hpw).
  unfold st', Spec.with_users. simpl users. rewrite Hus, Hnorm, Hget.
  - simpl UserModel.role. simpl UserModel.password. rewrite Hrole, Hbc. simpl.
    eexists. split; [reflexivity|].
    split; [|split; [|apply lookup_delete_eq]];
      rewrite lookup_delete_ne by discriminate; unfold UserModel.properties;
      repeat (rewrite lookup_insert_ne by discriminate);
      rewrite lookup_insert_eq; simpl; rewrite ?Hrole; reflexivity.
  - simpl. destruct (UserModel.d_isActive userData) as [[]|];
      [reflexivity|congruence|reflexivity].
Qed.

End LoginCompose.

(** ** GET /stats *)

Section StatsMore.

Import Admin.

Lemma count_app {A : Type} (p : A -> bool) (l : list A) (x : A) :
  Spec.count p (l ++ [x])%list = Spec.count p l + (if p x then 1 else 0).
Proof.
  induction l as [|y l IH]; simpl; [lia|]. rewrite IH. lia.
Qed.

Lemma count_users_split (us : list UserModel.User) :
  Spec.count Spec.counted_non_admin us
  = Spec.count (Spec.counted "school-student") us
    + Spec.count (Spec.counted "college-student") us
    + Spec.count (Spec.counted "employee") us
    + Spec.count Spec.other_role us.
Proof.
  induction us as [|u us IH]; simpl; [reflexivity|]. rewrite IH.
  unfold Spec.counted_non_admin, Spec.counted, Spec.other_role. simpl.
  destruct (UserModel.isActive u); simpl; [|lia].
  destruct (String.eqb_spec (UserModel.role u) "admin") as [->|]; simpl;
    [lia|].
  destruct (String.eqb_spec (UserModel.role u) "school-student") as [->|];
    simpl; [lia|].
  destruct (String.eqb_spec (UserModel.role u) "college-student") as [->|];
    simpl; [lia|].
  destruct (String.eqb_spec (UserModel.role u) "employee"); simpl; lia.
Qed.

(** X14.  In GET /stats the three role counts never add up to more than
    [totalUsers]: [totalUsers] is their sum plus the number of active users
    whose role is none of "admin", "school-student", "college-student" and
    "employee". *)
Theorem stats_user_breakdown (st : Store) :
  totalUsers (stats_of st)
  = schoolStudents (stats_of st) + collegeStudents (stats_of st)
    + employees (stats_of st) + Spec.count Spec.other_role (users st)
  /\ schoolStudents (stats_of st) + collegeStudents (stats_of st)
     + employees (stats_of st) <= totalUsers (stats_of st).
Proof.
  assert (H : totalUsers (stats_of st)
              = schoolStudents (stats_of st) + collegeStudents (stats_of st)
                + employees (stats_of st)
                + Spec.count Spec.other_role (users st)).
  { simpl. rewrite !active_count. apply count_users_split. }
  split; [exact H|lia].
Qed.

(** X15.  A successful [UserModel.create] shows in GET /stats at once: a
    user created active and with a role other than "admin" raises
    [totalUsers] by one, the count of the user's role goes up by one when
    the role is one of the three, a user created inactive or as admin moves
    no count, and the course figures stay as they were. *)
Theorem created_user_is_counted
  (bcrypt_hash : string -> Z -> string -> string)
  (env : Env) (userData : UserModel.UserData) (st : Store) :
  (forall u, u ∈ users st ->
             UserModel.email u <> UserModel.d_email userData) ->
  let st' :=
    Spec.with_users
      (UserModel.create bcrypt_hash env userData (users st)).2 st in
  let active := default true (UserModel.d_isActive userData) in
  let role_is r := String.eqb (UserModel.d_role userData) r in
  totalUsers (stats_of st')
  = totalUsers (stats_of st)
    + (if active && negb (role_is "admin") then 1 else 0)
  /\ schoolStudents (stats_of st')
     = schoolStudents (stats_of st)
       + (if active && role_is "school-student" then 1 else 0)
  /\ collegeStudents (stats_of st')
     = collegeStudents (stats_of st)
       + (if active && role_is "college-student" then 1 else 0)
  /\ employees (stats_of st')
     = employees (stats_of st)
       + (if active && role_is "employee" then 1 else 0)
  /\ totalCourses (stats_of st') = totalCourses (stats_of st)
  /\ activeCourses (stats_of st') = activeCourses (stats_of st)
  /\ totalVideos (stats_of st') = totalVideos (stats_of st).
Proof.
  intros Hfresh st' active role_is.
  destruct (getByEmail_created bcrypt_hash env userData (users st) Hfresh)
    as [Hus _].
  unfold st', Spec.with_users. simpl. rewrite Hus, !active_count, !count_app.
  repeat split; reflexivity.
Qed.

End StatsMore.

(** ** POST /courses and PUT /courses/:id *)

Section CourseData.

Import Admin.

Lemma not_is_Some_empty (name : string) :
  ~ is_Some ((∅ : gmap string string) !! name).
Proof. rewrite lookup_empty. intros [? H]. discriminate H. Qed.

Lemma no_keys_empty (errors : gmap string string) :
  (forall name, ~ is_Some (errors !! name)) -> errors = ∅.
Proof.
  intros H. apply map_eq. intros name. rewrite lookup_empty.
  destruct (errors !! name) eqn:E; [|reflexivity].
  destruct (H name). rewrite E. eauto.
Qed.

Lemma post_courses_errors_text (req : Request) :
  Spec.text_or_absent (field req "title") ->
  Spec.text_or_absent (field req "description") ->
  exists errors,
    post_courses_errors req = Some errors
    /\ forall name,
        is_Some (errors !! name) <-> Spec.invalid_field req name = true.
Proof.
  intros Ht Hd. unfold post_courses_errors.
  rewrite (missing_or_short_text 3 _ ltac:(lia) Ht). simpl.
  rewrite (missing_or_short_text 10 _ ltac:(lia) Hd). simpl.
  eexists. split; [reflexivity|]. intros name.
  rewrite errors_keys. unfold Spec.invalid_field.
  rewrite !includes_one_of, bad_price_spec, bad_duration_spec.
  reflexivity.
Qed.

Lemma too_short_false (n : nat) (v : JS.value) :
  0 < n -> Spec.text_or_absent v -> Spec.too_short n v = false ->
  exists s, v = JS.VStr s /\ JS.truthy v = true
            /\ n <= String.length (JS.trim s).
Proof.
  intros Hn Ht H.
  assert (Hs : exists s, v = JS.VStr s).
  { destruct Ht as [Hf|Hs]; [|exact Hs].
    destruct v; simpl in *; try rewrite Hf in H; try discriminate. eauto. }
  destruct Hs as [s ->]. simpl in H. apply Nat.ltb_ge in H.
  exists s. split; [reflexivity|]. split; [|exact H].
  destruct s; [simpl in H; lia|reflexivity].
Qed.

Lemma or_zero_not_negative (v : JS.value) :
  bad_price v = false ->
  Spec.not_negative (JS.or_zero (JS.parseFloat v)).
Proof.
  unfold bad_price, Spec.not_negative, JS.or_zero.
  destruct (JS.parseFloat v) as [|neg|m e]; simpl; [discriminate| |].
  - intros ->. auto.
  - intros H. destruct (m =? 0)%Z; simpl; auto.
Qed.

Lemma or_zero_positive (v : JS.value) :
  bad_duration v = false ->
  Spec.positive (JS.or_zero (JS.parseInt v)).
Proof.
  unfold bad_duration, Spec.positive, JS.or_zero.
  destruct (JS.parseInt v) as [|neg|m e]; simpl; [discriminate| |].
  - intros ->. auto.
  - intros H. destruct (Z.eqb_spec m 0) as [->|]; simpl; [discriminate|auto].
Qed.

(** X16.  When a course-creation input has text for title and description
    and no field breaks a rule, POST /courses hands the store a [courseData]
    that keeps the rules: the trimmed title of at least 3 and the trimmed
    description of at least 10 characters, a category and a level from the
    lists, a price that is neither [NaN] nor negative, a duration that is
    positive, no [isActive] of its own; and it answers 201 with the course
    the store made of it. *)
Theorem created_course_data (env : Env) (req : Request) (st : Store) :
  Spec.text_or_absent (field req "title") ->
  Spec.text_or_absent (field req "description") ->
  (forall name, Spec.invalid_field req name = false) ->
  exists data s d,
    field req "title" = JS.VStr s
    /\ field req "description" = JS.VStr d
    /\ post_courses_courseData req = Some data
    /\ CourseModel.d_title data = JS.trim s
    /\ 3 <= String.length (CourseModel.d_title data)
    /\ CourseModel.d_description data = JS.trim d
    /\ 10 <= String.length (CourseModel.d_description data)
    /\ JS.includes categories (CourseModel.d_category data) = true
    /\ JS.includes levels (CourseModel.d_level data) = true
    /\ Spec.not_negative (CourseModel.d_price data)
    /\ Spec.positive (CourseModel.d_duration data)
    /\ CourseModel.d_isActive data = None
    /\ post_courses env req st
       = (mkResponse 201
            (SuccessCourse (CourseModel.create env data (courses st)).1),
          with_courses (CourseModel.create env data (courses st)).2 st).
Proof.
  intros Ht Hd Hvalid.
  destruct (post_courses_errors_text req Ht Hd) as (errors & He & Hkeys).
  assert (errors = ∅) as ->.
  { apply no_keys_empty. intros name Hs. apply Hkeys in Hs.
    rewrite Hvalid in Hs. discriminate Hs. }
  pose proof (Hvalid "title") as H1. pose proof (Hvalid "description") as H2.
  pose proof (Hvalid "category") as H3. pose proof (Hvalid "level") as H4.
  pose proof (Hvalid "price") as H5. pose proof (Hvalid "duration") as H6.
  unfold Spec.invalid_field in H1, H2, H3, H4, H5, H6. simpl in *.
  destruct (too_short_false 3 _ ltac:(lia) Ht H1) as (s & Hs & _ & Hls).
  destruct (too_short_false 10 _ ltac:(lia) Hd H2) as (d & Hds & _ & Hld).
  rewrite <- includes_one_of in H3, H4.
  apply negb_false_iff in H3, H4.
  rewrite <- bad_price_spec in H5. rewrite <- bad_duration_spec in H6.
  eexists _, s, d. split; [exact Hs|]. split; [exact Hds|].
  split; [unfold post_courses_courseData; rewrite Hs, Hds; reflexivity|].
  simpl. split; [reflexivity|]. split; [exact Hls|].
  split; [reflexivity|]. split; [exact Hld|].
  split; [exact H3|]. split; [exact H4|].
  split; [apply or_zero_not_negative, H5|].
  split; [apply or_zero_positive, H6|]. split; [reflexivity|].
  unfold post_courses, try_catch, post_courses_body. rewrite He. simpl.
  rewrite Hs, Hds. reflexivity.
Qed.

Lemma present_and_short_text (n : nat) (v : JS.value) :
  Spec.text_or_absent v ->
  present_and_short n v = Some (JS.truthy v && Spec.too_short n v).
Proof.
  intros [Hf|[s ->]]; unfold present_and_short.
  - rewrite Hf. reflexivity.
  - destruct (JS.truthy (JS.VStr s)); reflexivity.
Qed.

Lemma put_courses_errors_text (req : Request) :
  Spec.text_or_absent (field req "title") ->
  Spec.text_or_absent (field req "description") ->
  exists errors,
    put_courses_errors req = Some errors
    /\ forall name,
        is_Some (errors !! name)
        <-> Spec.invalid_update_field req name = true.
Proof.
  intros Ht Hd. unfold put_courses_errors.
  rewrite (present_and_short_text 3 _ Ht). simpl.
  rewrite (present_and_short_text 10 _ Hd). simpl.
  eexists. split; [reflexivity|]. intros name.
  rewrite errors_keys. unfold Spec.invalid_update_field, Spec.invalid_field.
  rewrite !includes_one_of, bad_price_spec, bad_duration_spec.
  repeat match goal with
         | |- context [String.eqb name ?k] =>
             destruct (String.eqb_spec name k) as [->|?]; simpl
         end;
    rewrite ?andb_false_r; reflexivity.
Qed.

(** X17.  PUT /courses/:id validates only the fields that are present: for
    an input whose title and description are strings or absent, if some
    field is truthy and breaks its rule the route answers 400 "Validation
    failed" with an [errors] object whose keys are exactly those fields, and
    the stores are left as they were; if no present field breaks a rule,
    validation reports nothing. *)
Theorem update_validation_collects (env : Env) (req : Request) (st : Store) :
  Spec.text_or_absent (field req "title") ->
  Spec.text_or_absent (field req "description") ->
  ((exists name, Spec.invalid_update_field req name = true) ->
   exists errors,
     put_courses env req st = (validation_failed errors, st)
     /\ forall name,
         is_Some (errors !! name)
         <-> Spec.invalid_update_field req name = true)
  /\ ((forall name, Spec.invalid_update_field req name = false) ->
      put_courses_errors req = Some ∅).
Proof.
  intros Ht Hd.
  destruct (put_courses_errors_text req Ht Hd) as (errors & He & Hkeys).
  split.
  - intros [name0 Hinv]. exists errors. split; [|exact Hkeys].
    unfold put_courses. apply try_catch_Some.
    unfold put_courses_body. rewrite He. simpl.
    rewrite (nonempty_size errors name0); [reflexivity|].
    apply Hkeys, Hinv.
  - intros Hvalid. rewrite He. f_equal. apply no_keys_empty.
    intros name Hs. apply Hkeys in Hs. rewrite Hvalid in Hs. discriminate Hs.
Qed.

Lemma updateData_inv (req : Request) (updateData : CourseModel.UpdateData) :
  put_courses_updateData req = Some updateData ->
  exists title description,
    trimmed_if_present (field req "title") = Some title
    /\ trimmed_if_present (field req "description") = Some description
    /\ updateData
       = {| CourseModel.u_title := title;
            CourseModel.u_description := description;
            CourseModel.u_category :=
              if JS.truthy (field req "category")
              then Some (field req "category") else None;
            CourseModel.u_level :=
              if JS.truthy (field req "level")
              then Some (field req "level") else None;
            CourseModel.u_price :=
              if JS.defined (field req "price")
              then Some (JS.or_zero (JS.parseFloat (field req "price")))
              else None;
            CourseModel.u_duration :=
              if JS.defined (field req "duration")
              then Some (JS.or_zero (JS.parseInt (field req "duration")))
              else None;
            CourseModel.u_isActive :=
              if JS.defined (field req "isActive")
              then Some (JS.is_true_literal (field req "isActive"))
              else None;
            CourseModel.u_thumbnail := thumbnail_path <$> file req |}.
Proof.
  unfold put_courses_updateData.
  destruct (trimmed_if_present (field req "title")) as [title|]; simpl;
    [|discriminate].
  destruct (trimmed_if_present (field req "description")) as [description|];
    simpl; [|discriminate].
  intros [= <-]. eauto.
Qed.

(** X18.  The [isActive] of an update is a test against the string "true":
    the update data carry [isActive] exactly when the field is not
    [undefined], carry [true] exactly when the field is the string "true",
    and so carry [false] for the boolean [true] as for any other value. *)
Theorem update_isActive_is_string_test (req : Request)
  (updateData : CourseModel.UpdateData) :
  put_courses_updateData req = Some updateData ->
  (CourseModel.u_isActive updateData = None
   <-> field req "isActive" = JS.VUndef)
  /\ (CourseModel.u_isActive updateData = Some true
      <-> field req "isActive" = JS.VStr "true")
  /\ (forall b, field req "isActive" = JS.VBool b ->
                CourseModel.u_isActive updateData = Some false).
Proof.
  intros H.
  destruct (updateData_inv req updateData H) as (o1 & o2 & _ & _ & ->).
  simpl. destruct (field req "isActive") as [| |b|x|s|t]; simpl;
    (split; [split; intros E; try discriminate E; try reflexivity|]);
    (split; [split; intros E|intros b' E];
     try discriminate E; try reflexivity).
  - injection E as E. apply String.eqb_eq in E. congruence.
  - injection E as ->. reflexivity.
Qed.

Lemma trimmed_long (n : nat) (v : JS.value) (t : string) :
  present_and_short n v = Some false ->
  trimmed_if_present v = Some (Some t) ->
  n <= String.length t.
Proof.
  unfold present_and_short, trimmed_if_present.
  destruct (JS.truthy v); [|discriminate].
  destruct (JS.call_trim v) as [t'|]; simpl; [|discriminate].
  intros [= H] [= <-]. apply Nat.ltb_ge, H.
Qed.

(** X19.  What PUT /courses/:id hands the store after validation has passed
    keeps the rules of the data model but for one: a title has at least 3
    and a description at least 10 characters, a category and a level are
    from the lists, a price is neither [NaN] nor negative, and a duration is
    positive, or else zero, which happens only for a falsy value of the
    field. *)
Theorem update_data_in_range (req : Request)
  (updateData : CourseModel.UpdateData) :
  put_courses_errors req = Some ∅ ->
  put_courses_updateData req = Some updateData ->
  (forall t, CourseModel.u_title updateData = Some t -> 3 <= String.length t)
  /\ (forall t, CourseModel.u_description updateData = Some t ->
                10 <= String.length t)
  /\ (forall v, CourseModel.u_category updateData = Some v ->
                JS.includes categories v = true)
  /\ (forall v, CourseModel.u_level updateData = Some v ->
                JS.includes levels v = true)
  /\ (forall x, CourseModel.u_price updateData = Some x ->
                Spec.not_negative x)
  /\ (forall x, CourseModel.u_duration updateData = Some x ->
                Spec.positive x
                \/ (x = JS.zero /\ JS.truthy (field req "duration") = false)).
Proof.
  intros He Hu.
  destruct (put_errors_inv req ∅ He) as (b1 & b2 & Hb1 & Hb2 & Hchain).
  assert (Hoff : forall name,
             (if String.eqb name "title" then b1
              else if String.eqb name "description" then b2
              else if String.eqb name "category" then
                JS.truthy (field req "category")
                && negb (JS.includes categories (field req "category"))
              else if String.eqb name "level" then
                JS.truthy (field req "level")
                && negb (JS.includes levels (field req "level"))
              else if String.eqb name "price" then
                JS.truthy (field req "price") && bad_price (field req "price")
              else if String.eqb name "duration" then
                JS.truthy (field req "duration")
                && bad_duration (field req "duration")
              else false) = false).
  { intros name. apply not_true_is_false. intros Htrue.
    apply (not_is_Some_empty name). rewrite Hchain.
    apply errors_keys, Htrue. }
  pose proof (Hoff "title") as H1. pose proof (Hoff "description") as H2.
  pose proof (Hoff "category") as H3. pose proof (Hoff "level") as H4.
  pose proof (Hoff "price") as H5. pose proof (Hoff "duration") as H6.
  simpl in H1, H2, H3, H4, H5, H6. subst b1 b2.
  destruct (updateData_inv req updateData Hu) as (o1 & o2 & Ho1 & Ho2 & ->).
  simpl. refine (conj _ (conj _ (conj _ (conj _ (conj _ _))))).
  - intros t ->. apply (trimmed_long 3 _ t Hb1 Ho1).
  - intros t ->. apply (trimmed_long 10 _ t Hb2 Ho2).
  - intros v. destruct (JS.truthy (field req "category")); [|discriminate].
    intros [= <-]. apply negb_false_iff, H3.
  - intros v. destruct (JS.truthy (field req "level")); [|discriminate].
    intros [= <-]. apply negb_false_iff, H4.
  - intros x. destruct (JS.defined (field req "price")); [|discriminate].
    intros [= <-].
    destruct (JS.truthy (field req "price")) eqn:Ht.
    + apply or_zero_not_negative, H5.
    + rewrite (proj1 (falsy_parses_to_zero _ Ht)). split; reflexivity.
  - intros x. destruct (JS.defined (field req "duration")); [|discriminate].
    intros [= <-].
    destruct (JS.truthy (field req "duration")) eqn:Ht.
    + left. apply or_zero_positive, H6.
    + right. split; [apply (falsy_parses_to_zero _ Ht)|reflexivity].
Qed.

End CourseData.

(** ** The video routes *)

Section VideoRoutes.

Import Admin.

Variable addVideo :
  Env -> string -> VideoData -> list CourseModel.Course
  -> option Video.Video * list CourseModel.Course.
Variable updateVideo :
  Env -> string -> string -> VideoUpdateData -> list CourseModel.Course
  -> option Video.Video * list CourseModel.Course.

(** The keys of the [errors] object after the four tests of the add-video
    route. *)
Lemma video_errors_keys (b1 b2 b3 b4 : bool) (m1 m2 m3 m4 : string)
  (name : string) :
  is_Some
    (set_if b4 "video" m4
       (set_if b3 "duration" m3
          (set_if b2 "description" m2
             (set_if b1 "title" m1 ∅))) !! name)
  <-> (if String.eqb name "title" then b1
       else if String.eqb name "description" then b2
       else if String.eqb name "duration" then b3
       else if String.eqb name "video" then b4
       else false) = true.
Proof.
  rewrite !set_if_lookup, lookup_empty.
  repeat match goal with
         | |- context [String.eqb name ?k] =>
             destruct (String.eqb_spec name k) as [->|?]; simpl
         end;
    rewrite ?andb_false_r, ?andb_true_r;
    repeat match goal with
           | |- context [if ?b then _ else _] => destruct b
           end;
    split; intros H; try discriminate; eauto;
    destruct H as [? H]; discriminate.
Qed.

Lemma post_videos_errors_text (req : Request) :
  Spec.text_or_absent (field req "title") ->
  Spec.text_or_absent (field req "description") ->
  exists errors,
    post_videos_errors req = Some errors
    /\ forall name,
        is_Some (errors !! name) <-> Spec.invalid_video_field req name = true.
Proof.
  intros Ht Hd. unfold post_videos_errors.
  rewrite (missing_or_short_text 3 _ ltac:(lia) Ht). simpl.
  rewrite (missing_or_short_text 10 _ ltac:(lia) Hd). simpl.
  eexists. split; [reflexivity|]. intros name.
  rewrite video_errors_keys. unfold Spec.invalid_video_field.
  rewrite bad_duration_spec. reflexivity.
Qed.

(** X20.  For an add-video input whose title and description are strings or
    absent: if the trimmed title is shorter than 3, or the trimmed
    description shorter than 10, or the duration non-numeric or not
    positive, or no file came with the request, POST
    /courses/:courseId/videos answers 400 "Validation failed" with an
    [errors] object whose keys are exactly the failing ones among [title],
    [description], [duration] and [video]; the store is not asked to add
    anything and the stores stay as they were. *)
Theorem video_validation_collects (env : Env) (courseId : string)
  (req : Request) (st : Store) :
  Spec.text_or_absent (field req "title") ->
  Spec.text_or_absent (field req "description") ->
  (exists name, Spec.invalid_video_field req name = true) ->
  exists errors,
    post_videos addVideo env courseId req st
    = (Answer (validation_failed errors), st)
    /\ forall name,
        is_Some (errors !! name) <-> Spec.invalid_video_field req name = true.
Proof.
  intros Ht Hd [name0 Hinv].
  destruct (post_videos_errors_text req Ht Hd) as (errors & He & Hkeys).
  exists errors. split; [|exact Hkeys].
  unfold post_videos, try_catch_video, post_videos_body. rewrite He. simpl.
  rewrite (nonempty_size errors name0); [reflexivity|].
  apply Hkeys, Hinv.
Qed.

(** X21.  When an add-video input has text for title and description, a
    file, and no failing field, the route asks the store to add, to the
    course of the route, a [videoData] with the trimmed title of at least 3
    and the trimmed description of at least 10 characters, the public path
    of the stored file, and a positive duration; it answers 404 "Course not
    found" when the store returns nothing and 201 with the video
    otherwise. *)
Theorem added_video_data (env : Env) (courseId : string) (req : Request)
  (st : Store) :
  Spec.text_or_absent (field req "title") ->
  Spec.text_or_absent (field req "description") ->
  (forall name, Spec.invalid_video_field req name = false) ->
  exists data s d f,
    field req "title" = JS.VStr s
    /\ field req "description" = JS.VStr d
    /\ file req = Some f
    /\ post_videos_videoData req = Some data
    /\ v_title data = JS.trim s
    /\ 3 <= String.length (v_title data)
    /\ v_description data = JS.trim d
    /\ 10 <= String.length (v_description data)
    /\ v_videoUrl data = "/uploads/videos/" ++ filename f
    /\ Spec.positive (v_duration data)
    /\ post_videos addVideo env courseId req st
       = match addVideo env courseId data (courses st) with
         | (None, cs) =>
             (Answer (mkResponse 404 (Failure "Course not found" None)),
              with_courses cs st)
         | (Some video, cs) => (AnswerVideo 201 video, with_courses cs st)
         end.
Proof.
  intros Ht Hd Hvalid.
  destruct (post_videos_errors_text req Ht Hd) as (errors & He & Hkeys).
  assert (errors = ∅) as ->.
  { apply no_keys_empty. intros name Hs. apply Hkeys in Hs.
    rewrite Hvalid in Hs. discriminate Hs. }
  pose proof (Hvalid "title") as H1. pose proof (Hvalid "description") as H2.
  pose proof (Hvalid "duration") as H3. pose proof (Hvalid "video") as H4.
  unfold Spec.invalid_video_field in H1, H2, H3, H4. simpl in *.
  destruct (too_short_false 3 _ ltac:(lia) Ht H1) as (s & Hs & _ & Hls).
  destruct (too_short_false 10 _ ltac:(lia) Hd H2) as (d & Hds & _ & Hld).
  rewrite <- bad_duration_spec in H3.
  destruct (file req) as [f|] eqn:Hf; [|discriminate].
  assert (Hdata : post_videos_videoData req
                  = Some {| v_title := JS.trim s;
                            v_description := JS.trim d;
                            v_videoUrl := video_path f;
                            v_duration :=
                              JS.or_zero (JS.parseInt (field req "duration"))
                         |}).
  { unfold post_videos_videoData. rewrite Hs, Hds, Hf. reflexivity. }
  eexists _, s, d, f. split; [exact Hs|]. split; [exact Hds|].
  split; [reflexivity|]. split; [exact Hdata|]. simpl.
  split; [reflexivity|]. split; [exact Hls|].
  split; [reflexivity|]. split; [exact Hld|]. split; [reflexivity|].
  split; [apply or_zero_positive, H3|].
  unfold post_videos, try_catch_video, post_videos_body.
  rewrite He. simpl. rewrite Hdata. simpl.
  destruct (addVideo env courseId _ (courses st)) as [[video|] cs];
    reflexivity.
Qed.

Lemma put_videos_errors_inv (req : Request) :
  put_videos_errors req = Some ∅ ->
  present_and_short 3 (field req "title") = Some false
  /\ present_and_short 10 (field req "description") = Some false
  /\ JS.truthy (field req "duration") && bad_duration (field req "duration")
     = false.
Proof.
  unfold put_videos_errors.
  destruct (present_and_short 3 (field req "title")) as [b1|]; simpl;
    [|discriminate].
  destruct (present_and_short 10 (field req "description")) as [b2|]; simpl;
    [|discriminate].
  intros [= H].
  assert (Hoff : forall b m name,
             set_if b name m (∅ : gmap string string) = ∅ -> b = false).
  { intros b m name Hb. destruct b; [|reflexivity]. simpl in Hb.
    apply insert_non_empty in Hb. destruct Hb. }
  assert (Hstep : forall b m name (e : gmap string string),
             set_if b name m e = ∅ -> b = false /\ e = ∅).
  { intros b m name e Hb. destruct b; [|auto]. simpl in Hb.
    apply insert_non_empty in Hb. destruct Hb. }
  apply Hstep in H as [H3 H]. apply Hstep in H as [H2 H].
  apply Hoff in H. subst. auto.
Qed.

(** X22.  What PUT /courses/:courseId/videos/:videoId hands the store after
    validation has passed: a title of at least 3 and a description of at
    least 10 characters when given, and a duration, given whenever the field
    is not [undefined], that is positive or else zero, which happens only
    for a falsy value of the field (0, the empty string, [null]); the route
    answers 404 "Video not found" when the store returns nothing and 200
    with the video otherwise. *)
Theorem video_update_data (env : Env) (courseId videoId : string)
  (req : Request) (st : Store) :
  put_videos_errors req = Some ∅ ->
  exists updateData,
    put_videos_updateData req = Some updateData
    /\ (forall t, vu_title updateData = Some t -> 3 <= String.length t)
    /\ (forall t, vu_description updateData = Some t ->
                  10 <= String.length t)
    /\ (vu_duration updateData = None <-> field req "duration" = JS.VUndef)
    /\ (forall x, vu_duration updateData = Some x ->
                  Spec.positive x
                  \/ (x = JS.zero
                      /\ JS.truthy (field req "duration") = false))
    /\ put_videos updateVideo env courseId videoId req st
       = match updateVideo env courseId videoId updateData (courses st) with
         | (None, cs) =>
             (Answer (mkResponse 404 (Failure "Video not found" None)),
              with_courses cs st)
         | (Some video, cs) => (AnswerVideo 200 video, with_courses cs st)
         end.
Proof.
  intros He. destruct (put_videos_errors_inv req He) as (H1 & H2 & H3).
  destruct (trimmed_of_present _ _ _ H1) as (o1 & E1 & _).
  destruct (trimmed_of_present _ _ _ H2) as (o2 & E2 & _).
  assert (Hdata : put_videos_updateData req
                  = Some {| vu_title := o1; vu_description := o2;
                            vu_duration :=
                              if JS.defined (field req "duration")
                              then Some (JS.or_zero
                                           (JS.parseInt (field req "duration")))
                              else None |}).
  { unfold put_videos_updateData. rewrite E1, E2. reflexivity. }
  eexists. split; [exact Hdata|]. simpl.
  refine (conj _ (conj _ (conj _ (conj _ _)))).
  - intros t ->. apply (trimmed_long 3 _ t H1 E1).
  - intros t ->. apply (trimmed_long 10 _ t H2 E2).
  - destruct (field req "duration"); simpl; split; intros E;
      try discriminate E; reflexivity.
  - intros x. destruct (JS.defined (field req "duration")); [|discriminate].
    intros [= <-]. destruct (JS.truthy (field req "duration")) eqn:Ht.
    + left. apply or_zero_positive, H3.
    + right. split; [apply (falsy_parses_to_zero _ Ht)|reflexivity].
  - unfold put_videos, try_catch_video, put_videos_body.
    rewrite He. simpl. rewrite Hdata. simpl.
    destruct (updateVideo env courseId videoId _ (courses st))
      as [[video|] cs]; reflexivity.
Qed.

(** X23.  A title that is truthy but no string makes [title.trim()] throw
    in the validation of all four routes that take a title: each answers 500
    with its own message, asks nothing of the store and leaves the stores as
    they were. *)
Theorem non_text_title_is_500 (env : Env) (courseId videoId : string)
  (req : Request) (st : Store) :
  JS.truthy (field req "title") = true ->
  (forall s, field req "title" <> JS.VStr s) ->
  post_courses env req st
  = (mkResponse 500 (Failure "Failed to create course" None), st)
  /\ put_courses env req st
     = (mkResponse 500 (Failure "Failed to update course" None), st)
  /\ post_videos addVideo env courseId req st
     = (Answer (mkResponse 500 (Failure "Failed to add video" None)), st)
  /\ put_videos updateVideo env courseId videoId req st
     = (Answer (mkResponse 500 (Failure "Failed to update video" None)), st).
Proof.
  intros Ht Hs.
  assert (Hthrow : JS.call_trim (field req "title") = None).
  { destruct (field req "title") as [| | | |s|]; try reflexivity.
    destruct (Hs s eq_refl). }
  unfold post_courses, put_courses, post_videos, put_videos, try_catch,
    try_catch_video, post_courses_body, put_courses_body, post_videos_body,
    put_videos_body, post_courses_errors, put_courses_errors,
    post_videos_errors, put_videos_errors, missing_or_short,
    present_and_short.
  rewrite Ht, Hthrow. simpl. auto.
Qed.

End VideoRoutes.

(** ** The upload filter *)

(** X24.  Uploads are sorted and filtered by field name together: a file
    that is accepted and put into the videos directory has a MIME type that
    starts with "video/", one accepted into the thumbnails directory has a
    MIME type that starts with "image/", and a file under any other field
    name is accepted whatever its type and put into the uploads root. *)
Theorem upload_lands_by_type (f : Admin.Upload) :
  (Admin.fileFilter f = Admin.Accepted ->
   Admin.destination f = Admin.videosDir ->
   String.prefix "video/" (Admin.mimetype f) = true)
  /\ (Admin.fileFilter f = Admin.Accepted ->
      Admin.destination f = Admin.thumbnailsDir ->
      String.prefix "image/" (Admin.mimetype f) = true)
  /\ (Admin.fieldname f <> "video" -> Admin.fieldname f <> "thumbnail" ->
      Admin.fileFilter f = Admin.Accepted
      /\ Admin.destination f = Admin.uploadsDir)
  /\ (forall message,
         Admin.fileFilter f = Admin.Rejected message ->
         Admin.destination f <> Admin.uploadsDir).
Proof.
  unfold Admin.fileFilter, Admin.destination.
  destruct (String.eqb_spec (Admin.fieldname f) "video") as [Hv|Hv].
  - destruct (String.prefix "video/" (Admin.mimetype f));
      repeat split; intros; try discriminate; try reflexivity;
      congruence.
  - destruct (String.eqb_spec (Admin.fieldname f) "thumbnail") as [Hi|Hi].
    + destruct (String.prefix "image/" (Admin.mimetype f));
        repeat split; intros; try discriminate; try reflexivity;
        congruence.
    + repeat split; intros; try discriminate; reflexivity.
Qed.

(** ** The further properties on sample data *)

Lemma login_normalises_email_sample :
  Admin.post_login Sample.toy_compare
    (Sample.login_request "  Admin@YoungWealth.COM " "admin123")
    Sample.store0
  = Admin.post_login Sample.toy_compare
      (Sample.login_request "admin@youngwealth.com" "admin123")
      Sample.store0.
Proof.
  apply (login_normalises_email Sample.toy_compare
           (Sample.login_request "  Admin@YoungWealth.COM " "admin123")
           (Sample.login_request "admin@youngwealth.com" "admin123")
           Sample.store0 "  Admin@YoungWealth.COM " "admin@youngwealth.com"
           eq_refl eq_refl ltac:(discriminate) ltac:(discriminate)
           eq_refl eq_refl).
Defined.

Lemma unnormalised_admin_cannot_login_sample :
  Admin.status
    (Admin.post_login Sample.toy_compare
       (Sample.login_request "Admin@YoungWealth.com" "admin123")
       Sample.store_raw).1
  <> 200.
Proof.
  apply (unnormalised_admin_cannot_login Sample.toy_compare
           (Sample.login_request "Admin@YoungWealth.com" "admin123")
           Sample.store_raw).
  intros u Hu _. apply list_elem_of_singleton in Hu. subst u.
  intros H. vm_compute in H. discriminate H.
Defined.

Lemma registered_admin_can_login_sample :
  let st' :=
    Spec.with_users
      (UserModel.create Sample.toy_hash Sample.env0 Sample.new_admin
         (Admin.users Sample.store0)).2 Sample.store0 in
  exists admin,
    Admin.post_login Sample.toy_compare
      (Sample.login_request " Root@YoungWealth.com" "s3cret-pass") st'
    = (Admin.mkResponse 200 (Admin.SuccessAdmin admin), st')
    /\ admin !! "email" = Some (JS.VStr "root@youngwealth.com")
    /\ admin !! "role" = Some (JS.VStr "admin")
    /\ admin !! "password" = None.
Proof.
  apply (registered_admin_can_login Sample.toy_hash Sample.toy_compare
           Sample.env0 Sample.new_admin Sample.store0
           (Sample.login_request " Root@YoungWealth.com" "s3cret-pass")
           " Root@YoungWealth.com");
    try reflexivity; try discriminate.
  intros u Hu. apply String.eqb_neq.
  apply (findIndex_None
           (fun user => String.eqb (UserModel.email user)
                          "root@youngwealth.com")
           (Admin.users Sample.store0) eq_refl u Hu).
Defined.

Lemma created_user_is_counted_sample :
  let st' :=
    Spec.with_users
      (UserModel.create Sample.toy_hash Sample.env1 Sample.newcomer
         (Admin.users Sample.store0)).2 Sample.store0 in
  Admin.totalUsers (Admin.stats_of st') = 3
  /\ Admin.employees (Admin.stats_of st') = 1
  /\ Admin.schoolStudents (Admin.stats_of st') = 1.
Proof.
  destruct (created_user_is_counted Sample.toy_hash Sample.env1
              Sample.newcomer Sample.store0
              ltac:(intros u Hu; apply String.eqb_neq;
                    apply (findIndex_None
                             (fun user =>
                                String.eqb (UserModel.email user)
                                  "new@youngwealth.com")
                             (Admin.users Sample.store0) eq_refl u Hu)))
    as (Ht & Hs & _ & He & _).
  split; [exact Ht|]. split; [exact He|exact Hs].
Defined.

Lemma created_course_data_sample :
  exists data,
    Admin.post_courses_courseData (Sample.request "" Sample.valid_fields)
    = Some data
    /\ CourseModel.d_title data = "Investing 101"
    /\ Spec.positive (CourseModel.d_duration data)
    /\ Admin.status
         (Admin.post_courses Sample.env1
            (Sample.request "" Sample.valid_fields) Sample.store0).1 = 201.
Proof.
  destruct (created_course_data Sample.env1
              (Sample.request "" Sample.valid_fields) Sample.store0
              (or_intror (ex_intro _ "Investing 101" eq_refl))
              (or_intror (ex_intro _ "A first look at long-term investing"
                            eq_refl))
              ltac:(intros name; unfold Spec.invalid_field;
                    repeat (destruct (String.eqb name _); [reflexivity|]);
                    reflexivity))
    as (data & s & d & Hs & _ & Hdata & Ht & _ & _ & _ & _ & _ & _ & Hdur
        & _ & Hpost).
  exists data. split; [exact Hdata|].
  split; [rewrite Ht; injection Hs as <-; reflexivity|].
  split; [exact Hdur|]. rewrite Hpost. reflexivity.
Defined.

Lemma update_validation_collects_sample :
  exists errors,
    Admin.put_courses Sample.env1
      (Sample.request "c-1" [("price", JS.VStr "-3")]) Sample.store0
    = (Admin.validation_failed errors, Sample.store0)
    /\ is_Some (errors !! "price")
    /\ ~ is_Some (errors !! "title").
Proof.
  destruct (proj1 (update_validation_collects Sample.env1
                     (Sample.request "c-1" [("price", JS.VStr "-3")])
                     Sample.store0 (or_introl eq_refl) (or_introl eq_refl))
              (ex_intro _ "price" eq_refl))
    as (errors & Heq & Hkeys).
  exists errors. split; [exact Heq|].
  split; [apply Hkeys; reflexivity|].
  intros H. apply Hkeys in H. vm_compute in H. discriminate H.
Defined.

Lemma update_isActive_is_string_test_sample :
  exists updateData,
    Admin.put_courses_updateData
      (Sample.request "c-1" [("isActive", JS.VBool true)]) = Some updateData
    /\ CourseModel.u_isActive updateData = Some false.
Proof.
  eexists. split; [reflexivity|].
  apply (proj2 (proj2 (update_isActive_is_string_test
                         (Sample.request "c-1" [("isActive", JS.VBool true)])
                         _ eq_refl)) true eq_refl).
Defined.

Lemma update_data_in_range_sample :
  exists updateData,
    Admin.put_courses_updateData
      (Sample.request "c-1"
         [("price", JS.VStr "10.50"); ("duration", JS.VStr "")])
    = Some updateData
    /\ CourseModel.u_price updateData = Some (JS.Fin 105 (-1))
    /\ Spec.not_negative (JS.Fin 105 (-1))
    /\ CourseModel.u_duration updateData = Some JS.zero.
Proof.
  eexists. split; [reflexivity|]. split; [reflexivity|].
  split; [|reflexivity].
  apply (proj1 (proj2 (proj2 (proj2 (proj2
           (update_data_in_range
              (Sample.request "c-1"
                 [("price", JS.VStr "10.50"); ("duration", JS.VStr "")])
              _ eq_refl eq_refl))))) (JS.Fin 105 (-1)) eq_refl).
Defined.

Lemma video_validation_collects_sample :
  exists errors,
    Admin.post_videos Sample.toy_addVideo Sample.env1 "c-1"
      (Sample.request "" Sample.video_fields) Sample.store0
    = (Admin.Answer (Admin.validation_failed errors), Sample.store0)
    /\ is_Some (errors !! "video")
    /\ ~ is_Some (errors !! "duration").
Proof.
  destruct (video_validation_collects Sample.toy_addVideo Sample.env1 "c-1"
              (Sample.request "" Sample.video_fields) Sample.store0
              (or_intror (ex_intro _ " Compound interest " eq_refl))
              (or_intror (ex_intro _ "How interest on interest grows savings"
                            eq_refl))
              (ex_intro _ "video" eq_refl))
    as (errors & Heq & Hkeys).
  exists errors. split; [exact Heq|].
  split; [apply Hkeys; reflexivity|].
  intros H. apply Hkeys in H. vm_compute in H. discriminate H.
Defined.

Lemma added_video_data_sample :
  exists data video,
    Admin.post_videos_videoData
      (Sample.with_file "video-1762214400000-42.mp4"
         (Sample.request "" Sample.video_fields))
    = Some data
    /\ Admin.v_title data = "Compound interest"
    /\ Admin.v_videoUrl data = "/uploads/videos/video-1762214400000-42.mp4"
    /\ Admin.post_videos Sample.toy_addVideo Sample.env1 "c-1"
         (Sample.with_file "video-1762214400000-42.mp4"
            (Sample.request "" Sample.video_fields)) Sample.store0
       = (Admin.AnswerVideo 201 video, Sample.store0).
Proof.
  destruct (added_video_data Sample.toy_addVideo Sample.env1 "c-1"
              (Sample.with_file "video-1762214400000-42.mp4"
                 (Sample.request "" Sample.video_fields)) Sample.store0
              (or_intror (ex_intro _ " Compound interest " eq_refl))
              (or_intror (ex_intro _ "How interest on interest grows savings"
                            eq_refl))
              ltac:(intros name; unfold Spec.invalid_video_field;
                    repeat (destruct (String.eqb name _); [reflexivity|]);
                    reflexivity))
    as (data & s & d & f & Hs & _ & Hf & Hdata & Ht & _ & _ & _ & Hurl & _
        & Hpost).
  exists data. eexists. split; [exact Hdata|].
  split; [rewrite Ht; injection Hs as <-; reflexivity|].
  split; [rewrite Hurl; injection Hf as <-; reflexivity|].
  rewrite Hpost. injection Hdata as <-. reflexivity.
Defined.

Lemma video_update_data_sample :
  exists updateData,
    Admin.put_videos_updateData
      (Sample.request "" [("duration", JS.VStr "")]) = Some updateData
    /\ Admin.vu_duration updateData = Some JS.zero
    /\ Admin.put_videos Sample.toy_updateVideo Sample.env1 "c-1" "v-9"
         (Sample.request "" [("duration", JS.VStr "")]) Sample.store0
       = (Admin.Answer
            (Admin.mkResponse 404 (Admin.Failure "Video not found" None)),
          Sample.store0).
Proof.
  destruct (video_update_data Sample.toy_updateVideo Sample.env1 "c-1" "v-9"
              (Sample.request "" [("duration", JS.VStr "")]) Sample.store0
              eq_refl)
    as (updateData & Hdata & _ & _ & _ & _ & Hput).
  exists updateData. split; [exact Hdata|].
  split; [injection Hdata as <-; reflexivity|].
  rewrite Hput. injection Hdata as <-. reflexivity.
Defined.

Lemma non_text_title_is_500_sample :
  Admin.put_courses Sample.env1
    (Sample.request "c-1" [("title", JS.VNum (JS.Fin 12345 0))])
    Sample.store0
  = (Admin.mkResponse 500 (Admin.Failure "Failed to update course" None),
     Sample.store0).
Proof.
  apply (proj1 (proj2 (non_text_title_is_500 Sample.toy_addVideo
                         Sample.toy_updateVideo Sample.env1 "c-1" "v-1"
                         (Sample.request "c-1"
                            [("title", JS.VNum (JS.Fin 12345 0))])
                         Sample.store0 eq_refl
                         ltac:(intros s; discriminate)))).
Defined.
